(** * GCN backend (src/backend/server.js, src/backend/dbInit.js): the retry
      executor, the conversation store and the query orchestrator, embedded as
      state-passing functions.

    Conventions of the embedding.
    - A promise that settles is a value of [settled]: [Resolved a] for a
      fulfilled promise, [Rejected e] for a rejected one (a [throw] inside an
      [async] function).
    - Effects are explicit: every operation takes the world it runs in and
      returns the world it leaves behind.  Requests are served one after the
      other; interleavings of concurrent requests are not modelled.
    - [console.log] / [console.error] calls have no effect on any value the
      program computes and are left out.
    - The database is up: a statement fails only when it violates a constraint
      declared in dbInit.js (NOT NULL, REFERENCES, the length of a VARCHAR) or
      is handed a value the column type refuses (text with a NUL character,
      JSON that JSONB does not take).  The three handlers that check who
      owns a session are also given with statements that may fail for any
      other reason ([api_chat_history_faults] and the like); the [catch] of
      DELETE /api/chat undoes a transaction.
    - Request parameters arrive decoded: a text parameter is [Some s] or
      [None] (absent), a user id is [Some n] (the integer it denotes) or
      [None] (absent or falsy).  A user id that is no INTEGER of the database
      ([int4]) makes the statement it is bound to fail; the properties of the
      handlers that compare ids say where they ask for one.  Chat ids and
      session names are stored as they are sent. *)

From Stdlib Require Import ZArith List String Ascii Bool Lia Arith Permutation Sorted.
Import ListNotations.
Open Scope string_scope.
Open Scope Z_scope.
Set Warnings "-register-all".

(** ** Settled promises and HTTP responses *)

Inductive settled (E A : Type) : Type :=
| Resolved (a : A)
| Rejected (e : E).
Arguments Resolved {E A} a.
Arguments Rejected {E A} e.

Definition is_rejected {E A} (r : settled E A) : Prop :=
  match r with Rejected _ => True | Resolved _ => False end.

Definition error_of {E A} (r : settled E A) : option E :=
  match r with Rejected e => Some e | Resolved _ => None end.

(** [res.json(body)] answers with status 200; [res.status(c).json({message})]
    is [Fail c message]. *)
Inductive response (A : Type) : Type :=
| Ok200 (body : A)
| Fail (status : Z) (message : string).
Arguments Ok200 {A} body.
Arguments Fail {A} status message.

Definition status_of {A} (r : response A) : Z :=
  match r with Ok200 _ => 200 | Fail c _ => c end.

(** ** Retry executor: [retryRequest(fn, retries = 3, delay = 1000)] *)

Module Retry.
Section Executor.
Context {W E A : Type}.

(** [await new Promise((resolve) => setTimeout(resolve, delay))]. *)
Variable setTimeout : Z -> W -> W.

(** One draw of [Math.random()], reported as the jitter [j] it adds to the
    next delay, in half milliseconds:
    [j = floor (2 * (delay * 1.5 + Math.random() * 1000)) - 3 * delay], the
    sum being the double the code computes.  For a delay below [2 ^ 51] the
    product [delay * 1.5] is exact and [0 <= j <= 2000]. *)
Variable Math_random : W -> Z * W.

(** The wrapped operation [fn]. *)
Variable fn : W -> settled E A * W.

(** [Math.floor(delay * 1.5 + Math.random() * 1000)]: with [j] the draw in
    half milliseconds and [delay] an integer this is
    [floor ((3 * delay + j) / 2)].  The JS numbers are doubles; what is said
    about the size of a delay is said for delays below [2 ^ 51], where
    [delay * 1.5] is computed without rounding and the draw lies between 0
    and 2000. *)
Definition next_delay (delay j : Z) : Z := (3 * delay + j) / 2.

(** The [for (let attempt = 0; attempt < attempts; attempt++)] loop;
    [todo] counts the iterations that remain, [attempts - attempt].
    [lastError] is [None] while the JS variable is still [undefined]. *)
Fixpoint attempt_loop (todo : nat) (attempt retries delay : Z)
         (lastError : option E) (w : W) : settled (option E) A * W :=
  match todo with
  | O => (Rejected lastError, w)                      (* throw lastError *)
  | S todo' =>
      match fn w with
      | (Resolved a, w1) => (Resolved a, w1)          (* return await fn() *)
      | (Rejected error, w1) =>
          if attempt <? retries then
            let w2 := setTimeout delay w1 in
            let '(j, w3) := Math_random w2 in
            attempt_loop todo' (attempt + 1) retries (next_delay delay j)
                         (Some error) w3
          else
            attempt_loop todo' (attempt + 1) retries delay (Some error) w1
      end
  end.

Definition retryRequest (retries delay : Z) (w : W) : settled (option E) A * W :=
  let attempts := retries + 1 in
  attempt_loop (Z.to_nat attempts) 0 retries delay None w.

End Executor.
End Retry.

(** ** A scripted operation, to count invocations

    The mock records how often the operation was invoked, every delay that was
    waited for and how many random numbers were drawn.  The outcome of the
    [i]-th invocation (from 0) is [script i]. *)

Module Mock.

Record world : Type := mk {
  invocations : nat;
  waited : list Z;
  draws : nat
}.

Definition fresh : world := mk 0 [] 0.

Definition setTimeout (d : Z) (w : world) : world :=
  mk (invocations w) (waited w ++ [d]) (draws w).

Definition Math_random (jitter : nat -> Z) (w : world) : Z * world :=
  (jitter (draws w), mk (invocations w) (waited w) (S (draws w))).

Definition fn {E A} (script : nat -> settled E A) (w : world)
  : settled E A * world :=
  (script (invocations w), mk (S (invocations w)) (waited w) (draws w)).

Definition retryRequest {E A} (script : nat -> settled E A)
           (jitter : nat -> Z) (retries delay : Z) (w : world)
  : settled (option E) A * world :=
  Retry.retryRequest setTimeout (Math_random jitter) (fn script)
                     retries delay w.

End Mock.

(** ** JSON values of the upstream payload *)

Inductive json : Type :=
| JNull
| JBool (b : bool)
| JNum (n : Z)
| JStr (s : string)
| JArr (items : list json)
| JObj (fields : list (string * json)).

(** JS truthiness. *)
Definition truthy (v : json) : bool :=
  match v with
  | JNull => false
  | JBool b => b
  | JNum n => negb (n =? 0)
  | JStr s => negb (s =? "")%string
  | JArr _ | JObj _ => true
  end.

(** A field that is absent reads as [undefined], which is falsy. *)
Definition truthy_field (v : option json) : bool :=
  match v with Some j => truthy j | None => false end.

Definition truthy_text (s : option string) : bool :=
  match s with Some t => negb (t =? "")%string | None => false end.

(** [Array.isArray(v)]. *)
Definition isArray (v : option json) : bool :=
  match v with Some (JArr _) => true | _ => false end.

Definition has_field (k : string) (fields : list (string * json)) : bool :=
  existsb (fun kv => (fst kv =? k)%string) fields.

(** The [{query, context}] shape of a related-query suggestion. *)
Definition is_suggestion (v : json) : bool :=
  match v with
  | JObj fields => has_field "query" fields && has_field "context" fields
  | _ => false
  end.

Definition suggestion (text : string) : json :=
  JObj [("query", JStr text); ("context", JStr "Generated suggestion")].

(** A template literal prints [undefined] for a missing value. *)
Definition interpolate (s : option string) : string :=
  match s with Some t => t | None => "undefined" end.

(** [arr.slice(-n)]: the last [n] elements. *)
Definition slice_last {A} (n : nat) (l : list A) : list A :=
  skipn (List.length l - n) l.

(** ** Text as the database takes it

    A [string] holds the UTF-8 bytes of a JS string.  A surrogate without its
    partner, which UTF-8 proper cannot hold, is held in its generalised
    three-byte form: the byte [ED], a byte in [A0..BF] and one more. *)

Definition code (a : ascii) : N := N_of_ascii a.

(** A byte [10xxxxxx] continues a character. *)
Definition is_continuation (a : ascii) : bool :=
  ((128 <=? code a) && (code a <? 192))%N.

(** The number of characters, which is what [VARCHAR(n)] counts in a UTF-8
    database. *)
Fixpoint chars (s : string) : nat :=
  match s with
  | EmptyString => O
  | String a r => if is_continuation a then chars r else S (chars r)
  end.

(** The first [n] characters, and what follows them. *)
Fixpoint take_chars (n : nat) (s : string) : string :=
  match s with
  | EmptyString => EmptyString
  | String a r =>
      if is_continuation a then String a (take_chars n r)
      else match n with
           | O => EmptyString
           | S n' => String a (take_chars n' r)
           end
  end.

Fixpoint drop_chars (n : nat) (s : string) : string :=
  match s with
  | EmptyString => EmptyString
  | String a r =>
      if is_continuation a then drop_chars n r
      else match n with
           | O => s
           | S n' => drop_chars n' r
           end
  end.

Fixpoint all_spaces (s : string) : bool :=
  match s with
  | EmptyString => true
  | String a r => (code a =? 32)%N && all_spaces r
  end.

(** Storing into a [VARCHAR(n)] column: a longer value is an error, unless
    what exceeds [n] characters is spaces only, which are cut off. *)
Definition varchar (n : nat) (s : string) : option string :=
  if (chars s <=? n)%nat then Some s
  else if all_spaces (drop_chars n s) then Some (take_chars n s)
  else None.

(** The NUL character, which no text value of the database holds. *)
Fixpoint has_nul (s : string) : bool :=
  match s with
  | EmptyString => false
  | String a r => (code a =? 0)%N || has_nul r
  end.

(** A surrogate without its partner starts here. *)
Definition surrogate_at (a : ascii) (r : string) : bool :=
  (code a =? 237)%N &&
  match r with
  | String b _ => ((160 <=? code b) && (code b <=? 191))%N
  | EmptyString => false
  end.

Fixpoint has_lone_surrogate (s : string) : bool :=
  match s with
  | EmptyString => false
  | String a r => surrogate_at a r || has_lone_surrogate r
  end.

(** Text that arrives in the database as it was sent. *)
Definition pg_text (s : string) : bool :=
  negb (has_nul s) && negb (has_lone_surrogate s).

(** U+FFFD, [EF BF BD]. *)
Definition replacement : string :=
  String (ascii_of_N 239) (String (ascii_of_N 191)
         (String (ascii_of_N 189) EmptyString)).

(** The bytes the [pg] client sends for a text parameter: the UTF-8 encoding
    of the JS string, in which a surrogate without its partner is replaced by
    U+FFFD.  [skip] counts the bytes of a replaced surrogate still to pass. *)
Fixpoint as_utf8_from (skip : nat) (s : string) : string :=
  match s with
  | EmptyString => EmptyString
  | String a r =>
      match skip with
      | S k => as_utf8_from k r
      | O => if surrogate_at a r then replacement ++ as_utf8_from 2 r
             else String a (as_utf8_from 0 r)
      end
  end.

Definition as_utf8 (s : string) : string := as_utf8_from 0 s.

(** What the JSONB input of the server takes of [JSON.stringify(v)]: the
    latter escapes a NUL character as [\u0000] and a surrogate without its
    partner as [\udXXX], and the former refuses both escapes. *)
Fixpoint jsonb_ok (v : json) : bool :=
  match v with
  | JStr s => pg_text s
  | JArr items => forallb jsonb_ok items
  | JObj fields => forallb (fun kv => pg_text (fst kv) && jsonb_ok (snd kv)) fields
  | _ => true
  end.

(** ** The database (dbInit.js)

    Rows are kept in insertion order, which is the order of [created_at];
    SERIAL ids and timestamps are not represented, nor are the columns no
    handler writes ([similar_images], [product_colors]). *)

Inductive Role : Type := user | assistant.

(** One entry of a chat memory, [{role, content}]; [JSON.stringify] drops a
    [content] that is [undefined]. *)
Record Message : Type := mkMessage {
  role : Role;
  content : option string
}.

Record ChatSession : Type := mkSession {
  s_chat_id : string;               (* TEXT PRIMARY KEY *)
  s_user_id : Z;                    (* INTEGER REFERENCES users(id) *)
  s_name : string;                  (* TEXT NOT NULL *)
  s_favorite : option bool          (* BOOLEAN DEFAULT FALSE *)
}.

Record HistoryRow : Type := mkHistory {
  h_user_id : Z;                    (* INTEGER REFERENCES users(id) *)
  h_chat_id : string;               (* TEXT REFERENCES chat_sessions(chat_id) *)
  h_query : string;                 (* TEXT NOT NULL *)
  h_answer : string;                (* TEXT NOT NULL *)
  h_pdf_references : json;
  h_online_images : json;
  h_online_videos : json;
  h_online_links : json;
  h_relevant_queries : json
}.

Record MemoryRow : Type := mkMemory {
  m_chat_id : string;               (* TEXT REFERENCES chat_sessions UNIQUE *)
  m_memory : list Message           (* JSONB *)
}.

Record Product : Type := mkProduct {
  p_title : string;                 (* VARCHAR(255) NOT NULL *)
  p_user_id : Z;                    (* INTEGER REFERENCES users(id) *)
  p_info : string;                  (* TEXT NOT NULL *)
  p_color : option string           (* VARCHAR(20) DEFAULT 'blue' *)
}.

Record Tables : Type := mkTables {
  users : list Z;                   (* the ids of the users table *)
  chat_sessions : list ChatSession;
  chat_history : list HistoryRow;
  chat_memory : list MemoryRow;
  products : list Product
}.

(** The single [pg] client: the current contents and, inside a transaction,
    the contents to go back to on ROLLBACK. *)
Record Db : Type := mkDb {
  tables : Tables;
  txn : option Tables
}.

Inductive DbError : Type :=
| NotNullViolation (column : string)
| ForeignKeyViolation (column : string)
| StringTooLong (column : string)
| InvalidText (column : string)
| InvalidJson (column : string).

(** The values of an INTEGER column. *)
Definition int4 (n : Z) : bool := (-2147483648 <=? n) && (n <=? 2147483647).

(** [JSON.stringify(memory)] as JSONB input. *)
Definition jsonb_memory_ok (memory : list Message) : bool :=
  forallb (fun m => match content m with
                    | Some c => pg_text c
                    | None => true
                    end) memory.

Definition set_sessions (l : list ChatSession) (t : Tables) : Tables :=
  mkTables (users t) l (chat_history t) (chat_memory t) (products t).
Definition set_history (l : list HistoryRow) (t : Tables) : Tables :=
  mkTables (users t) (chat_sessions t) l (chat_memory t) (products t).
Definition set_memory (l : list MemoryRow) (t : Tables) : Tables :=
  mkTables (users t) (chat_sessions t) (chat_history t) l (products t).
Definition set_products (l : list Product) (t : Tables) : Tables :=
  mkTables (users t) (chat_sessions t) (chat_history t) (chat_memory t) l.

Definition user_exists (uid : Z) (t : Tables) : bool :=
  existsb (Z.eqb uid) (users t).

Definition session_exists (cid : string) (t : Tables) : bool :=
  existsb (fun s => (s_chat_id s =? cid)%string) (chat_sessions t).

(** [db.query("BEGIN")], [db.query("ROLLBACK")], [db.query("COMMIT")]. *)
Definition BEGIN (d : Db) : Db :=
  match txn d with
  | None => mkDb (tables d) (Some (tables d))
  | Some _ => d
  end.

Definition ROLLBACK (d : Db) : Db :=
  match txn d with
  | Some saved => mkDb saved None
  | None => d
  end.

Definition COMMIT (d : Db) : Db := mkDb (tables d) None.

(** [SELECT chat_id FROM chat_sessions WHERE chat_id = $1 AND user_id = $2] *)
Definition select_owned_session (cid : string) (uid : Z) (t : Tables)
  : list ChatSession :=
  filter (fun s => (s_chat_id s =? cid)%string && (s_user_id s =? uid))
         (chat_sessions t).

(** [SELECT * FROM chat_history WHERE chat_id = $1 ORDER BY created_at ASC] *)
Definition select_history (cid : string) (t : Tables) : list HistoryRow :=
  filter (fun h => (h_chat_id h =? cid)%string) (chat_history t).

(** [SELECT memory FROM chat_memory WHERE chat_id = $1] *)
Definition select_memory (cid : string) (t : Tables) : list MemoryRow :=
  filter (fun m => (m_chat_id m =? cid)%string) (chat_memory t).

(** [INSERT INTO chat_sessions (chat_id, name, user_id) VALUES ($1, $2, $3)
     ON CONFLICT (chat_id) DO NOTHING]; a row that is not inserted is not
    checked against the foreign key. *)
Definition ensureSession (cid name : string) (uid : Z) (t : Tables)
  : settled DbError Tables :=
  if session_exists cid t then Resolved t
  else if user_exists uid t then
    Resolved (set_sessions (chat_sessions t ++ [mkSession cid uid name (Some false)]) t)
  else Rejected (ForeignKeyViolation "user_id").

(** [INSERT INTO chat_history (...) VALUES (...)]; an [undefined] parameter is
    sent as NULL.  The query and the answer go into TEXT columns, the five
    [JSON.stringify(...)] parameters into JSONB columns. *)
Definition appendHistory (cid : string) (uid : Z) (query answer : option string)
           (pdf_references online_images online_videos online_links
              relevant_queries : json) (t : Tables)
  : settled DbError Tables :=
  match query, answer with
  | None, _ => Rejected (NotNullViolation "query")
  | _, None => Rejected (NotNullViolation "answer")
  | Some q, Some a =>
      if has_nul q then Rejected (InvalidText "query")
      else if has_nul a then Rejected (InvalidText "answer")
      else if negb (forallb jsonb_ok
                      [pdf_references; online_images; online_videos;
                       online_links; relevant_queries]) then
        Rejected (InvalidJson "chat_history")
      else if negb (user_exists uid t) then
        Rejected (ForeignKeyViolation "user_id")
      else if negb (session_exists cid t) then
        Rejected (ForeignKeyViolation "chat_id")
      else
        Resolved (set_history
                    (chat_history t ++
                       [mkHistory uid cid (as_utf8 q) (as_utf8 a)
                                  pdf_references online_images
                                  online_videos online_links relevant_queries])
                    t)
  end.

(** [INSERT INTO chat_memory (chat_id, memory) VALUES ($1, $2)
     ON CONFLICT (chat_id) DO UPDATE SET memory = $2] *)
Definition putMemory (cid : string) (memory : list Message) (t : Tables)
  : settled DbError Tables :=
  if negb (jsonb_memory_ok memory) then Rejected (InvalidJson "memory")
  else if existsb (fun m => (m_chat_id m =? cid)%string) (chat_memory t) then
    Resolved (set_memory
                (map (fun m => if (m_chat_id m =? cid)%string
                               then mkMemory cid memory else m)
                     (chat_memory t))
                t)
  else if session_exists cid t then
    Resolved (set_memory (chat_memory t ++ [mkMemory cid memory]) t)
  else Rejected (ForeignKeyViolation "chat_id").

(** [memoryResult.rows.length > 0 ? memoryResult.rows[0].memory || [] : []] *)
Definition getMemory (cid : string) (t : Tables) : list Message :=
  match select_memory cid t with
  | row :: _ => m_memory row
  | [] => []
  end.

(** [DELETE FROM chat_memory WHERE chat_id = $1] *)
Definition delete_memory (cid : string) (t : Tables) : Tables :=
  set_memory (filter (fun m => negb (m_chat_id m =? cid)%string) (chat_memory t)) t.

(** [DELETE FROM chat_history WHERE chat_id = $1] *)
Definition delete_history (cid : string) (t : Tables) : Tables :=
  set_history (filter (fun h => negb (h_chat_id h =? cid)%string) (chat_history t)) t.

(** [DELETE FROM chat_sessions WHERE chat_id = $1 AND user_id = $2], with its
    [rowCount]. *)
Definition delete_session (cid : string) (uid : Z) (t : Tables) : Tables * nat :=
  (set_sessions
     (filter (fun s => negb ((s_chat_id s =? cid)%string && (s_user_id s =? uid)))
             (chat_sessions t)) t,
   List.length (select_owned_session cid uid t)).

(** [UPDATE chat_sessions SET favorite = $1 WHERE chat_id = $2 AND user_id = $3
     RETURNING *] *)
Definition update_favorite (favorite : option bool) (cid : string) (uid : Z)
           (t : Tables) : Tables * list ChatSession :=
  let hit s := (s_chat_id s =? cid)%string && (s_user_id s =? uid) in
  let upd s := mkSession (s_chat_id s) (s_user_id s) (s_name s) favorite in
  (set_sessions (map (fun s => if hit s then upd s else s) (chat_sessions t)) t,
   map upd (filter hit (chat_sessions t))).

(** ** The world of a request handler *)

(** What the handlers read of a failed axios call: [error.message]. *)
Record AxiosError : Type := mkAxiosError {
  error_message : string
}.

(** [aiResponse.data], the fields the handler touches.  [answer] and
    [chat_name] are text when present; a field that is absent is [None]. *)
Record AiData : Type := mkAiData {
  answer : option string;
  chat_name : option string;
  related_queries : option json;
  pdf_references : option json;
  online_images : option json;
  online_videos : option json;
  online_links : option json
}.

(** The body posted to [${ai_backend_url}/api/query]. *)
Record AiRequest : Type := mkAiRequest {
  fwd_query : option string;
  fwd_org_query : option string;
  fwd_chat_id : string;
  fwd_userId : Z;
  fwd_memory : list Message
}.

(** Everything the handlers do not decide themselves: what the AI backend
    answers to its [n]-th request, and what the [n]-th read of a source of
    non-determinism (Math.random, Array.prototype.sort with a random
    comparator, crypto.randomUUID, new Date) yields. *)
Record Env : Type := mkEnv {
  ai_query : nat -> AiRequest -> settled AxiosError AiData;
  ai_generate_product_queries :
    nat -> option string -> option string -> settled AxiosError unit;
  random_draw : nat -> Z;
  random_sort : nat -> list string -> list string;
  randomUUID : nat -> string;
  toISOString : nat -> string
}.

Record World : Type := mkWorld {
  db : Db;
  ai_calls : nat;                   (* requests sent to the AI backend *)
  waits : list Z;                   (* delays slept, in order *)
  reads : nat                       (* reads of non-determinism so far *)
}.

Definition set_db (d : Db) (w : World) : World :=
  mkWorld d (ai_calls w) (waits w) (reads w).

Definition set_tables (t : Tables) (w : World) : World :=
  set_db (mkDb t (txn (db w))) w.

Definition tick (w : World) : World :=
  mkWorld (db w) (ai_calls w) (waits w) (S (reads w)).

Definition setTimeout (d : Z) (w : World) : World :=
  mkWorld (db w) (ai_calls w) (waits w ++ [d]) (reads w).

Definition Math_random (env : Env) (w : World) : Z * World :=
  (random_draw env (reads w), tick w).

(** [a || b] on text. *)
Definition or_else (a : option string) (b : string) : string :=
  match a with
  | Some s => if truthy_text a then s else b
  | None => b
  end.

(** [v || []] on a payload field. *)
Definition or_empty (v : option json) : json :=
  match v with
  | Some j => if truthy j then j else JArr []
  | None => JArr []
  end.

(** ** Related-query fallback generator *)

Definition defaultQueries (query : option string) : list string :=
  let q := interpolate query in
  [ "What are the best practices related to " ++ q ++ "?";
    "How does " ++ q ++ " impact compliance requirements?";
    "What are common challenges with " ++ q ++ "?";
    "What standards govern " ++ q ++ "?";
    "How to implement " ++ q ++ " effectively?";
    "What are the latest developments in " ++ q ++ "?";
    "How to measure success in " ++ q ++ "?";
    "What are the risks associated with " ++ q ++ "?" ].

(** [defaultQueries.sort(() => 0.5 - Math.random()).slice(0, count).map(...)] *)
Definition generateAdditionalQueries (env : Env) (query : option string)
           (count : nat) (w : World) : list json * World :=
  (map suggestion
       (firstn count (random_sort env (reads w) (defaultQueries query))),
   tick w).

(** [if (!data.related_queries || !Array.isArray(data.related_queries))
       data.related_queries = []] *)
Definition coerce_related (rq : option json) : list json :=
  if negb (truthy_field rq) || negb (isArray rq) then []
  else match rq with
       | Some (JArr items) => items
       | _ => []
       end.

(** The callback of the final [map]. *)
Definition normalizeItem (item : json) : json :=
  match item with
  | JStr s => JObj [("query", JStr s); ("context", JStr "Generated suggestion")]
  | _ => item
  end.

(** The list before the final [map]: coerced and, when short, padded. *)
Definition pad_related (env : Env) (query : option string) (rq : option json)
           (w : World) : list json * World :=
  let related := coerce_related rq in
  if (List.length related <? 5)%nat then
    let '(additionalQueries, w1) :=
      generateAdditionalQueries env query (5 - List.length related) w in
    ((related ++ additionalQueries)%list, w1)
  else (related, w).

Definition normalize_related (env : Env) (query : option string)
           (rq : option json) (w : World) : list json * World :=
  let '(related, w1) := pad_related env query rq w in
  (map normalizeItem related, w1).

(** ** POST /api/query *)

Record QueryBody : Type := mkQueryBody {
  query : option string;
  org_query : option string;
  chat_id : option string;
  userId : option Z
}.

(** [{...data, chatId: finalChatId}] *)
Record QueryReply : Type := mkQueryReply {
  data : AiData;
  chatId : string
}.

(** [const finalChatId = chat_id || crypto.randomUUID()] *)
Definition resolve_chat_id (env : Env) (body : QueryBody) (w : World)
  : string * World :=
  if truthy_text (chat_id body) then (or_else (chat_id body) "", w)
  else (randomUUID env (reads w), tick w).

(** [let chatMemory = []; if (chat_id) { ... }] *)
Definition load_memory (body : QueryBody) (w : World) : list Message :=
  if truthy_text (chat_id body) then
    getMemory (or_else (chat_id body) "") (tables (db w))
  else [].

Definition forwarded (body : QueryBody) (finalChatId : string) (uid : Z)
           (chatMemory : list Message) : AiRequest :=
  mkAiRequest (query body) (org_query body) finalChatId uid chatMemory.

(** [axios.post(`${ai_backend_url}/api/query`, {...}, {...})] *)
Definition axios_post_query (env : Env) (req : AiRequest) (w : World)
  : settled AxiosError AiData * World :=
  (ai_query env (ai_calls w) req,
   mkWorld (db w) (S (ai_calls w)) (waits w) (reads w)).

(** [data.chat_name || `Chat ${new Date().toISOString()}`] *)
Definition session_name (env : Env) (d : AiData) (w : World) : string * World :=
  if truthy_text (chat_name d) then (or_else (chat_name d) "", w)
  else ("Chat " ++ toISOString env (reads w), tick w).

(** [[...chatMemory, {role: "user", content: query},
      {role: "assistant", content: data.answer}].slice(-20)] *)
Definition limitedMemory (chatMemory : list Message) (q a : option string)
  : list Message :=
  slice_last 20 (chatMemory ++ [mkMessage user q; mkMessage assistant a])%list.

Definition failed_query : response QueryReply :=
  Fail 500 "Failed to process query".

(** The steps after the AI response has arrived. *)
Definition persist_exchange (env : Env) (body : QueryBody) (uid : Z)
           (finalChatId : string) (chatMemory : list Message)
           (d : AiData) (w : World) : response QueryReply * World :=
  let '(related, w1) := normalize_related env (query body) (related_queries d) w in
  let d1 := mkAiData (answer d) (chat_name d) (Some (JArr related))
                     (Some (or_empty (pdf_references d)))
                     (online_images d) (online_videos d) (online_links d) in
  let '(name, w2) := session_name env d1 w1 in
  match ensureSession finalChatId name uid (tables (db w2)) with
  | Rejected _ => (failed_query, w2)
  | Resolved t1 =>
      match appendHistory finalChatId uid (query body) (answer d1)
                          (or_empty (pdf_references d1))
                          (or_empty (online_images d1))
                          (or_empty (online_videos d1))
                          (or_empty (online_links d1))
                          (or_empty (related_queries d1)) t1 with
      | Rejected _ => (failed_query, set_tables t1 w2)
      | Resolved t2 =>
          match putMemory finalChatId
                          (limitedMemory chatMemory (query body) (answer d1))
                          t2 with
          | Rejected _ => (failed_query, set_tables t2 w2)
          | Resolved t3 => (Ok200 (mkQueryReply d1 finalChatId), set_tables t3 w2)
          end
      end
  end.

Definition api_query (env : Env) (body : QueryBody) (w : World)
  : response QueryReply * World :=
  match userId body with
  | None => (Fail 400 "User ID is required", w)
  | Some uid =>
      let '(finalChatId, w1) := resolve_chat_id env body w in
      let chatMemory := load_memory body w1 in
      match Retry.retryRequest setTimeout (Math_random env)
              (axios_post_query env (forwarded body finalChatId uid chatMemory))
              5 5000 w1 with
      | (Rejected _, w2) => (failed_query, w2)
      | (Resolved d, w2) => persist_exchange env body uid finalChatId chatMemory d w2
      end
  end.

(** ** GET /api/chat-history/:chatId *)

Definition api_chat_history (chatId : option string) (userId : option Z)
           (w : World) : response (list HistoryRow) * World :=
  if negb (truthy_text chatId) then (Fail 400 "Chat ID is required", w)
  else match userId with
       | None => (Fail 400 "User ID is required", w)
       | Some uid =>
           let cid := or_else chatId "" in
           let chatCheck := select_owned_session cid uid (tables (db w)) in
           if (List.length chatCheck =? 0)%nat then (Fail 403 "Access denied", w)
           else (Ok200 (select_history cid (tables (db w))), w)
       end.

(** ** DELETE /api/chat *)

Definition api_delete_chat (chatId : option string) (userId : option Z)
           (w : World) : response string * World :=
  if negb (truthy_text chatId) then (Fail 400 "Chat ID is required", w)
  else match userId with
       | None => (Fail 400 "User ID is required", w)
       | Some uid =>
           let cid := or_else chatId "" in
           let d := BEGIN (db w) in
           let chatCheck := select_owned_session cid uid (tables d) in
           if (List.length chatCheck =? 0)%nat then
             (Fail 403 "Access denied", set_db (ROLLBACK d) w)
           else
             let t1 := delete_memory cid (tables d) in
             let t2 := delete_history cid t1 in
             let '(t3, rowCount) := delete_session cid uid t2 in
             let d3 := mkDb t3 (txn d) in
             if (rowCount =? 0)%nat then
               (Fail 404 "Chat not found", set_db (ROLLBACK d3) w)
             else
               (Ok200 "Chat deleted successfully", set_db (COMMIT d3) w)
       end.

(** ** POST /api/update-chat-favorite *)

Record FavoriteBody : Type := mkFavoriteBody {
  fav_chatId : option string;
  fav_userId : option Z;
  fav_favorite : option bool
}.

Definition api_update_chat_favorite (body : FavoriteBody) (w : World)
  : response ChatSession * World :=
  if negb (truthy_text (fav_chatId body)) then (Fail 400 "Chat ID is required", w)
  else match fav_userId body with
       | None => (Fail 400 "User ID is required", w)
       | Some uid =>
           let cid := or_else (fav_chatId body) "" in
           let chatCheck := select_owned_session cid uid (tables (db w)) in
           if (List.length chatCheck =? 0)%nat then (Fail 403 "Access denied", w)
           else
             let '(t1, rows) :=
               update_favorite (fav_favorite body) cid uid (tables (db w)) in
             match rows with
             | [] => (Fail 404 "Chat not found", set_tables t1 w)
             | chat :: _ => (Ok200 chat, set_tables t1 w)
             end
       end.

(** ** The three handlers that check ownership, with the statements that fail

    [throws k] tells whether the [k]-th statement of the request throws.  A
    statement also throws when it is bound to a user id that is no INTEGER or
    to a text with a NUL character; a text parameter reaches the database as
    [as_utf8] of what was sent.  The [catch] of each handler answers 500. *)

Definition bind_fails (sent : string) (uid : Z) : bool :=
  negb (int4 uid) || has_nul sent.

(** GET /api/chat-history/:chatId; statement 0 is the ownership SELECT,
    statement 1 the SELECT of the history. *)
Definition api_chat_history_faults (throws : nat -> bool)
           (chatId : option string) (userId : option Z) (w : World)
  : response (list HistoryRow) * World :=
  if negb (truthy_text chatId) then (Fail 400 "Chat ID is required", w)
  else match userId with
       | None => (Fail 400 "User ID is required", w)
       | Some uid =>
           let sent := or_else chatId "" in
           let cid := as_utf8 sent in
           if throws 0%nat || bind_fails sent uid then
             (Fail 500 "Server error", w)
           else
             let chatCheck := select_owned_session cid uid (tables (db w)) in
             if (List.length chatCheck =? 0)%nat then
               (Fail 403 "Access denied", w)
             else if throws 1%nat then (Fail 500 "Server error", w)
             else (Ok200 (select_history cid (tables (db w))), w)
       end.

(** POST /api/update-chat-favorite; statement 0 is the ownership SELECT,
    statement 1 the UPDATE. *)
Definition api_update_chat_favorite_faults (throws : nat -> bool)
           (body : FavoriteBody) (w : World) : response ChatSession * World :=
  if negb (truthy_text (fav_chatId body)) then (Fail 400 "Chat ID is required", w)
  else match fav_userId body with
       | None => (Fail 400 "User ID is required", w)
       | Some uid =>
           let sent := or_else (fav_chatId body) "" in
           let cid := as_utf8 sent in
           if throws 0%nat || bind_fails sent uid then
             (Fail 500 "Server error", w)
           else
             let chatCheck := select_owned_session cid uid (tables (db w)) in
             if (List.length chatCheck =? 0)%nat then
               (Fail 403 "Access denied", w)
             else if throws 1%nat then (Fail 500 "Server error", w)
             else
               let '(t1, rows) :=
                 update_favorite (fav_favorite body) cid uid (tables (db w)) in
               match rows with
               | [] => (Fail 404 "Chat not found", set_tables t1 w)
               | chat :: _ => (Ok200 chat, set_tables t1 w)
               end
       end.

(** DELETE /api/chat; statement 0 is BEGIN, 1 the ownership SELECT, 2 to 4
    the three DELETEs, 5 is COMMIT; ROLLBACK does not throw.  A statement
    that throws has changed nothing; inside the inner [try] the [catch]
    issues ROLLBACK and throws on, and the outer [catch] answers 500. *)
Definition api_delete_chat_faults (throws : nat -> bool)
           (chatId : option string) (userId : option Z) (w : World)
  : response string * World :=
  if negb (truthy_text chatId) then (Fail 400 "Chat ID is required", w)
  else match userId with
       | None => (Fail 400 "User ID is required", w)
       | Some uid =>
           let sent := or_else chatId "" in
           let cid := as_utf8 sent in
           let caught (d' : Db) : response string * World :=
             (Fail 500 "Server error", set_db (ROLLBACK d') w) in
           if throws 0%nat then (Fail 500 "Server error", w)
           else
             let d := BEGIN (db w) in
             if throws 1%nat || bind_fails sent uid then caught d
             else
               let chatCheck := select_owned_session cid uid (tables d) in
               if (List.length chatCheck =? 0)%nat then
                 (Fail 403 "Access denied", set_db (ROLLBACK d) w)
               else if throws 2%nat then caught d
               else
                 let d1 := mkDb (delete_memory cid (tables d)) (txn d) in
                 if throws 3%nat then caught d1
                 else
                   let d2 := mkDb (delete_history cid (tables d1)) (txn d1) in
                   if throws 4%nat then caught d2
                   else
                     let '(t3, rowCount) := delete_session cid uid (tables d2) in
                     let d3 := mkDb t3 (txn d2) in
                     if (rowCount =? 0)%nat then
                       (Fail 404 "Chat not found", set_db (ROLLBACK d3) w)
                     else if throws 5%nat then caught d3
                     else
                       (Ok200 "Chat deleted successfully", set_db (COMMIT d3) w)
       end.

(** No statement of the request throws. *)
Definition no_fault (throws : nat -> bool) : Prop :=
  forall k, throws k = false.

(** ** POST /api/products *)

Definition colors : list string :=
  ["red"; "purple"; "orange"; "green"; "blue"; "white"].

(** [usedColors.includes(c)] *)
Definition includes (usedColors : list (option string)) (c : string) : bool :=
  existsb (fun u => match u with
                    | Some s => (s =? c)%string
                    | None => false
                    end) usedColors.

(** [colors.find((c) => !usedColors.includes(c)) || colors[0]] *)
Definition availableColor (usedColors : list (option string)) : string :=
  or_else (find (fun c => negb (includes usedColors c)) colors)
          (nth 0 colors "undefined").

(** [SELECT color FROM products WHERE user_id = $1], mapped to its colors. *)
Definition usedColors_of (uid : Z) (t : Tables) : list (option string) :=
  map p_color (filter (fun p => p_user_id p =? uid) (products t)).

(** [INSERT INTO products (title, info, color, user_id) VALUES (...)
     RETURNING *]; the title goes into a [VARCHAR(255)] column. *)
Definition insert_product (title info : option string) (color : string)
           (uid : Z) (t : Tables) : settled DbError (Tables * Product) :=
  match title, info with
  | None, _ => Rejected (NotNullViolation "title")
  | _, None => Rejected (NotNullViolation "info")
  | Some ti, Some inf =>
      if has_nul ti then Rejected (InvalidText "title")
      else if has_nul inf then Rejected (InvalidText "info")
      else match varchar 255 (as_utf8 ti) with
           | None => Rejected (StringTooLong "title")
           | Some stored =>
               if user_exists uid t then
                 let row := mkProduct stored uid (as_utf8 inf) (Some color) in
                 Resolved (set_products (products t ++ [row]) t, row)
               else Rejected (ForeignKeyViolation "user_id")
           end
  end.

Record ProductBody : Type := mkProductBody {
  pb_title : option string;
  pb_info : option string;
  pb_userId : option Z
}.

(** [axios.post(`${ai_backend_url}/api/generate-product-queries`, ...)] *)
Definition axios_post_product_queries (env : Env) (title info : option string)
           (w : World) : settled AxiosError unit * World :=
  (ai_generate_product_queries env (ai_calls w) title info,
   mkWorld (db w) (S (ai_calls w)) (waits w) (reads w)).

Definition api_create_product (env : Env) (body : ProductBody) (w : World)
  : response Product * World :=
  match pb_userId body with
  | None => (Fail 400 "User ID is required", w)
  | Some uid =>
      let usedColors := usedColors_of uid (tables (db w)) in
      match insert_product (pb_title body) (pb_info body)
                           (availableColor usedColors) uid (tables (db w)) with
      | Rejected _ => (Fail 500 "Failed to create product", w)
      | Resolved (t1, row) =>
          (* a failure of the query generation is caught and ignored *)
          let '(_, w2) :=
            Retry.retryRequest setTimeout (Math_random env)
              (axios_post_product_queries env (pb_title body) (pb_info body))
              2 1000 (set_tables t1 w) in
          (Ok200 row, w2)
      end
  end.

(** ** Running several requests one after the other *)

Fixpoint serve_queries (env : Env) (bodies : list QueryBody) (w : World)
  : list (response QueryReply) * World :=
  match bodies with
  | [] => ([], w)
  | body :: rest =>
      let '(r, w1) := api_query env body w in
      let '(rs, w2) := serve_queries env rest w1 in
      (r :: rs, w2)
  end.

(** What is assumed of the engine's [sort] under a random comparator: it
    returns its elements in some order. *)
Definition sort_permutes (env : Env) : Prop :=
  forall n l, Permutation l (random_sort env n l).

(** A payload entry the final [map] turns into a suggestion, or leaves as one. *)
Definition string_or_suggestion (v : json) : Prop :=
  (exists s, v = JStr s) \/ is_suggestion v = true.

(** A request that was answered with status 200. *)
Definition completed {A} (r : response A) : Prop :=
  match r with Ok200 _ => True | Fail _ _ => False end.

(** The two messages of one exchange: the query asked and the answer given. *)
Definition exchange_messages (body : QueryBody) (r : response QueryReply)
  : list Message :=
  match r with
  | Ok200 reply => [mkMessage user (query body);
                    mkMessage assistant (answer (data reply))]
  | Fail _ _ => []
  end.

(** The messages of a sequence of exchanges, oldest first. *)
Fixpoint transcript (bodies : list QueryBody) (rs : list (response QueryReply))
  : list Message :=
  match bodies, rs with
  | body :: bodies', r :: rs' =>
      (exchange_messages body r ++ transcript bodies' rs')%list
  | _, _ => []
  end.

(** [chat_id TEXT PRIMARY KEY]: no two session rows share a chat id. *)
Definition sessions_pk (t : Tables) : Prop :=
  NoDup (map s_chat_id (chat_sessions t)).

(** The requester is not the owner of the session: no session row has this
    chat id at all, or the row that has it belongs to another user. *)
Definition not_owner (cid : string) (uid : Z) (t : Tables) : Prop :=
  session_exists cid t = false \/
  (sessions_pk t /\
   exists s, In s (chat_sessions t) /\ s_chat_id s = cid /\ s_user_id s <> uid).

(** No transaction is open on the connection. *)
Definition idle (w : World) : Prop := txn (db w) = None.

(** One of the user's own products has this color. *)
Definition holds_color (t : Tables) (uid : Z) (c : string) : Prop :=
  exists p, In p (products t) /\ p_user_id p = uid /\ p_color p = Some c.

(** A title and a description the products table stores as they are sent. *)
Definition storable_product (title info : string) : Prop :=
  pg_text title = true /\ pg_text info = true /\ (chars title <= 255)%nat.

(** * Sample data

    Concrete operations, databases and requests on which the properties below
    are exercised. *)

(** The two retry scenarios of the specification: an operation that fails
    twice and then succeeds; one that always fails. *)
Definition flaky (i : nat) : settled string string :=
  if (i <? 2)%nat then Rejected "ECONNRESET" else Resolved "pong".

Definition always_fails (i : nat) : settled string string :=
  Rejected "ECONNREFUSED".

(** An environment whose AI backend answers by [ai]; the random comparator
    happens to reverse the array, every random draw is a quarter second. *)
Definition sample_env (ai : nat -> AiRequest -> settled AxiosError AiData) : Env :=
  mkEnv ai (fun _ _ _ => Resolved tt) (fun _ => 500) (fun _ l => rev l)
        (fun _ => "7f1c1a52-0c5e-4b1e-9d0a-2f6f3f7f9a11")
        (fun _ => "2025-01-01T00:00:00.000Z").

(** Users 1 and 2; user 1 owns chat "c1" with one exchange on record. *)
Definition sample_tables : Tables :=
  mkTables [1; 2]
           [mkSession "c1" 1 "Audit basics" (Some false)]
           [mkHistory 1 "c1" "what is an audit" "a systematic review"
                      (JArr []) (JArr []) (JArr []) (JArr []) (JArr [])]
           [mkMemory "c1" [mkMessage user (Some "what is an audit");
                           mkMessage assistant (Some "a systematic review")]]
           [mkProduct "Valve" 1 "steel valve" (Some "red");
            mkProduct "Pump" 1 "water pump" (Some "blue")].

Definition sample_world : World := mkWorld (mkDb sample_tables None) 0 [] 0.

(** A payload with one related query that is an object of another shape and
    one bare string. *)
Definition odd_payload : AiData :=
  mkAiData (Some "see clause 8") (Some "Clause 8")
           (Some (JArr [JObj [("text", JStr "what is CAPA")]; JStr "what is ISO 9001"]))
           None None None None.

(** A payload with two related queries, one bare string and one already in
    the [{query, context}] shape. *)
Definition short_payload : AiData :=
  mkAiData (Some "see clause 8") (Some "Clause 8")
           (Some (JArr [JStr "what is ISO 9001";
                        JObj [("query", JStr "what is CAPA");
                              ("context", JStr "corrective action")]]))
           None None None None.

Definition sample_body : QueryBody :=
  mkQueryBody (Some "iso 9001") (Some "iso 9001") (Some "c1") (Some 1).

(** An AI backend that always answers, echoing the query. *)
Definition echo_ai (n : nat) (req : AiRequest) : settled AxiosError AiData :=
  Resolved (mkAiData (Some ("re: " ++ interpolate (fwd_query req)))
                     (Some "Echo") None None None None None).

Definition ask (cid : string) (uid : Z) (q : string) : QueryBody :=
  mkQueryBody (Some q) (Some q) (Some cid) (Some uid).

(** Eleven questions asked by user 1 in chat "c1". *)
Definition eleven_questions : list QueryBody :=
  map (ask "c1" 1)
      ["q1"; "q2"; "q3"; "q4"; "q5"; "q6"; "q7"; "q8"; "q9"; "q10"; "q11"].

(** An AI backend that is down. *)
Definition dead_ai (n : nat) (req : AiRequest) : settled AxiosError AiData :=
  Rejected (mkAxiosError "connect ECONNREFUSED 127.0.0.1:8000").

(** * More of server.js *)

(** ** The delays of the retry executor

    The delays waited for by [n] retries in a row: the first is the initial
    delay, each next one is [next_delay] of the one before with the next
    random draw. *)
Fixpoint backoff (jitter : nat -> Z) (n : nat) (delay : Z) (draw : nat)
  : list Z :=
  match n with
  | O => []
  | S n' => delay :: backoff jitter n' (Retry.next_delay delay (jitter draw)) (S draw)
  end.

(** ** The diagnostic log: [logs], [lastLogId], [addLog], GET /api/logs *)

Record LogEntry : Type := mkLogEntry {
  log_id : Z;
  log_message : string;
  log_timestamp : string
}.

(** The two module-level variables [logs] and [lastLogId]. *)
Record LogState : Type := mkLogState {
  logs : list LogEntry;
  lastLogId : Z
}.

(** [const logs = []; let lastLogId = 0;] *)
Definition no_logs : LogState := mkLogState [] 0.

(** [addLog(message)]; [timestamp] is what [new Date().toISOString()] yields. *)
Definition addLog (message timestamp : string) (st : LogState) : LogState :=
  let id := lastLogId st + 1 in
  let pushed := (logs st ++ [mkLogEntry id message timestamp])%list in
  (* Keep only last 100 logs *)
  if (100 <? List.length pushed)%nat then mkLogState (tl pushed) id
  else mkLogState pushed id.

(** GET /api/logs: [parseInt(req.query.lastId) || 0], then the filter.  The
    parameter is [None] when [parseInt] yields [NaN]. *)
Definition api_logs (lastId : option Z) (st : LogState) : list LogEntry :=
  let lastId' := match lastId with
                 | Some n => if n =? 0 then 0 else n
                 | None => 0
                 end in
  filter (fun log => lastId' <? log_id log) (logs st).

(** Logging a list of messages, each with its timestamp, oldest first. *)
Definition addLogs (entries : list (string * string)) (st : LogState) : LogState :=
  fold_left (fun s e => addLog (fst e) (snd e) s) entries st.

(** The entries numbered from [base + 1] on, as [addLog] numbers them. *)
Fixpoint number_from (base : nat) (entries : list (string * string))
  : list LogEntry :=
  match entries with
  | [] => []
  | e :: rest =>
      mkLogEntry (Z.of_nat (S base)) (fst e) (snd e) :: number_from (S base) rest
  end.

(** ** GET /api/chat-list *)

(** One row of the join: the session and, when it has history, the query and
    answer of its earliest entry. *)
Record ChatListRow : Type := mkChatListRow {
  cl_chat_id : string;
  cl_name : string;
  cl_favorite : option bool;
  cl_query : option string;
  cl_answer : option string
}.

(** [LEFT JOIN chat_history h ON h.id = (SELECT id FROM chat_history
     WHERE chat_id = s.chat_id ORDER BY created_at ASC LIMIT 1)] *)
Definition join_first_entry (t : Tables) (s : ChatSession) : ChatListRow :=
  match select_history (s_chat_id s) t with
  | h :: _ => mkChatListRow (s_chat_id s) (s_name s) (s_favorite s)
                            (Some (h_query h)) (Some (h_answer h))
  | [] => mkChatListRow (s_chat_id s) (s_name s) (s_favorite s) None None
  end.

(** [... WHERE s.user_id = $1 ORDER BY s.created_at DESC] *)
Definition api_chat_list (userId : option Z) (w : World)
  : response (list ChatListRow) * World :=
  match userId with
  | None => (Fail 400 "User ID is required", w)
  | Some uid =>
      (Ok200 (map (join_first_entry (tables (db w)))
                  (rev (filter (fun s => s_user_id s =? uid)
                               (chat_sessions (tables (db w)))))),
       w)
  end.

(** ** GET /api/products *)

(** [SELECT * FROM products WHERE user_id = $1 ORDER BY created_at DESC] *)
Definition api_products (userId : option Z) (w : World)
  : response (list Product) * World :=
  match userId with
  | None => (Fail 400 "User ID is required", w)
  | Some uid =>
      (Ok200 (rev (filter (fun p => p_user_id p =? uid)
                          (products (tables (db w))))), w)
  end.

(** The colors handed out to the first [n] products of a user who starts
    without any: the palette in order, then its first color again and again. *)
Definition assigned_colors (n : nat) : list string :=
  map (fun k => nth k colors "red") (seq 0 n).

(** A body POST /api/products accepts for user [uid]: a title and a
    description are given, and the table stores them as they are sent. *)
Definition product_body_for (uid : Z) (body : ProductBody) : Prop :=
  pb_userId body = Some uid /\
  exists title info,
    pb_title body = Some title /\ pb_info body = Some info /\
    storable_product title info.

(** Creating several products one after the other. *)
Fixpoint create_products (env : Env) (bodies : list ProductBody) (w : World)
  : list (response Product) * World :=
  match bodies with
  | [] => ([], w)
  | body :: rest =>
      let '(r, w1) := api_create_product env body w in
      let '(rs, w2) := create_products env rest w1 in
      (r :: rs, w2)
  end.

(** ** The PDF endpoints, forwarded to the AI backend *)

(** What the AI backend answers to its [n]-th request, per endpoint. *)
Record PdfBackend : Type := mkPdfBackend {
  ai_search_pdfs : nat -> option string -> Z -> settled AxiosError json;
  ai_delete_pdf : nat -> string -> Z -> settled AxiosError json;
  ai_update_pdf_info : nat -> string -> option json -> Z -> settled AxiosError json;
  ai_random_product_queries : nat -> settled AxiosError json
}.

Definition counted {A} (r : settled AxiosError A) (w : World)
  : settled AxiosError A * World :=
  (r, mkWorld (db w) (S (ai_calls w)) (waits w) (reads w)).

(** The first value of a key of an object; a JS object has each key once. *)
Fixpoint get_field (k : string) (fields : list (string * json)) : option json :=
  match fields with
  | [] => None
  | (k', v) :: rest => if (k' =? k)%string then Some v else get_field k rest
  end.

(** The reshaping of [response.data] in GET /api/search-pdfs. *)
Definition search_results (responseData : json) : json :=
  match responseData with
  | JArr _ => JObj [("results", responseData)]
  | JObj fields =>
      if negb (truthy_field (get_field "results" fields))
      then JObj [("results", JArr [responseData])]
      else responseData
  | _ => if negb (truthy responseData) then JObj [("results", JArr [])]
         else responseData
  end.

(** [error.message] of the error the executor threw; the executor throws
    [undefined] only when it was given a negative retry count. *)
Definition details_of (e : option AxiosError) : list (string * json) :=
  match e with
  | Some err => [("details", JStr (error_message err))]
  | None => []
  end.

(** GET /api/search-pdfs; the answer is its status and its JSON body. *)
Definition api_search_pdfs (env : Env) (backend : PdfBackend)
           (search_query : option string) (userId : option Z) (w : World)
  : (Z * json) * World :=
  match userId with
  | None => ((400, JObj [("message", JStr "User ID is required")]), w)
  | Some uid =>
      let sent := if truthy_text search_query then search_query else None in
      match Retry.retryRequest setTimeout (Math_random env)
              (fun w0 => counted (ai_search_pdfs backend (ai_calls w0) sent uid) w0)
              2 1000 w with
      | (Resolved responseData, w1) => ((200, search_results responseData), w1)
      | (Rejected e, w1) =>
          ((500, JObj (("error", JStr "Failed to search PDFs")
                         :: details_of e ++ [("results", JArr [])])%list), w1)
      end
  end.

(** DELETE /api/delete-pdf/:pdf_name *)
Definition api_delete_pdf (env : Env) (backend : PdfBackend)
           (pdf_name : string) (userId : option Z) (w : World)
  : response json * World :=
  match userId with
  | None => (Fail 400 "User ID is required", w)
  | Some uid =>
      match Retry.retryRequest setTimeout (Math_random env)
              (fun w0 => counted (ai_delete_pdf backend (ai_calls w0) pdf_name uid) w0)
              2 1000 w with
      | (Resolved responseData, w1) => (Ok200 responseData, w1)
      | (Rejected _, w1) => (Fail 500 "Failed to delete PDF", w1)
      end
  end.

(** PUT /api/update-pdf-info/:pdf_name *)
Definition api_update_pdf_info (env : Env) (backend : PdfBackend)
           (pdf_name : string) (new_info : option json) (userId : option Z)
           (w : World) : response json * World :=
  match userId with
  | None => (Fail 400 "User ID is required", w)
  | Some uid =>
      match Retry.retryRequest setTimeout (Math_random env)
              (fun w0 => counted (ai_update_pdf_info backend (ai_calls w0)
                                                     pdf_name new_info uid) w0)
              2 1000 w with
      | (Resolved responseData, w1) => (Ok200 responseData, w1)
      | (Rejected _, w1) => (Fail 500 "Failed to update PDF info", w1)
      end
  end.

(** GET /api/random-product-queries: no user id is asked for. *)
Definition api_random_product_queries (env : Env) (backend : PdfBackend)
           (w : World) : response json * World :=
  match Retry.retryRequest setTimeout (Math_random env)
          (fun w0 => counted (ai_random_product_queries backend (ai_calls w0)) w0)
          2 1000 w with
  | (Resolved responseData, w1) => (Ok200 responseData, w1)
  | (Rejected _, w1) => (Fail 500 "Failed to fetch random queries", w1)
  end.

(** What a handler that forwards one request under [retryRequest(fn, 2, ...)]
    does, [oracle n] being what the AI backend answers to its [n]-th request:
    it leaves the database alone, calls the backend once to three times,
    answers with the first success, and answers [failure] with status 500
    after three failures. *)
Definition forwards_with_retry (oracle : nat -> settled AxiosError json)
           (failure : string) (w : World) (run : response json * World) : Prop :=
  db (snd run) = db w /\
  (ai_calls w < ai_calls (snd run) <= ai_calls w + 3)%nat /\
  (forall k responseData,
      (k < 3)%nat ->
      (forall i, (i < k)%nat -> is_rejected (oracle (ai_calls w + i)%nat)) ->
      oracle (ai_calls w + k)%nat = Resolved responseData ->
      fst run = Ok200 responseData /\
      ai_calls (snd run) = (ai_calls w + k + 1)%nat) /\
  ((forall i, (i < 3)%nat -> is_rejected (oracle (ai_calls w + i)%nat)) ->
   fst run = Fail 500 failure /\ ai_calls (snd run) = (ai_calls w + 3)%nat).

(** The [results] property of an answer of GET /api/search-pdfs. *)
Definition results_of (body : json) : option json :=
  match body with
  | JObj fields => get_field "results" fields
  | _ => None
  end.

(** A payload that is neither an array, nor an object, nor falsy. *)
Definition truthy_primitive (v : json) : bool :=
  match v with
  | JArr _ | JObj _ => false
  | _ => truthy v
  end.

(** ** What dbInit.js declares of the tables *)

(** [chat_id TEXT REFERENCES chat_sessions(chat_id) UNIQUE] of chat_memory. *)
Definition memory_unique (t : Tables) : Prop :=
  NoDup (map m_chat_id (chat_memory t)).

(** Every [REFERENCES] of the four tables points at a row that exists. *)
Definition references_ok (t : Tables) : Prop :=
  Forall (fun s => user_exists (s_user_id s) t = true) (chat_sessions t) /\
  Forall (fun h => user_exists (h_user_id h) t = true /\
                   session_exists (h_chat_id h) t = true) (chat_history t) /\
  Forall (fun m => session_exists (m_chat_id m) t = true) (chat_memory t) /\
  Forall (fun p => user_exists (p_user_id p) t = true) (products t).

Definition schema_ok (t : Tables) : Prop :=
  sessions_pk t /\ memory_unique t /\ references_ok t.

(** The bound the query handler puts on what it stores. *)
Definition memory_bounded (t : Tables) : Prop :=
  Forall (fun m => (List.length (m_memory m) <= 20)%nat) (chat_memory t).

(** ** What a run of POST /api/query writes

    Nothing; or only the session row, when the handler fails after that
    write; or the session row and the history row, when the memory is
    refused; or the session row, the history row and the memory row, when it
    answers 200. *)
Inductive query_writes (t : Tables) : response QueryReply -> Tables -> Prop :=
| writes_nothing (status : Z) (message : string) :
    query_writes t (Fail status message) t
| writes_session (status : Z) (message cid name : string) (uid : Z)
                 (t1 : Tables) :
    ensureSession cid name uid t = Resolved t1 ->
    query_writes t (Fail status message) t1
| writes_history (status : Z) (message cid name : string) (uid : Z)
                 (q a : option string) (pr oi ov ol rq : json)
                 (mem : list Message) (t1 t2 : Tables) :
    ensureSession cid name uid t = Resolved t1 ->
    appendHistory cid uid q a pr oi ov ol rq t1 = Resolved t2 ->
    jsonb_memory_ok (limitedMemory mem q a) = false ->
    query_writes t (Fail status message) t2
| writes_exchange (reply : QueryReply) (uid : Z) (name : string)
                  (q a : option string) (pr oi ov ol rq : json)
                  (mem : list Message) (t1 t2 t3 : Tables) :
    ensureSession (chatId reply) name uid t = Resolved t1 ->
    appendHistory (chatId reply) uid q a pr oi ov ol rq t1 = Resolved t2 ->
    putMemory (chatId reply) (limitedMemory mem q a) t2 = Resolved t3 ->
    query_writes t (Ok200 reply) t3.

(** ** Sample data for the endpoints above *)

Definition sample_backend (search : settled AxiosError json) : PdfBackend :=
  mkPdfBackend (fun _ _ _ => search)
               (fun n _ _ => if (n <? 1)%nat
                             then Rejected (mkAxiosError "timeout of 30000ms exceeded")
                             else Resolved (JObj [("message", JStr "deleted")]))
               (fun _ _ _ _ => Rejected (mkAxiosError "Network Error"))
               (fun _ => Resolved (JArr [JStr "what is a valve"])).

Definition three_logs : list (string * string) :=
  [("server started", "2025-01-01T00:00:00.000Z");
   ("query received", "2025-01-01T00:00:01.000Z");
   ("query answered", "2025-01-01T00:00:09.000Z")].

Definition seven_products : list ProductBody :=
  map (fun title => mkProductBody (Some title) (Some "spare part") (Some 2))
      ["P1"; "P2"; "P3"; "P4"; "P5"; "P6"; "P7"].

(** * Properties *)

(** ** Retry executor *)

Section RetryFacts.
Context {W E A : Type}.
Variable setTimeout' : Z -> W -> W.
Variable Math_random' : W -> Z * W.
Variable fn : W -> settled E A * W.

(** Anything the operation, the timer and the random source all preserve is
    preserved by the executor. *)
Lemma attempt_loop_preserves (P : W -> Prop)
      (Hfn : forall w, P w -> P (snd (fn w)))
      (Htimer : forall d w, P w -> P (setTimeout' d w))
      (Hrand : forall w, P w -> P (snd (Math_random' w))) :
  forall todo attempt retries delay lastError w,
    P w ->
    P (snd (Retry.attempt_loop setTimeout' Math_random' fn
                               todo attempt retries delay lastError w)).
Proof.
  induction todo as [|todo IH]; intros attempt retries delay lastError w Hw.
  - exact Hw.
  - simpl. specialize (Hfn w Hw).
    destruct (fn w) as [[a|error] w1]; simpl in Hfn.
    + exact Hfn.
    + destruct (attempt <? retries).
      * specialize (Hrand _ (Htimer delay _ Hfn)).
        destruct (Math_random' (setTimeout' delay w1)) as [j w3].
        apply IH. exact Hrand.
      * apply IH. exact Hfn.
Qed.

Lemma retryRequest_preserves (P : W -> Prop)
      (Hfn : forall w, P w -> P (snd (fn w)))
      (Htimer : forall d w, P w -> P (setTimeout' d w))
      (Hrand : forall w, P w -> P (snd (Math_random' w))) :
  forall retries delay w,
    P w -> P (snd (Retry.retryRequest setTimeout' Math_random' fn retries delay w)).
Proof.
  intros. unfold Retry.retryRequest. now apply attempt_loop_preserves.
Qed.

End RetryFacts.

(** The executor over any world that counts the invocations of the operation:
    [calls w] invocations were made so far and the [n]-th invocation (from 0)
    settles as [outcome n]. *)
Section RetryCounting.
Context {W E A : Type}.
Variable setTimeout' : Z -> W -> W.
Variable Math_random' : W -> Z * W.
Variable fn : W -> settled E A * W.
Variable calls : W -> nat.
Variable outcome : nat -> settled E A.
Hypothesis fn_outcome : forall w, fst (fn w) = outcome (calls w).
Hypothesis fn_calls : forall w, calls (snd (fn w)) = S (calls w).
Hypothesis timer_calls : forall d w, calls (setTimeout' d w) = calls w.
Hypothesis random_calls : forall w, calls (snd (Math_random' w)) = calls w.

Let loop := Retry.attempt_loop setTimeout' Math_random' fn.

(** One iteration that fails: where the loop goes on from. *)
Lemma loop_step_rejected :
  forall todo attempt retries delay lastError w e,
    outcome (calls w) = Rejected e ->
    exists attempt' delay' w',
      calls w' = S (calls w) /\
      loop (S todo) attempt retries delay lastError w
      = loop todo attempt' retries delay' (Some e) w'.
Proof.
  intros todo attempt retries delay lastError w e He.
  unfold loop. simpl.
  pose proof (fn_outcome w) as Ho. pose proof (fn_calls w) as Hc.
  destruct (fn w) as [r w1]. simpl in Ho, Hc. rewrite Ho, He.
  destruct (attempt <? retries).
  - pose proof (random_calls (setTimeout' delay w1)) as Hr.
    destruct (Math_random' (setTimeout' delay w1)) as [j w3]. simpl in Hr.
    eexists _, _, w3. split; [|reflexivity].
    now rewrite Hr, timer_calls.
  - eexists _, _, w1. split; [exact Hc|reflexivity].
Qed.

Lemma loop_step_resolved :
  forall todo attempt retries delay lastError w a,
    outcome (calls w) = Resolved a ->
    fst (loop (S todo) attempt retries delay lastError w) = Resolved a /\
    calls (snd (loop (S todo) attempt retries delay lastError w)) = S (calls w).
Proof.
  intros todo attempt retries delay lastError w a Ha.
  unfold loop. simpl.
  pose proof (fn_outcome w) as Ho. pose proof (fn_calls w) as Hc.
  destruct (fn w) as [r w1]. simpl in Ho, Hc. rewrite Ho, Ha.
  split; [reflexivity|exact Hc].
Qed.

(** The loop never invokes the operation more often than it has iterations. *)
Lemma loop_bound :
  forall todo attempt retries delay lastError w,
    (calls (snd (loop todo attempt retries delay lastError w))
     <= calls w + todo)%nat.
Proof.
  induction todo as [|todo IH]; intros attempt retries delay lastError w.
  - unfold loop. simpl. lia.
  - destruct (outcome (calls w)) as [a|e] eqn:Ho.
    + destruct (loop_step_resolved todo attempt retries delay lastError w a Ho)
        as [_ ->]. lia.
    + destruct (loop_step_rejected todo attempt retries delay lastError w e Ho)
        as (attempt' & delay' & w' & Hc & ->).
      etransitivity; [apply IH|]. lia.
Qed.

(** [k] failures, then a success, with at least [k + 1] iterations to go: the
    success is returned and nothing is invoked after it. *)
Lemma loop_resolves :
  forall k todo attempt retries delay lastError w a,
    (k < todo)%nat ->
    (forall i, (i < k)%nat -> is_rejected (outcome (calls w + i))) ->
    outcome (calls w + k) = Resolved a ->
    fst (loop todo attempt retries delay lastError w) = Resolved a /\
    calls (snd (loop todo attempt retries delay lastError w))
    = (calls w + S k)%nat.
Proof.
  induction k as [|k IH]; intros todo attempt retries delay lastError w a Hk Hfail Hok;
    destruct todo as [|todo]; try lia.
  - rewrite Nat.add_0_r in Hok.
    destruct (loop_step_resolved todo attempt retries delay lastError w a Hok)
      as [-> ->]. split; [reflexivity|lia].
  - pose proof (Hfail 0%nat ltac:(lia)) as H0. rewrite Nat.add_0_r in H0.
    destruct (outcome (calls w)) as [a0|e] eqn:Ho; [destruct H0|].
    destruct (loop_step_rejected todo attempt retries delay lastError w e Ho)
      as (attempt' & delay' & w' & Hc & ->).
    destruct (IH todo attempt' retries delay' (Some e) w' a) as [H1 H2].
    + lia.
    + intros i Hi. rewrite Hc.
      replace (S (calls w) + i)%nat with (calls w + S i)%nat by lia.
      apply Hfail. lia.
    + rewrite Hc. replace (S (calls w) + k)%nat with (calls w + S k)%nat by lia.
      exact Hok.
    + split; [exact H1|]. rewrite H2. lia.
Qed.

(** Every remaining iteration fails: the operation is invoked once per
    iteration and the error thrown is the one of the last invocation. *)
Lemma loop_exhausts :
  forall todo attempt retries delay lastError w,
    (forall i, (i < todo)%nat -> is_rejected (outcome (calls w + i))) ->
    fst (loop todo attempt retries delay lastError w)
    = Rejected (match todo with
                | O => lastError
                | S n => error_of (outcome (calls w + n))
                end) /\
    calls (snd (loop todo attempt retries delay lastError w))
    = (calls w + todo)%nat.
Proof.
  induction todo as [|todo IH]; intros attempt retries delay lastError w Hfail.
  - unfold loop. simpl. split; [reflexivity|lia].
  - pose proof (Hfail 0%nat ltac:(lia)) as H0. rewrite Nat.add_0_r in H0.
    destruct (outcome (calls w)) as [a0|e] eqn:Ho; [destruct H0|].
    destruct (loop_step_rejected todo attempt retries delay lastError w e Ho)
      as (attempt' & delay' & w' & Hc & ->).
    destruct (IH attempt' retries delay' (Some e) w') as [H1 H2].
    + intros i Hi. rewrite Hc.
      replace (S (calls w) + i)%nat with (calls w + S i)%nat by lia.
      apply Hfail. lia.
    + rewrite H1, H2, Hc. split; [|lia]. f_equal.
      destruct todo as [|n].
      * now rewrite Nat.add_0_r, Ho.
      * f_equal. f_equal. lia.
Qed.

(** Invocations are never forgotten, and a loop with an iteration to go
    makes at least one. *)
Lemma loop_monotone :
  forall todo attempt retries delay lastError w,
    (calls w <= calls (snd (loop todo attempt retries delay lastError w)))%nat.
Proof.
  induction todo as [|todo IH]; intros attempt retries delay lastError w.
  - unfold loop. simpl. lia.
  - destruct (outcome (calls w)) as [a|e] eqn:Ho.
    + destruct (loop_step_resolved todo attempt retries delay lastError w a Ho)
        as [_ ->]. lia.
    + destruct (loop_step_rejected todo attempt retries delay lastError w e Ho)
        as (attempt' & delay' & w' & Hc & ->).
      etransitivity; [|apply IH]. lia.
Qed.

Lemma loop_invokes :
  forall todo attempt retries delay lastError w,
    (calls w < calls (snd (loop (S todo) attempt retries delay lastError w)))%nat.
Proof.
  intros todo attempt retries delay lastError w.
  destruct (outcome (calls w)) as [a|e] eqn:Ho.
  - destruct (loop_step_resolved todo attempt retries delay lastError w a Ho)
      as [_ ->]. lia.
  - destruct (loop_step_rejected todo attempt retries delay lastError w e Ho)
      as (attempt' & delay' & w' & Hc & ->).
    pose proof (loop_monotone todo attempt' retries delay' (Some e) w'). lia.
Qed.

End RetryCounting.

Section MockFacts.
Context {E A : Type}.
Variable script : nat -> settled E A.
Variable jitter : nat -> Z.

Let loop := Retry.attempt_loop Mock.setTimeout (Mock.Math_random jitter)
                               (Mock.fn script).

Lemma mock_loop_bound :
  forall todo attempt retries delay lastError w,
    (Mock.invocations (snd (loop todo attempt retries delay lastError w))
     <= Mock.invocations w + todo)%nat.
Proof. now apply loop_bound with (outcome := script). Qed.

Lemma mock_loop_resolves :
  forall k todo attempt retries delay lastError w a,
    (k < todo)%nat ->
    (forall i, (i < k)%nat -> is_rejected (script (Mock.invocations w + i))) ->
    script (Mock.invocations w + k) = Resolved a ->
    fst (loop todo attempt retries delay lastError w) = Resolved a /\
    Mock.invocations (snd (loop todo attempt retries delay lastError w))
    = (Mock.invocations w + S k)%nat.
Proof. now apply loop_resolves. Qed.

Lemma mock_loop_exhausts :
  forall todo attempt retries delay lastError w,
    (forall i, (i < todo)%nat -> is_rejected (script (Mock.invocations w + i))) ->
    fst (loop todo attempt retries delay lastError w)
    = Rejected (match todo with
                | O => lastError
                | S n => error_of (script (Mock.invocations w + n))
                end) /\
    Mock.invocations (snd (loop todo attempt retries delay lastError w))
    = (Mock.invocations w + todo)%nat.
Proof. now apply loop_exhausts. Qed.

End MockFacts.

(** C1. The retry executor invokes the operation at most [R + 1] times; it
    returns the result of the first invocation that succeeds, after exactly
    that many invocations; and when all [R + 1] invocations fail it throws the
    error of the last one, after exactly [R + 1] invocations. *)
Theorem retryRequest_contract :
  forall (E A : Type) (script : nat -> settled E A) (jitter : nat -> Z)
         (R D : Z),
    0 <= R ->
    let run := Mock.retryRequest script jitter R D Mock.fresh in
    Z.of_nat (Mock.invocations (snd run)) <= R + 1 /\
    (forall k a,
        Z.of_nat k <= R ->
        (forall i, (i < k)%nat -> is_rejected (script i)) ->
        script k = Resolved a ->
        fst run = Resolved a /\ Mock.invocations (snd run) = S k) /\
    (forall e,
        (forall i, Z.of_nat i <= R -> is_rejected (script i)) ->
        script (Z.to_nat R) = Rejected e ->
        fst run = Rejected (Some e) /\
        Z.of_nat (Mock.invocations (snd run)) = R + 1).
Proof.
  intros E A script jitter R D HR run. subst run.
  unfold Mock.retryRequest, Retry.retryRequest.
  split; [|split].
  - pose proof (mock_loop_bound script jitter (Z.to_nat (R + 1)) 0 R D None
                                Mock.fresh) as Hb.
    simpl in Hb. lia.
  - intros k a Hk Hfail Hok.
    apply (mock_loop_resolves script jitter k (Z.to_nat (R + 1)) 0 R D None
                              Mock.fresh a); auto. lia.
  - intros e Hfail Hlast.
    destruct (mock_loop_exhausts script jitter (Z.to_nat (R + 1)) 0 R D None
                                 Mock.fresh) as [H1 H2].
    { intros i Hi. simpl. apply Hfail. lia. }
    rewrite H1, H2. replace (Z.to_nat (R + 1)) with (S (Z.to_nat R)) by lia.
    cbn [Mock.invocations Mock.fresh Nat.add]. rewrite Hlast.
    split; [reflexivity|lia].
Qed.

Lemma retryRequest_contract_witness :
  0 <= 3 /\
  (fst (Mock.retryRequest flaky (fun _ => 500) 3 1000 Mock.fresh) = Resolved "pong" /\
   Mock.invocations (snd (Mock.retryRequest flaky (fun _ => 500) 3 1000 Mock.fresh))
   = 3%nat) /\
  (fst (Mock.retryRequest always_fails (fun _ => 500) 2 1000 Mock.fresh)
   = Rejected (Some "ECONNREFUSED") /\
   Z.of_nat (Mock.invocations
               (snd (Mock.retryRequest always_fails (fun _ => 500) 2 1000 Mock.fresh)))
   = 2 + 1).
Proof.
  split; [lia|]. split.
  - apply (proj1 (proj2 (retryRequest_contract string string flaky (fun _ => 500)
                                               3 1000 ltac:(lia))) 2%nat "pong").
    + lia.
    + intros i Hi. destruct i as [|[|i]]; simpl; auto. lia.
    + reflexivity.
  - apply (proj2 (proj2 (retryRequest_contract string string always_fails
                                               (fun _ => 500) 2 1000 ltac:(lia)))
                 "ECONNREFUSED").
    + intros i _. exact I.
    + reflexivity.
Defined.

(** ** Related-query normalisation *)

Lemma coerce_related_array (items : list json) :
  coerce_related (Some (JArr items)) = items.
Proof. reflexivity. Qed.

Lemma coerce_related_other (rq : option json) :
  isArray rq = false -> coerce_related rq = [].
Proof.
  intros H. unfold coerce_related. rewrite H.
  rewrite orb_true_r. reflexivity.
Qed.

Lemma suggestion_shape (text : string) : is_suggestion (suggestion text) = true.
Proof. reflexivity. Qed.

Lemma normalizeItem_string (s : string) :
  normalizeItem (JStr s) = suggestion s.
Proof. reflexivity. Qed.

Lemma normalizeItem_other (j : json) :
  (forall s, j <> JStr s) -> normalizeItem j = j.
Proof.
  intros H. destruct j; try reflexivity. now destruct (H s).
Qed.

Lemma normalizeItem_shape (j : json) :
  string_or_suggestion j -> is_suggestion (normalizeItem j) = true.
Proof.
  intros [[s ->]|H].
  - reflexivity.
  - destruct j; try discriminate H. exact H.
Qed.

Lemma defaultQueries_length (q : option string) :
  List.length (defaultQueries q) = 8%nat.
Proof. reflexivity. Qed.

(** The generator hands out exactly [count] suggestions as long as no more
    than the eight templates are asked for. *)
Lemma generateAdditionalQueries_spec (env : Env) (q : option string)
      (count : nat) (w : World) :
  sort_permutes env ->
  (count <= 8)%nat ->
  List.length (fst (generateAdditionalQueries env q count w)) = count /\
  Forall (fun j => is_suggestion j = true)
         (fst (generateAdditionalQueries env q count w)).
Proof.
  intros Hperm Hcount. unfold generateAdditionalQueries. simpl. split.
  - rewrite length_map, length_firstn.
    rewrite <- (Permutation_length (Hperm (reads w) (defaultQueries q))).
    rewrite defaultQueries_length. lia.
  - apply Forall_forall. intros j Hj. apply in_map_iff in Hj.
    destruct Hj as [text [<- _]]. apply suggestion_shape.
Qed.

Lemma normalize_related_unfold (env : Env) (q : option string)
      (rq : option json) (w : World) :
  fst (normalize_related env q rq w)
  = (map normalizeItem (coerce_related rq) ++
     (if (List.length (coerce_related rq) <? 5)%nat
      then fst (generateAdditionalQueries env q (5 - List.length (coerce_related rq)) w)
      else []))%list.
Proof.
  unfold normalize_related, pad_related.
  destruct (List.length (coerce_related rq) <? 5)%nat.
  - unfold generateAdditionalQueries. simpl. rewrite map_app. f_equal.
    rewrite map_map. apply map_ext_in. intros text _. reflexivity.
  - simpl. now rewrite app_nil_r.
Qed.

Lemma persist_exchange_related (env : Env) (body : QueryBody) (uid : Z)
      (cid : string) (mem : list Message) (d : AiData) (w w' : World)
      (reply : QueryReply) :
  persist_exchange env body uid cid mem d w = (Ok200 reply, w') ->
  related_queries (data reply)
  = Some (JArr (fst (normalize_related env (query body) (related_queries d) w))).
Proof.
  unfold persist_exchange. intros H.
  destruct (normalize_related env (query body) (related_queries d) w)
    as [related w1].
  destruct (session_name env _ w1) as [name w2].
  destruct (ensureSession cid name uid (tables (db w2))) as [t1|]; [|discriminate H].
  destruct (appendHistory _ _ _ _ _ _ _ _ _ t1) as [t2|]; [|discriminate H].
  destruct (putMemory _ _ t2) as [t3|]; [|discriminate H].
  injection H as <- _. reflexivity.
Qed.

(** C2 (amended). The related-queries field is coerced to a list; a list
    shorter than five is padded to exactly five with generated suggestions;
    the entries received stay in front, in order, a bare string replaced by
    its [{query, context}] object and anything else passed through unchanged;
    so every entry of the final list has the [{query, context}] shape when
    every entry received is a string or already has that shape. *)
Theorem related_queries_normalized :
  forall (env : Env) (q : option string) (rq : option json) (w : World),
    sort_permutes env ->
    let original := coerce_related rq in
    let final := fst (normalize_related env q rq w) in
    original = match rq with Some (JArr items) => items | _ => [] end /\
    ((List.length original < 5)%nat ->
     List.length final = 5%nat /\
     exists generated,
       final = (map normalizeItem original ++ generated)%list /\
       generated
       = fst (generateAdditionalQueries env q (5 - List.length original) w) /\
       Forall (fun j => is_suggestion j = true) generated) /\
    ((5 <= List.length original)%nat -> final = map normalizeItem original) /\
    (forall i s,
        nth_error original i = Some (JStr s) ->
        nth_error final i
        = Some (JObj [("query", JStr s); ("context", JStr "Generated suggestion")])) /\
    (forall i j,
        nth_error original i = Some j -> (forall s, j <> JStr s) ->
        nth_error final i = Some j) /\
    (Forall string_or_suggestion original ->
     Forall (fun j => is_suggestion j = true) final) /\
    (forall body uid cid mem d w0 w1 reply,
        persist_exchange env body uid cid mem d w0 = (Ok200 reply, w1) ->
        related_queries (data reply)
        = Some (JArr (fst (normalize_related env (query body)
                                             (related_queries d) w0)))).
Proof.
  intros env q rq w Hperm original final.
  assert (Hfinal : final
                   = (map normalizeItem original ++
                      (if (List.length original <? 5)%nat
                       then fst (generateAdditionalQueries
                                   env q (5 - List.length original) w)
                       else []))%list)
    by apply normalize_related_unfold.
  assert (Hfront : forall i j, nth_error original i = Some j ->
                               nth_error final i = Some (normalizeItem j)).
  { intros i j Hi. rewrite Hfinal, nth_error_app1.
    - now rewrite nth_error_map, Hi.
    - rewrite length_map. apply nth_error_Some. congruence. }
  split; [|split; [|split; [|split; [|split; [|split]]]]].
  - subst original.
    destruct rq as [[]|]; try reflexivity; now apply coerce_related_other.
  - intros Hshort.
    destruct (generateAdditionalQueries_spec
                env q (5 - List.length original) w Hperm ltac:(lia)) as [Hlen Hall].
    apply Nat.ltb_lt in Hshort as Hb. rewrite Hb in Hfinal. split.
    + rewrite Hfinal, length_app, length_map, Hlen. lia.
    + eexists. split; [exact Hfinal|]. split; [reflexivity|exact Hall].
  - intros Hlong. apply Nat.ltb_ge in Hlong. rewrite Hlong in Hfinal.
    now rewrite app_nil_r in Hfinal.
  - intros i s Hi. apply (Hfront i (JStr s) Hi).
  - intros i j Hi Hj. rewrite (Hfront i j Hi). now rewrite normalizeItem_other.
  - intros Hall. rewrite Hfinal. apply Forall_app. split.
    + apply Forall_forall. intros j Hj. apply in_map_iff in Hj.
      destruct Hj as [j0 [<- Hj0]]. apply normalizeItem_shape.
      rewrite Forall_forall in Hall. now apply Hall.
    + destruct (List.length original <? 5)%nat eqn:Hb; [|constructor].
      apply generateAdditionalQueries_spec; [exact Hperm|lia].
  - intros. eapply persist_exchange_related. eassumption.
Qed.

Lemma sample_env_permutes (ai : nat -> AiRequest -> settled AxiosError AiData) :
  sort_permutes (sample_env ai).
Proof. intros n l. apply Permutation_rev. Qed.

Lemma related_queries_normalized_witness :
  sort_permutes (sample_env (fun _ _ => Resolved short_payload)) /\
  List.length (fst (normalize_related (sample_env (fun _ _ => Resolved short_payload))
                                      (Some "iso 9001")
                                      (related_queries short_payload)
                                      sample_world)) = 5%nat.
Proof.
  split.
  - apply sample_env_permutes.
  - apply (proj1 (proj2 (related_queries_normalized
                           (sample_env (fun _ _ => Resolved short_payload))
                           (Some "iso 9001") (related_queries short_payload)
                           sample_world
                           (sample_env_permutes _)))).
    simpl. lia.
Defined.

(** C2 as stated fails: an entry of the payload that is an object of another
    shape reaches the final list unchanged. *)
Lemma related_queries_shape_counterexample :
  exists reply items,
    fst (api_query (sample_env (fun _ _ => Resolved odd_payload))
                   sample_body sample_world) = Ok200 reply /\
    related_queries (data reply) = Some (JArr items) /\
    List.length items = 5%nat /\
    ~ Forall (fun j => is_suggestion j = true) items.
Proof.
  eexists. eexists. split; [vm_compute; reflexivity|].
  split; [reflexivity|]. split; [reflexivity|].
  intros H. inversion H as [|j l Hj _]. discriminate Hj.
Qed.

(** ** Text that is stored as it is sent *)

Lemma as_utf8_plain (s : string) :
  has_lone_surrogate s = false -> as_utf8 s = s.
Proof.
  unfold as_utf8. induction s as [|a r IH]; simpl; [reflexivity|].
  intros H. apply orb_false_iff in H. destruct H as [Ha Hr].
  rewrite Ha. now rewrite (IH Hr).
Qed.

Lemma pg_text_parts (s : string) :
  pg_text s = true -> has_nul s = false /\ has_lone_surrogate s = false.
Proof.
  unfold pg_text. intros H. apply andb_true_iff in H. destruct H as [H1 H2].
  split; now apply negb_true_iff.
Qed.

Lemma pg_text_as_utf8 (s : string) : pg_text s = true -> as_utf8 s = s.
Proof. intros H. apply as_utf8_plain. now apply pg_text_parts. Qed.

Lemma varchar_fits (n : nat) (s : string) :
  (chars s <= n)%nat -> varchar n s = Some s.
Proof.
  intros H. unfold varchar. apply Nat.leb_le in H. now rewrite H.
Qed.

(** ** Conversation store: what each statement does to the tables *)

Lemma filter_nil_existsb {A} (f : A -> bool) (l : list A) :
  existsb f l = false -> filter f l = [].
Proof.
  induction l as [|x l IH]; simpl; [reflexivity|].
  destruct (f x); simpl; [discriminate|exact IH].
Qed.

Lemma filter_cons_existsb {A} (f : A -> bool) (l : list A) :
  existsb f l = true -> exists x rest, filter f l = x :: rest.
Proof.
  induction l as [|x l IH]; simpl; [discriminate|].
  destruct (f x); simpl; eauto.
Qed.

Lemma ensureSession_spec (cid name : string) (uid : Z) (t t1 : Tables) :
  ensureSession cid name uid t = Resolved t1 ->
  users t1 = users t /\ chat_history t1 = chat_history t /\
  chat_memory t1 = chat_memory t /\ products t1 = products t /\
  session_exists cid t1 = true /\
  chat_sessions t1
  = (if session_exists cid t then chat_sessions t
     else chat_sessions t ++ [mkSession cid uid name (Some false)])%list.
Proof.
  unfold ensureSession. destruct (session_exists cid t) eqn:Hex.
  - intros [= <-]. repeat split; assumption.
  - destruct (user_exists uid t); [|discriminate].
    intros [= <-]. simpl. repeat split.
    unfold session_exists. simpl. rewrite existsb_app. simpl.
    rewrite String.eqb_refl. apply orb_true_r.
Qed.

Lemma appendHistory_spec (cid : string) (uid : Z) (q a : option string)
      (pr oi ov ol rq : json) (t t2 : Tables) :
  appendHistory cid uid q a pr oi ov ol rq t = Resolved t2 ->
  exists q0 a0,
    q = Some q0 /\ a = Some a0 /\
    user_exists uid t = true /\ session_exists cid t = true /\
    t2 = set_history
           (chat_history t ++
              [mkHistory uid cid (as_utf8 q0) (as_utf8 a0) pr oi ov ol rq]) t.
Proof.
  unfold appendHistory. destruct q as [q0|]; [|discriminate].
  destruct a as [a0|]; [|discriminate].
  destruct (has_nul q0); [discriminate|].
  destruct (has_nul a0); [discriminate|].
  destruct (forallb jsonb_ok _); [|discriminate]. cbn [negb].
  destruct (user_exists uid t); [|discriminate].
  destruct (session_exists cid t); [|discriminate].
  intros [= <-]. exists q0, a0. repeat split.
Qed.

Lemma filter_replace_same (cid : string) (memory : list Message)
      (l : list MemoryRow) :
  filter (fun m => (m_chat_id m =? cid)%string)
         (map (fun m => if (m_chat_id m =? cid)%string
                        then mkMemory cid memory else m) l)
  = map (fun _ => mkMemory cid memory)
        (filter (fun m => (m_chat_id m =? cid)%string) l).
Proof.
  induction l as [|m l IH]; simpl; [reflexivity|].
  destruct (m_chat_id m =? cid)%string eqn:Hm; simpl.
  - rewrite String.eqb_refl. simpl. now rewrite IH.
  - rewrite Hm. exact IH.
Qed.

Lemma filter_replace_other (cid cid' : string) (memory : list Message)
      (l : list MemoryRow) :
  cid' <> cid ->
  filter (fun m => (m_chat_id m =? cid')%string)
         (map (fun m => if (m_chat_id m =? cid)%string
                        then mkMemory cid memory else m) l)
  = filter (fun m => (m_chat_id m =? cid')%string) l.
Proof.
  intros Hne. induction l as [|m l IH]; simpl; [reflexivity|].
  destruct (m_chat_id m =? cid)%string eqn:Hm; simpl.
  - apply String.eqb_eq in Hm. rewrite Hm.
    assert (Hc : (cid =? cid')%string = false)
      by (apply String.eqb_neq; congruence).
    rewrite Hc. exact IH.
  - now rewrite IH.
Qed.

(** The upsert: the rows of the session are replaced, or one is created when
    there was none; rows of other sessions and other tables are untouched. *)
Lemma putMemory_spec (cid : string) (memory : list Message) (t t3 : Tables) :
  putMemory cid memory t = Resolved t3 ->
  select_memory cid t3
  = match select_memory cid t with
    | [] => [mkMemory cid memory]
    | rows => map (fun _ => mkMemory cid memory) rows
    end /\
  (forall cid', cid' <> cid -> select_memory cid' t3 = select_memory cid' t) /\
  users t3 = users t /\ chat_sessions t3 = chat_sessions t /\
  chat_history t3 = chat_history t /\ products t3 = products t.
Proof.
  unfold putMemory, select_memory.
  destruct (jsonb_memory_ok memory); [|discriminate]. cbn [negb].
  destruct (existsb _ (chat_memory t)) eqn:Hex.
  - intros [= <-]. simpl. split; [|split; [|repeat split]].
    + rewrite filter_replace_same.
      destruct (filter_cons_existsb _ _ Hex) as [x [rest ->]]. reflexivity.
    + intros cid' Hne. now apply filter_replace_other.
  - destruct (session_exists cid t); [|discriminate].
    intros [= <-]. simpl. split; [|split; [|repeat split]].
    + rewrite filter_app, (filter_nil_existsb _ _ Hex). simpl.
      now rewrite String.eqb_refl.
    + intros cid' Hne. rewrite filter_app. simpl.
      assert (Hc : (cid =? cid')%string = false)
        by (apply String.eqb_neq; congruence).
      rewrite Hc. apply app_nil_r.
Qed.

Lemma getMemory_putMemory (cid : string) (memory : list Message) (t t3 : Tables) :
  putMemory cid memory t = Resolved t3 -> getMemory cid t3 = memory.
Proof.
  intros H. apply putMemory_spec in H. destruct H as [H _].
  unfold getMemory. rewrite H.
  destruct (select_memory cid t); reflexivity.
Qed.

(** ** POST /api/query: the shape of a run *)

Lemma resolve_chat_id_db (env : Env) (body : QueryBody) (w : World) :
  db (snd (resolve_chat_id env body w)) = db w /\
  ai_calls (snd (resolve_chat_id env body w)) = ai_calls w.
Proof.
  unfold resolve_chat_id. destruct (truthy_text (chat_id body)); split; reflexivity.
Qed.

Lemma resolve_chat_id_supplied (env : Env) (body : QueryBody) (w : World)
      (cid : string) :
  chat_id body = Some cid -> cid <> "" ->
  resolve_chat_id env body w = (cid, w) /\ load_memory body w = getMemory cid (tables (db w)).
Proof.
  intros Hc Hne. unfold resolve_chat_id, load_memory, or_else. rewrite Hc. simpl.
  apply String.eqb_neq in Hne. rewrite Hne. simpl. split; reflexivity.
Qed.

(** The upstream call under retry never touches the database. *)
Lemma upstream_retry_db (env : Env) (req : AiRequest) (retries delay : Z)
      (w : World) :
  db (snd (Retry.retryRequest setTimeout (Math_random env)
                              (axios_post_query env req) retries delay w))
  = db w.
Proof.
  apply (retryRequest_preserves setTimeout (Math_random env)
           (axios_post_query env req) (fun w' => db w' = db w)); auto.
Qed.

(** A run that answers 200 went through the three writes, in order, on the
    tables it started from. *)
Lemma api_query_ok (env : Env) (body : QueryBody) (w w' : World)
      (reply : QueryReply) :
  api_query env body w = (Ok200 reply, w') ->
  exists uid d name pr oi ov ol rq t1 t2 t3,
    userId body = Some uid /\
    chatId reply = fst (resolve_chat_id env body w) /\
    answer (data reply) = answer d /\
    ensureSession (chatId reply) name uid (tables (db w)) = Resolved t1 /\
    appendHistory (chatId reply) uid (query body) (answer d) pr oi ov ol rq t1
    = Resolved t2 /\
    putMemory (chatId reply)
              (limitedMemory (load_memory body w) (query body) (answer d)) t2
    = Resolved t3 /\
    db w' = mkDb t3 (txn (db w)).
Proof.
  unfold api_query. destruct (userId body) as [uid|]; [|discriminate].
  destruct (resolve_chat_id env body w) as [cid w1] eqn:Hres.
  pose proof (resolve_chat_id_db env body w) as [Hdb1 _].
  rewrite Hres in Hdb1. simpl in Hdb1.
  assert (Hmem : load_memory body w1 = load_memory body w)
    by (unfold load_memory; now rewrite Hdb1).
  rewrite Hmem.
  pose proof (upstream_retry_db env (forwarded body cid uid (load_memory body w))
                                5 5000 w1) as Hdb2.
  destruct (Retry.retryRequest _ _ _ 5 5000 w1) as [[d|e] w2]; [|discriminate].
  simpl in Hdb2. unfold persist_exchange.
  destruct (normalize_related env (query body) (related_queries d) w2)
    as [related w3] eqn:Hnorm.
  assert (Hdb3 : db w3 = db w2).
  { unfold normalize_related, pad_related in Hnorm.
    destruct (List.length (coerce_related (related_queries d)) <? 5)%nat;
      injection Hnorm as _ <-; reflexivity. }
  destruct (session_name env _ w3) as [name w4] eqn:Hname.
  assert (Hdb4 : db w4 = db w3).
  { unfold session_name in Hname.
    destruct (truthy_text _); injection Hname as _ <-; reflexivity. }
  assert (Hdb : db w4 = db w) by congruence.
  rewrite Hdb.
  destruct (ensureSession cid name uid (tables (db w))) as [t1|] eqn:H1;
    [|discriminate].
  match goal with |- context [appendHistory cid uid ?q ?a ?pr ?oi ?ov ?ol ?rq t1] =>
    destruct (appendHistory cid uid q a pr oi ov ol rq t1) as [t2|] eqn:H2;
      [|discriminate];
    destruct (putMemory cid (limitedMemory (load_memory body w) q a) t2)
      as [t3|] eqn:H3; [|discriminate];
    intros [= <- <-];
    exists uid, d, name, pr, oi, ov, ol, rq, t1, t2, t3
  end.
  simpl. repeat split; try assumption.
  unfold set_tables, set_db. simpl. now rewrite Hdb.
Qed.

(** ** Chat memory *)

Lemma slice_last_length {A} (n : nat) (l : list A) :
  List.length (slice_last n l) = Nat.min n (List.length l).
Proof. unfold slice_last. rewrite length_skipn. lia. Qed.

(** Truncating before appending does not change what the next truncation
    keeps. *)
Lemma slice_last_absorb {A} (n : nat) (l x : list A) :
  slice_last n (slice_last n l ++ x) = slice_last n (l ++ x).
Proof.
  unfold slice_last. rewrite !length_app, length_skipn.
  destruct (Nat.le_gt_cases (List.length l) n) as [Hle|Hgt].
  - replace (List.length l - n)%nat with 0%nat by lia. simpl.
    now rewrite Nat.sub_0_r.
  - replace (List.length l - (List.length l - n) + List.length x - n)%nat
      with (List.length x) by lia.
    replace (List.length l + List.length x - n)%nat
      with (List.length x + (List.length l - n))%nat by lia.
    rewrite <- skipn_skipn. f_equal.
    rewrite skipn_app.
    replace (List.length l - n - List.length l)%nat with 0%nat by lia.
    reflexivity.
Qed.

Lemma slice_last_app_long {A} (n : nat) (l x : list A) :
  (n <= List.length x)%nat -> slice_last n (l ++ x) = slice_last n x.
Proof.
  intros Hx. unfold slice_last. rewrite length_app, skipn_app.
  rewrite skipn_all2 by lia. simpl. f_equal. lia.
Qed.

Lemma transcript_length (bodies : list QueryBody) :
  forall rs, List.length rs = List.length bodies -> Forall completed rs ->
             List.length (transcript bodies rs) = (2 * List.length bodies)%nat.
Proof.
  induction bodies as [|b bs IH]; intros [|r rs] Hlen Hall; simpl in *;
    try reflexivity; try discriminate.
  inversion Hall as [|? ? Hr Hrs]; subst.
  destruct r as [reply|]; [|destruct Hr]. simpl.
  rewrite (IH rs); [lia|lia|assumption].
Qed.

Lemma transcript_skipn (k : nat) :
  forall bodies rs,
    List.length rs = List.length bodies -> Forall completed rs ->
    skipn (2 * k) (transcript bodies rs) = transcript (skipn k bodies) (skipn k rs).
Proof.
  induction k as [|k IH]; intros bodies rs Hlen Hall; [reflexivity|].
  replace (2 * S k)%nat with (S (S (2 * k))) by lia.
  destruct bodies as [|b bs]; destruct rs as [|r rs]; try discriminate;
    [reflexivity|].
  inversion Hall as [|? ? Hr Hrs]; subst.
  destruct r as [reply|]; [|destruct Hr]. simpl.
  apply IH; [simpl in Hlen; lia|assumption].
Qed.

(** One completed exchange: what is stored is what was loaded, extended with
    the two messages of the exchange and cut to the last 20; the write is an
    upsert on the session id. *)
Lemma api_query_memory (env : Env) (body : QueryBody) (w w' : World)
      (reply : QueryReply) :
  api_query env body w = (Ok200 reply, w') ->
  let stored := slice_last 20 (load_memory body w ++
                               exchange_messages body (Ok200 reply)) in
  getMemory (chatId reply) (tables (db w')) = stored /\
  select_memory (chatId reply) (tables (db w'))
  = match select_memory (chatId reply) (tables (db w)) with
    | [] => [mkMemory (chatId reply) stored]
    | rows => map (fun _ => mkMemory (chatId reply) stored) rows
    end /\
  (forall cid', cid' <> chatId reply ->
                select_memory cid' (tables (db w')) = select_memory cid' (tables (db w))).
Proof.
  intros H.
  destruct (api_query_ok env body w w' reply H)
    as (uid & d & name & pr & oi & ov & ol & rq & t1 & t2 & t3 &
        Hu & Hcid & Hans & H1 & H2 & H3 & Hdb).
  simpl. rewrite Hans, Hdb. simpl.
  change (slice_last 20 (load_memory body w ++
                         [mkMessage user (query body);
                          mkMessage assistant (answer d)]))
    with (limitedMemory (load_memory body w) (query body) (answer d)).
  apply ensureSession_spec in H1. destruct H1 as (_ & _ & Hm1 & _).
  apply appendHistory_spec in H2.
  destruct H2 as (q0 & a0 & _ & _ & _ & _ & ->).
  pose proof (getMemory_putMemory _ _ _ _ H3) as Hget.
  apply putMemory_spec in H3. destruct H3 as (Hsel & Hother & _).
  unfold select_memory in *. simpl in *. rewrite Hm1 in *.
  split; [exact Hget|]. split; [exact Hsel|exact Hother].
Qed.

Lemma serve_queries_length (env : Env) (bodies : list QueryBody) :
  forall w, List.length (fst (serve_queries env bodies w)) = List.length bodies.
Proof.
  induction bodies as [|b bs IH]; intros w; simpl; [reflexivity|].
  destruct (api_query env b w) as [r w1].
  specialize (IH w1). destruct (serve_queries env bs w1) as [rs w2].
  simpl in *. now rewrite IH.
Qed.

Lemma serve_queries_memory (env : Env) (cid : string) (bodies : list QueryBody) :
  cid <> "" ->
  forall w rs w',
    Forall (fun b => chat_id b = Some cid) bodies ->
    serve_queries env bodies w = (rs, w') ->
    Forall completed rs ->
    bodies <> [] ->
    getMemory cid (tables (db w'))
    = slice_last 20 (getMemory cid (tables (db w)) ++ transcript bodies rs).
Proof.
  intros Hcid. induction bodies as [|b bs IH]; intros w rs w' Hb Hrun Hall Hne;
    [congruence|].
  simpl in Hrun. destruct (api_query env b w) as [r w1] eqn:Hstep.
  destruct (serve_queries env bs w1) as [rs1 w2] eqn:Hrest.
  injection Hrun as <- <-.
  inversion Hb as [|? ? Hb0 Hbs]; subst.
  inversion Hall as [|? ? Hr Hrs]; subst.
  destruct r as [reply|]; [|destruct Hr].
  destruct (api_query_ok env b w w1 reply Hstep)
    as (_ & _ & _ & _ & _ & _ & _ & _ & _ & _ & _ & _ & Hchat & _).
  destruct (resolve_chat_id_supplied env b w cid Hb0 Hcid) as [Hres Hload].
  rewrite Hres in Hchat. simpl in Hchat.
  destruct (api_query_memory env b w w1 reply Hstep) as [Hget _].
  rewrite Hchat, Hload in Hget.
  destruct bs as [|b2 bs'].
  - simpl in Hrest. injection Hrest as <- <-.
    cbn [transcript exchange_messages app] in *. exact Hget.
  - rewrite (IH w1 rs1 w2 Hbs Hrest Hrs ltac:(discriminate)).
    rewrite Hget. remember (b2 :: bs') as bs.
    simpl transcript. rewrite slice_last_absorb, <- app_assoc. reflexivity.
Qed.



(** ** Ownership checks *)

Lemma no_session_no_owned (cid : string) (uid : Z) (t : Tables) :
  session_exists cid t = false -> select_owned_session cid uid t = [].
Proof.
  unfold session_exists, select_owned_session. intros H.
  induction (chat_sessions t) as [|s l IH]; simpl in *; [reflexivity|].
  apply orb_false_iff in H. destruct H as [Hs Hl].
  rewrite Hs. simpl. now apply IH.
Qed.

Lemma absent_id_no_rows (cid : string) (f : ChatSession -> bool)
      (l : list ChatSession) :
  ~ In cid (map s_chat_id l) ->
  existsb (fun s => (s_chat_id s =? cid)%string) (filter f l) = false.
Proof.
  induction l as [|s l IH]; simpl; intros Hnot; [reflexivity|].
  assert (Hs : (s_chat_id s =? cid)%string = false)
    by (apply String.eqb_neq; intros E; apply Hnot; now left).
  assert (Hl : ~ In cid (map s_chat_id l)) by (intros Hin; apply Hnot; now right).
  destruct (f s); simpl; [rewrite Hs; simpl|]; now apply IH.
Qed.

Lemma absent_id_filter_nil (cid : string) (uid : Z) (l : list ChatSession) :
  ~ In cid (map s_chat_id l) ->
  filter (fun s => (s_chat_id s =? cid)%string && (s_user_id s =? uid)) l = [].
Proof.
  induction l as [|s l IH]; simpl; intros Hnot; [reflexivity|].
  assert (Hs : (s_chat_id s =? cid)%string = false)
    by (apply String.eqb_neq; intros E; apply Hnot; now left).
  rewrite Hs. simpl. apply IH. intros Hin. apply Hnot. now right.
Qed.

(** Under the primary key, a session row of another user rules out a row of
    the requester. *)
Lemma other_owner_no_owned (cid : string) (uid : Z) (t : Tables) (s : ChatSession) :
  sessions_pk t -> In s (chat_sessions t) -> s_chat_id s = cid ->
  s_user_id s <> uid -> select_owned_session cid uid t = [].
Proof.
  unfold sessions_pk, select_owned_session.
  induction (chat_sessions t) as [|x l IH]; simpl; intros Hpk Hin Hc Hu;
    [reflexivity|].
  inversion Hpk as [|? ? Hx Hl]; subst.
  destruct Hin as [->|Hin].
  - rewrite String.eqb_refl. simpl.
    assert (Hz : (s_user_id s =? uid) = false) by now apply Z.eqb_neq.
    rewrite Hz. now apply absent_id_filter_nil.
  - assert (Hne : (s_chat_id x =? s_chat_id s)%string = false).
    { apply String.eqb_neq. intros E. apply Hx. rewrite E.
      now apply in_map. }
    rewrite Hne. simpl. now apply IH.
Qed.

Lemma not_owner_no_owned (cid : string) (uid : Z) (t : Tables) :
  not_owner cid uid t -> select_owned_session cid uid t = [].
Proof.
  intros [H|[Hpk (s & Hin & Hc & Hu)]].
  - now apply no_session_no_owned.
  - now apply (other_owner_no_owned cid uid t s).
Qed.

Lemma rollback_begin (w : World) : idle w -> set_db (ROLLBACK (BEGIN (db w))) w = w.
Proof.
  unfold idle, BEGIN, ROLLBACK, set_db. destruct w as [[t tx] n ws r]. simpl.
  intros ->. reflexivity.
Qed.

Lemma bind_accepts (cid : string) (uid : Z) :
  pg_text cid = true -> int4 uid = true -> bind_fails cid uid = false.
Proof.
  intros Ht Hi. unfold bind_fails. rewrite Hi.
  now rewrite (proj1 (pg_text_parts _ Ht)).
Qed.

(** C5 (amended). Reading the history of a session, setting its favorite flag
    and deleting it are all refused with 403 "Access denied" when the requester
    is not its owner, whether the session belongs to another user or does not
    exist at all; nothing in the world changes.  This is said of a chat id the
    database takes as it is sent and of a user id that is an INTEGER of the
    database, and it holds as long as the ownership query itself does not
    fail; with a user id that is no INTEGER it does fail, and all three
    answer 500 "Server error", again without any change. *)
Theorem session_access_denied :
  forall (w : World) (cid : string) (uid : Z) (favorite : option bool),
    cid <> "" ->
    pg_text cid = true ->
    int4 uid = true ->
    idle w ->
    not_owner cid uid (tables (db w)) ->
    api_chat_history (Some cid) (Some uid) w = (Fail 403 "Access denied", w) /\
    api_update_chat_favorite (mkFavoriteBody (Some cid) (Some uid) favorite) w
    = (Fail 403 "Access denied", w) /\
    api_delete_chat (Some cid) (Some uid) w = (Fail 403 "Access denied", w) /\
    (forall throws,
        throws 0%nat = false ->
        api_chat_history_faults throws (Some cid) (Some uid) w
        = (Fail 403 "Access denied", w) /\
        api_update_chat_favorite_faults
          throws (mkFavoriteBody (Some cid) (Some uid) favorite) w
        = (Fail 403 "Access denied", w) /\
        (throws 1%nat = false ->
         api_delete_chat_faults throws (Some cid) (Some uid) w
         = (Fail 403 "Access denied", w))) /\
    (forall throws u,
        int4 u = false ->
        api_chat_history_faults throws (Some cid) (Some u) w
        = (Fail 500 "Server error", w) /\
        api_update_chat_favorite_faults
          throws (mkFavoriteBody (Some cid) (Some u) favorite) w
        = (Fail 500 "Server error", w) /\
        api_delete_chat_faults throws (Some cid) (Some u) w
        = (Fail 500 "Server error", w)).
Proof.
  intros w cid uid favorite Hcid Htext Hint Hidle Hnot.
  apply not_owner_no_owned in Hnot.
  apply String.eqb_neq in Hcid.
  pose proof (bind_accepts cid uid Htext Hint) as Hbind.
  pose proof (pg_text_as_utf8 cid Htext) as Hsent.
  assert (Hb : tables (BEGIN (db w)) = tables (db w))
    by (unfold BEGIN; destruct (txn (db w)); reflexivity).
  split; [|split; [|split; [|split]]].
  - unfold api_chat_history, or_else. simpl. rewrite Hcid. simpl.
    now rewrite Hnot.
  - unfold api_update_chat_favorite, or_else. simpl. rewrite Hcid. simpl.
    now rewrite Hnot.
  - unfold api_delete_chat, or_else. simpl. rewrite Hcid. simpl.
    rewrite Hb, Hnot. simpl. now rewrite (rollback_begin w Hidle).
  - intros throws H0. split; [|split].
    + unfold api_chat_history_faults, or_else. simpl. rewrite Hcid. simpl.
      rewrite H0, Hbind, Hsent. simpl. now rewrite Hnot.
    + unfold api_update_chat_favorite_faults, or_else. simpl. rewrite Hcid.
      simpl. rewrite H0, Hbind, Hsent. simpl. now rewrite Hnot.
    + intros H1. unfold api_delete_chat_faults, or_else. simpl. rewrite Hcid.
      simpl. rewrite H0, H1, Hbind, Hsent. simpl.
      rewrite Hb, Hnot. simpl. now rewrite (rollback_begin w Hidle).
  - intros throws u Hu.
    assert (Hfail : bind_fails cid u = true)
      by (unfold bind_fails; now rewrite Hu).
    split; [|split].
    + unfold api_chat_history_faults, or_else. simpl. rewrite Hcid. simpl.
      rewrite Hfail. now rewrite orb_true_r.
    + unfold api_update_chat_favorite_faults, or_else. simpl. rewrite Hcid.
      simpl. rewrite Hfail. now rewrite orb_true_r.
    + unfold api_delete_chat_faults, or_else. simpl. rewrite Hcid. simpl.
      rewrite Hfail. destruct (throws 0%nat); [reflexivity|].
      rewrite orb_true_r. now rewrite (rollback_begin w Hidle).
Qed.

(** User 2 on chat "c1" of user 1: refused; and with the user id 2147483648,
    which is no INTEGER: 500. *)
Lemma session_access_denied_witness :
  "c1" <> "" /\ pg_text "c1" = true /\ int4 2 = true /\ idle sample_world /\
  not_owner "c1" 2 (tables (db sample_world)) /\
  api_delete_chat (Some "c1") (Some 2) sample_world
  = (Fail 403 "Access denied", sample_world) /\
  api_chat_history_faults (fun _ => false) (Some "c1") (Some 2147483648)
                          sample_world
  = (Fail 500 "Server error", sample_world).
Proof.
  assert (Hnot : not_owner "c1" 2 (tables (db sample_world))).
  { right. split.
    - repeat constructor. simpl. tauto.
    - exists (mkSession "c1" 1 "Audit basics" (Some false)).
      simpl. repeat split; [now left|lia]. }
  split; [discriminate|]. split; [reflexivity|]. split; [reflexivity|].
  split; [reflexivity|]. split; [exact Hnot|].
  destruct (session_access_denied sample_world "c1" 2 None
              ltac:(discriminate) eq_refl eq_refl eq_refl Hnot)
    as (_ & _ & Hdel & _ & Hrange).
  split; [exact Hdel|].
  exact (proj1 (Hrange (fun _ => false) 2147483648 eq_refl)).
Defined.

(** C5 as stated fails: a session that does not exist is answered with 403,
    not with 404, by all three operations. *)
Lemma missing_session_counterexample :
  session_exists "nope" (tables (db sample_world)) = false /\
  status_of (fst (api_chat_history (Some "nope") (Some 1) sample_world)) <> 404 /\
  status_of (fst (api_update_chat_favorite
                    (mkFavoriteBody (Some "nope") (Some 1) (Some true))
                    sample_world)) <> 404 /\
  status_of (fst (api_delete_chat (Some "nope") (Some 1) sample_world)) <> 404.
Proof. repeat split; vm_compute; discriminate. Qed.

(** ** Session deletion *)

Lemma api_chat_history_denied (w : World) (cid : string) (u : Z) :
  cid <> "" ->
  select_owned_session cid u (tables (db w)) = [] ->
  api_chat_history (Some cid) (Some u) w = (Fail 403 "Access denied", w).
Proof.
  intros Hcid Hnone. apply String.eqb_neq in Hcid.
  unfold api_chat_history, or_else. simpl. rewrite Hcid. simpl.
  now rewrite Hnone.
Qed.

Lemma filter_filter_negb {A} (p : A -> bool) (l : list A) :
  filter p (filter (fun x => negb (p x)) l) = [].
Proof.
  induction l as [|x l IH]; simpl; [reflexivity|].
  destruct (p x) eqn:Hp; simpl; [exact IH|]. rewrite Hp. exact IH.
Qed.

Lemma filter_filter_other {A} (p q : A -> bool) (l : list A) :
  (forall x, p x = true -> q x = false) ->
  filter p (filter (fun x => negb (q x)) l) = filter p l.
Proof.
  intros Hpq. induction l as [|x l IH]; simpl; [reflexivity|].
  destruct (q x) eqn:Hq; simpl.
  - destruct (p x) eqn:Hp; [|exact IH].
    apply Hpq in Hp. congruence.
  - now rewrite IH.
Qed.

Lemma eqb_other (a cid cid' : string) :
  cid' <> cid -> (a =? cid')%string = true -> (a =? cid)%string = false.
Proof.
  intros Hne H. apply String.eqb_eq in H. subst a. now apply String.eqb_neq.
Qed.

(** Under the primary key, deleting the requester's row of a chat id leaves no
    row with that chat id. *)
Lemma pk_delete_owned (cid : string) (uid : Z) (l : list ChatSession) :
  NoDup (map s_chat_id l) ->
  filter (fun s => (s_chat_id s =? cid)%string && (s_user_id s =? uid)) l <> [] ->
  existsb (fun s => (s_chat_id s =? cid)%string)
          (filter (fun s => negb ((s_chat_id s =? cid)%string && (s_user_id s =? uid))) l)
  = false.
Proof.
  induction l as [|s l IH]; simpl; intros Hpk Hhit; [reflexivity|].
  inversion Hpk as [|? ? Hs Hl]; subst.
  destruct (s_chat_id s =? cid)%string eqn:Hc; simpl in *.
  - apply String.eqb_eq in Hc. subst cid.
    destruct (s_user_id s =? uid); simpl in *.
    + now apply absent_id_no_rows.
    + exfalso. apply Hhit. now apply absent_id_filter_nil.
  - rewrite Hc. simpl. now apply IH.
Qed.

(** What the [catch] of the transaction restores: the tables as they were
    when BEGIN was issued, whatever has been deleted since. *)
Lemma rollback_restores (w : World) (t' : Tables) :
  idle w ->
  set_db (ROLLBACK (mkDb t' (txn (BEGIN (db w))))) w = w.
Proof.
  unfold idle, BEGIN, ROLLBACK, set_db. destruct w as [[t tx] n ws r]. simpl.
  intros ->. reflexivity.
Qed.

Lemma begin_tables (w : World) : tables (BEGIN (db w)) = tables (db w).
Proof. unfold BEGIN. destruct (txn (db w)); reflexivity. Qed.

Lemma owned_after_deletes (cid : string) (uid : Z) (t : Tables) :
  select_owned_session cid uid (delete_history cid (delete_memory cid t))
  = select_owned_session cid uid t.
Proof. reflexivity. Qed.

(** The handler with its failure paths is the handler above when nothing
    fails. *)
Lemma api_delete_chat_no_fault (throws : nat -> bool) (cid : string)
      (uid : Z) (w : World) :
  no_fault throws -> pg_text cid = true -> int4 uid = true ->
  api_delete_chat_faults throws (Some cid) (Some uid) w
  = api_delete_chat (Some cid) (Some uid) w.
Proof.
  intros Hno Htext Hint. unfold api_delete_chat_faults, api_delete_chat.
  destruct (negb (truthy_text (Some cid))) eqn:Hc; [reflexivity|].
  assert (Hsent : or_else (Some cid) "" = cid).
  { unfold or_else. now destruct (truthy_text (Some cid)). }
  rewrite Hsent, (pg_text_as_utf8 cid Htext), (bind_accepts cid uid Htext Hint).
  rewrite !Hno. cbn [negb orb].
  destruct (List.length _ =? 0)%nat; reflexivity.
Qed.

(** A deletion by the owner in which a statement fails. *)
Lemma api_delete_chat_fault (throws : nat -> bool) (w : World) (cid : string)
      (uid : Z) (k : nat) :
  cid <> "" -> pg_text cid = true -> idle w ->
  select_owned_session cid uid (tables (db w)) <> [] ->
  (k <= 5)%nat -> throws k = true ->
  api_delete_chat_faults throws (Some cid) (Some uid) w
  = (Fail 500 "Server error", w).
Proof.
  intros Hcid Htext Hidle Howned Hk Hthrow. apply String.eqb_neq in Hcid.
  unfold api_delete_chat_faults, or_else. simpl. rewrite Hcid. simpl.
  rewrite (pg_text_as_utf8 cid Htext).
  destruct (throws 0%nat) eqn:H0; [reflexivity|].
  destruct (throws 1%nat || bind_fails cid uid) eqn:H1;
    [now rewrite (rollback_begin w Hidle)|].
  apply orb_false_iff in H1. destruct H1 as [H1 _].
  rewrite begin_tables.
  destruct (select_owned_session cid uid (tables (db w))) as [|s0 rest] eqn:Hsel;
    [congruence|].
  cbn [List.length Nat.eqb].
  destruct (throws 2%nat) eqn:H2; [now rewrite (rollback_begin w Hidle)|].
  destruct (throws 3%nat) eqn:H3; [now rewrite (rollback_restores w _ Hidle)|].
  destruct (throws 4%nat) eqn:H4; [now rewrite (rollback_restores w _ Hidle)|].
  unfold delete_session. cbn [tables txn].
  rewrite !owned_after_deletes, !Hsel.
  cbn [List.length Nat.eqb].
  destruct (throws 5%nat) eqn:H5; [now rewrite (rollback_restores w _ Hidle)|].
  exfalso.
  do 6 (destruct k as [|k]; [congruence|]). lia.
Qed.

(** Whatever fails, the deletion is all or nothing. *)
Lemma api_delete_chat_atomic (throws : nat -> bool) (w : World) (cid : string)
      (uid : Z) :
  cid <> "" -> pg_text cid = true -> idle w ->
  let run := api_delete_chat_faults throws (Some cid) (Some uid) w in
  (snd run = w /\ fst run <> Ok200 "Chat deleted successfully") \/
  (fst run = Ok200 "Chat deleted successfully" /\
   snd run = snd (api_delete_chat (Some cid) (Some uid) w) /\
   select_owned_session cid uid (tables (db w)) <> []).
Proof.
  intros Hcid Htext Hidle run. subst run. apply String.eqb_neq in Hcid.
  unfold api_delete_chat_faults, api_delete_chat, or_else.
  simpl. rewrite Hcid. simpl. rewrite (pg_text_as_utf8 cid Htext).
  destruct (throws 0%nat); [left; split; [reflexivity|discriminate]|].
  destruct (throws 1%nat || bind_fails cid uid);
    [left; rewrite (rollback_begin w Hidle); split; [reflexivity|discriminate]|].
  rewrite begin_tables.
  destruct (select_owned_session cid uid (tables (db w))) as [|s0 rest] eqn:Hsel.
  { left. cbn [List.length Nat.eqb]. rewrite (rollback_begin w Hidle).
    split; [reflexivity|discriminate]. }
  cbn [List.length Nat.eqb].
  destruct (throws 2%nat);
    [left; rewrite (rollback_begin w Hidle); split; [reflexivity|discriminate]|].
  destruct (throws 3%nat);
    [left; rewrite (rollback_restores w _ Hidle); split; [reflexivity|discriminate]|].
  destruct (throws 4%nat);
    [left; rewrite (rollback_restores w _ Hidle); split; [reflexivity|discriminate]|].
  unfold delete_session. cbn [tables txn].
  rewrite !owned_after_deletes, !Hsel.
  cbn [List.length Nat.eqb].
  destruct (throws 5%nat);
    [left; rewrite (rollback_restores w _ Hidle); split; [reflexivity|discriminate]|].
  right. split; [reflexivity|]. split; [reflexivity|discriminate].
Qed.

(** C4 (amended). Deleting a session either removes everything or nothing.
    For the owner, the memory rows, the history rows and the session row of
    the chat id are removed in that order inside one transaction, which is
    committed; rows of other sessions stay; and a later history fetch for the
    id is refused with 403 "Access denied".  For anyone else the transaction
    is rolled back, the world is unchanged and the answer is 403 "Access
    denied".  When a statement of the request fails, also after the first
    rows have been deleted, or when the user id is no INTEGER of the
    database, the transaction is rolled back, the answer is 500 "Server
    error" and the world is as it was before the request.  User ids are
    INTEGERs of the database and the chat id is text it takes as sent, where
    not said otherwise. *)
Theorem delete_chat_cascade :
  forall (w : World) (cid : string) (uid : Z),
    cid <> "" ->
    pg_text cid = true ->
    idle w ->
    sessions_pk (tables (db w)) ->
    let t := tables (db w) in
    let r := fst (api_delete_chat (Some cid) (Some uid) w) in
    let w' := snd (api_delete_chat (Some cid) (Some uid) w) in
    (int4 uid = true ->
     select_owned_session cid uid t <> [] ->
     r = Ok200 "Chat deleted successfully" /\
     idle w' /\
     tables (db w')
     = fst (delete_session cid uid (delete_history cid (delete_memory cid t))) /\
     select_memory cid (tables (db w')) = [] /\
     select_history cid (tables (db w')) = [] /\
     session_exists cid (tables (db w')) = false /\
     (forall cid', cid' <> cid ->
                   select_memory cid' (tables (db w')) = select_memory cid' t /\
                   select_history cid' (tables (db w')) = select_history cid' t) /\
     (forall u, int4 u = true ->
                api_chat_history (Some cid) (Some u) w'
                = (Fail 403 "Access denied", w'))) /\
    (int4 uid = true ->
     select_owned_session cid uid t = [] ->
     r = Fail 403 "Access denied" /\ w' = w) /\
    (forall throws,
        let run := api_delete_chat_faults throws (Some cid) (Some uid) w in
        (int4 uid = true -> no_fault throws -> run = (r, w')) /\
        (int4 uid = false -> run = (Fail 500 "Server error", w)) /\
        (select_owned_session cid uid t <> [] ->
         forall k, (k <= 5)%nat -> throws k = true ->
                   run = (Fail 500 "Server error", w)) /\
        ((snd run = w /\ fst run <> Ok200 "Chat deleted successfully") \/
         (fst run = Ok200 "Chat deleted successfully" /\ snd run = w' /\
          select_owned_session cid uid t <> []))).
Proof.
  intros w cid uid Hcid Htext Hidle Hpk t r w'.
  assert (Hb : tables (BEGIN (db w)) = t) by apply begin_tables.
  pose proof Hcid as Hcid'. apply String.eqb_neq in Hcid'.
  split; [|split].
  - intros _ Howned.
    assert (Hrun : api_delete_chat (Some cid) (Some uid) w
                   = (Ok200 "Chat deleted successfully",
                      set_db (mkDb (fst (delete_session cid uid
                                           (delete_history cid (delete_memory cid t))))
                                   None) w)).
    { unfold api_delete_chat, or_else. simpl. rewrite Hcid'. simpl. rewrite Hb.
      fold t. destruct (select_owned_session cid uid t) as [|s0 rest] eqn:Hsel;
        [congruence|].
      simpl. unfold select_owned_session. simpl. fold (select_owned_session cid uid t).
      rewrite Hsel. reflexivity. }
    subst r w'. rewrite Hrun. simpl.
    assert (Hgone : session_exists cid
                      (fst (delete_session cid uid
                              (delete_history cid (delete_memory cid t)))) = false).
    { unfold session_exists. simpl. now apply pk_delete_owned. }
    repeat split.
    + unfold select_memory. simpl. apply filter_filter_negb.
    + unfold select_history. simpl. apply filter_filter_negb.
    + exact Hgone.
    + unfold select_memory. simpl. apply filter_filter_other.
      intros x. now apply eqb_other.
    + unfold select_history. simpl. apply filter_filter_other.
      intros x. now apply eqb_other.
    + intros u _. apply api_chat_history_denied; [exact Hcid|].
      now apply no_session_no_owned.
  - intros _ Hnone. subst r w'.
    unfold api_delete_chat, or_else. simpl. rewrite Hcid'. simpl. rewrite Hb.
    fold t. rewrite Hnone. simpl. split; [reflexivity|].
    now apply rollback_begin.
  - intros throws run. subst run r w'. split; [|split; [|split]].
    + intros Hint Hno.
      rewrite (api_delete_chat_no_fault throws cid uid w Hno Htext Hint).
      now destruct (api_delete_chat (Some cid) (Some uid) w).
    + intros Hint. unfold api_delete_chat_faults, or_else. simpl.
      rewrite Hcid'. simpl. unfold bind_fails. rewrite Hint. simpl.
      destruct (throws 0%nat); [reflexivity|].
      rewrite orb_true_r. now rewrite (rollback_begin w Hidle).
    + intros Howned k Hk Hthrow.
      now apply (api_delete_chat_fault throws w cid uid k).
    + now apply api_delete_chat_atomic.
Qed.

Lemma sample_tables_pk : sessions_pk sample_tables.
Proof. repeat constructor. simpl. tauto. Qed.

(** The owner deletes chat "c1"; and the same request when the third DELETE
    fails, after memory and history are gone: answered 500, nothing deleted. *)
Lemma delete_chat_cascade_witness :
  "c1" <> "" /\ pg_text "c1" = true /\ idle sample_world /\
  sessions_pk (tables (db sample_world)) /\
  fst (api_delete_chat (Some "c1") (Some 1) sample_world)
  = Ok200 "Chat deleted successfully" /\
  select_history "c1"
    (tables (db (snd (api_delete_chat (Some "c1") (Some 1) sample_world)))) = [] /\
  api_delete_chat_faults (fun k => (k =? 4)%nat) (Some "c1") (Some 1) sample_world
  = (Fail 500 "Server error", sample_world).
Proof.
  split; [discriminate|]. split; [reflexivity|]. split; [reflexivity|].
  split; [exact sample_tables_pk|].
  destruct (delete_chat_cascade sample_world "c1" 1
              ltac:(discriminate) eq_refl eq_refl sample_tables_pk)
    as (Hown & _ & Hfaults).
  destruct (Hown eq_refl ltac:(discriminate)) as (Hr & _ & _ & _ & Hh & _).
  split; [exact Hr|]. split; [exact Hh|].
  destruct (Hfaults (fun k => (k =? 4)%nat)) as (_ & _ & Hfail & _).
  apply (Hfail ltac:(discriminate) 4%nat); [lia|reflexivity].
Defined.

(** C4 as stated fails in its last part: after the deletion the history fetch
    for the id answers neither an empty list nor 404, but 403. *)
Lemma deleted_history_fetch_counterexample :
  fst (api_delete_chat (Some "c1") (Some 1) sample_world)
  = Ok200 "Chat deleted successfully" /\
  fst (api_chat_history
         (Some "c1") (Some 1)
         (snd (api_delete_chat (Some "c1") (Some 1) sample_world)))
  <> Ok200 [] /\
  status_of (fst (api_chat_history
                    (Some "c1") (Some 1)
                    (snd (api_delete_chat (Some "c1") (Some 1) sample_world))))
  <> 404.
Proof.
  split; [reflexivity|]. split; vm_compute; discriminate.
Qed.

(** ** POST /api/query: validation and upstream failure *)

Lemma upstream_retry_invokes (env : Env) (req : AiRequest) (w : World) :
  (ai_calls w
   < ai_calls (snd (Retry.retryRequest setTimeout (Math_random env)
                                       (axios_post_query env req) 5 5000 w)))%nat.
Proof.
  unfold Retry.retryRequest.
  change (Z.to_nat (5 + 1)) with 6%nat.
  now apply loop_invokes with (outcome := fun n => ai_query env n req).
Qed.

Lemma upstream_retry_exhausts (env : Env) (req : AiRequest) (w : World) :
  (forall i, (i < 6)%nat -> is_rejected (ai_query env (ai_calls w + i) req)) ->
  fst (Retry.retryRequest setTimeout (Math_random env)
                          (axios_post_query env req) 5 5000 w)
  = Rejected (error_of (ai_query env (ai_calls w + 5) req)) /\
  ai_calls (snd (Retry.retryRequest setTimeout (Math_random env)
                                    (axios_post_query env req) 5 5000 w))
  = (ai_calls w + 6)%nat.
Proof.
  intros Hfail. unfold Retry.retryRequest.
  change (Z.to_nat (5 + 1)) with 6%nat.
  now apply (loop_exhausts setTimeout (Math_random env) (axios_post_query env req)
                           ai_calls (fun n => ai_query env n req)).
Qed.

Lemma persist_exchange_calls (env : Env) (body : QueryBody) (uid : Z)
      (cid : string) (mem : list Message) (d : AiData) (w : World) :
  ai_calls (snd (persist_exchange env body uid cid mem d w)) = ai_calls w /\
  (fst (persist_exchange env body uid cid mem d w) = failed_query \/
   completed (fst (persist_exchange env body uid cid mem d w))).
Proof.
  unfold persist_exchange.
  destruct (normalize_related env (query body) (related_queries d) w)
    as [related w1] eqn:Hnorm.
  assert (H1 : ai_calls w1 = ai_calls w).
  { unfold normalize_related, pad_related in Hnorm.
    destruct (List.length (coerce_related (related_queries d)) <? 5)%nat;
      injection Hnorm as _ <-; reflexivity. }
  destruct (session_name env _ w1) as [name w2] eqn:Hname.
  assert (H2 : ai_calls w2 = ai_calls w1).
  { unfold session_name in Hname.
    destruct (truthy_text _); injection Hname as _ <-; reflexivity. }
  destruct (ensureSession cid name uid (tables (db w2))) as [t1|].
  - destruct (appendHistory _ _ _ _ _ _ _ _ _ t1) as [t2|].
    + destruct (putMemory _ _ t2) as [t3|]; simpl; split;
        try congruence; [now right|now left].
    + simpl. split; [congruence|now left].
  - simpl. split; [congruence|now left].
Qed.

(** With a user id the handler gets as far as the AI backend, and its answer
    is then 200 or 500. *)
Lemma api_query_forwards (env : Env) (body : QueryBody) (w : World) (uid : Z) :
  userId body = Some uid ->
  (fst (api_query env body w) = failed_query \/
   completed (fst (api_query env body w))) /\
  (ai_calls w < ai_calls (snd (api_query env body w)))%nat.
Proof.
  intros H. unfold api_query. rewrite H.
  destruct (resolve_chat_id env body w) as [cid w1] eqn:Hres.
  pose proof (resolve_chat_id_db env body w) as [_ Hc1].
  rewrite Hres in Hc1. simpl in Hc1.
  pose proof (upstream_retry_invokes
                env (forwarded body cid uid (load_memory body w1)) w1) as Hinv.
  destruct (Retry.retryRequest _ _ _ 5 5000 w1) as [[d|e] w2]; simpl in Hinv.
  - destruct (persist_exchange_calls env body uid cid (load_memory body w1) d w2)
      as [Hc Hr].
    rewrite Hc. split; [exact Hr|lia].
  - simpl. split; [now left|lia].
Qed.

Lemma answered_200_or_500 {A} (r : response A) (message : string) :
  r = Fail 500 message \/ completed r ->
  status_of r <> 400 /\ status_of r <> 403.
Proof.
  intros [->|H]; [split; discriminate|].
  destruct r; [split; discriminate|destruct H].
Qed.

(** C6 (amended). A request without a user id is answered 400 before anything
    else happens: no call to the AI backend, nothing written.  The query
    string is not validated: with a user id the request is never answered 400
    and the AI backend is called, whatever the query. *)
Theorem query_validation :
  forall (env : Env) (body : QueryBody) (w : World),
    (userId body = None ->
     api_query env body w = (Fail 400 "User ID is required", w)) /\
    (forall uid,
        userId body = Some uid ->
        status_of (fst (api_query env body w)) <> 400 /\
        (ai_calls w < ai_calls (snd (api_query env body w)))%nat).
Proof.
  intros env body w. split.
  - intros H. unfold api_query. now rewrite H.
  - intros uid H.
    destruct (api_query_forwards env body w uid H) as [Hr Hcalls].
    split; [|exact Hcalls].
    now apply (answered_200_or_500 _ "Failed to process query").
Qed.

(** C6 as stated fails: an empty query with a user id is forwarded and stored
    and answered 200; a missing query with a user id reaches the AI backend
    and is answered 500 after the session row was written. *)
Lemma unvalidated_query_counterexample :
  status_of (fst (api_query (sample_env echo_ai)
                            (mkQueryBody (Some "") None (Some "c1") (Some 1))
                            sample_world)) = 200 /\
  ai_calls (snd (api_query (sample_env echo_ai)
                           (mkQueryBody (Some "") None (Some "c1") (Some 1))
                           sample_world)) = 1%nat /\
  List.length (chat_history
                 (tables (db (snd (api_query
                                     (sample_env echo_ai)
                                     (mkQueryBody (Some "") None (Some "c1") (Some 1))
                                     sample_world))))) = 2%nat /\
  status_of (fst (api_query (sample_env echo_ai)
                            (mkQueryBody None None None (Some 1))
                            sample_world)) = 500 /\
  ai_calls (snd (api_query (sample_env echo_ai)
                           (mkQueryBody None None None (Some 1))
                           sample_world)) = 1%nat /\
  List.length (chat_sessions
                 (tables (db (snd (api_query
                                     (sample_env echo_ai)
                                     (mkQueryBody None None None (Some 1))
                                     sample_world))))) = 2%nat.
Proof. repeat split; vm_compute; reflexivity. Qed.

Lemma query_validation_witness :
  api_query (sample_env echo_ai) (mkQueryBody (Some "iso 9001") None None None)
            sample_world
  = (Fail 400 "User ID is required", sample_world).
Proof.
  apply (proj1 (query_validation (sample_env echo_ai)
                                 (mkQueryBody (Some "iso 9001") None None None)
                                 sample_world)).
  reflexivity.
Defined.

(** C7. When the call to the AI backend fails on the first attempt and on all
    five retries, the request is answered 500 and the database is exactly as
    it was: no session row, no history row, no memory row was written. *)
Theorem upstream_failure_no_persistence :
  forall (env : Env) (body : QueryBody) (w : World) (uid : Z),
    userId body = Some uid ->
    (forall i, (i < 6)%nat ->
               is_rejected
                 (ai_query env (ai_calls w + i)
                           (forwarded body (fst (resolve_chat_id env body w)) uid
                                      (load_memory body w)))) ->
    fst (api_query env body w) = Fail 500 "Failed to process query" /\
    db (snd (api_query env body w)) = db w /\
    ai_calls (snd (api_query env body w)) = (ai_calls w + 6)%nat.
Proof.
  intros env body w uid Hu Hfail. unfold api_query. rewrite Hu.
  destruct (resolve_chat_id env body w) as [cid w1] eqn:Hres.
  pose proof (resolve_chat_id_db env body w) as [Hdb1 Hc1].
  rewrite Hres in Hdb1, Hc1. simpl in Hdb1, Hc1, Hfail.
  assert (Hmem : load_memory body w1 = load_memory body w)
    by (unfold load_memory; now rewrite Hdb1).
  rewrite Hmem.
  pose proof (upstream_retry_db env (forwarded body cid uid (load_memory body w))
                                5 5000 w1) as Hdb2.
  destruct (upstream_retry_exhausts
              env (forwarded body cid uid (load_memory body w)) w1) as [Hr Hc2].
  { intros i Hi. rewrite Hc1. now apply Hfail. }
  destruct (Retry.retryRequest _ _ _ 5 5000 w1) as [[d|e] w2];
    simpl in Hr, Hc2, Hdb2; [discriminate Hr|].
  simpl. repeat split; congruence.
Qed.

Lemma upstream_failure_no_persistence_witness :
  userId sample_body = Some 1 /\
  fst (api_query (sample_env dead_ai) sample_body sample_world)
  = Fail 500 "Failed to process query" /\
  db (snd (api_query (sample_env dead_ai) sample_body sample_world))
  = db sample_world.
Proof.
  split; [reflexivity|].
  destruct (upstream_failure_no_persistence
              (sample_env dead_ai) sample_body sample_world 1 eq_refl
              (fun i _ => I)) as (Hr & Hdb & _).
  split; [exact Hr|exact Hdb].
Defined.

(** ** Session creation *)



(** ** Product colors *)

Lemma find_first {A} (f : A -> bool) (pre post : list A) (c : A) :
  Forall (fun x => f x = false) pre -> f c = true ->
  find f (pre ++ c :: post) = Some c.
Proof.
  intros Hpre Hc. induction Hpre as [|x pre Hx _ IH]; simpl.
  - now rewrite Hc.
  - now rewrite Hx.
Qed.

Lemma find_none {A} (f : A -> bool) (l : list A) :
  Forall (fun x => f x = false) l -> find f l = None.
Proof.
  intros H. induction H as [|x l Hx _ IH]; simpl; [reflexivity|].
  now rewrite Hx.
Qed.

Lemma colors_truthy (c : string) : In c colors -> truthy_text (Some c) = true.
Proof.
  intros H. simpl in H.
  repeat (destruct H as [<-|H]; [reflexivity|]). destruct H.
Qed.

(** Creating the product under retry of the query generation never touches
    the database. *)
Lemma product_retry_db (env : Env) (title info : option string)
      (retries delay : Z) (w : World) :
  db (snd (Retry.retryRequest setTimeout (Math_random env)
                              (axios_post_product_queries env title info)
                              retries delay w))
  = db w.
Proof.
  apply (retryRequest_preserves setTimeout (Math_random env)
           (axios_post_product_queries env title info)
           (fun w' => db w' = db w)); auto.
Qed.

Lemma availableColor_first (usedColors : list (option string))
      (pre post : list string) (c : string) :
  colors = (pre ++ c :: post)%list ->
  Forall (fun x => includes usedColors x = true) pre ->
  includes usedColors c = false ->
  availableColor usedColors = c.
Proof.
  intros Hsplit Hpre Hc. unfold availableColor. rewrite Hsplit.
  rewrite (find_first _ pre post c).
  - unfold or_else. rewrite colors_truthy; [reflexivity|].
    rewrite Hsplit. apply in_or_app. right. now left.
  - eapply Forall_impl; [|exact Hpre]. intros x Hx. simpl. now rewrite Hx.
  - now rewrite Hc.
Qed.

Lemma availableColor_all_used (usedColors : list (option string)) :
  Forall (fun x => includes usedColors x = true) colors ->
  availableColor usedColors = "red".
Proof.
  intros Hall. unfold availableColor. rewrite find_none; [reflexivity|].
  eapply Forall_impl; [|exact Hall]. intros x Hx. simpl. now rewrite Hx.
Qed.

Lemma availableColor_in (usedColors : list (option string)) :
  In (availableColor usedColors) colors.
Proof.
  unfold availableColor.
  destruct (find _ colors) as [c|] eqn:Hf.
  - apply find_some in Hf. destruct Hf as [Hin _].
    unfold or_else. now rewrite (colors_truthy c Hin).
  - simpl. now left.
Qed.

(** The colors read by the handler are those of the user's own products. *)
Lemma includes_holds (t : Tables) (uid : Z) (c : string) :
  includes (usedColors_of uid t) c = true <-> holds_color t uid c.
Proof.
  unfold includes, usedColors_of, holds_color. rewrite existsb_exists. split.
  - intros [u [Hin Hu]]. apply in_map_iff in Hin.
    destruct Hin as [p [Hp Hin]]. apply filter_In in Hin.
    destruct Hin as [Hin Huid]. exists p. split; [exact Hin|].
    split; [now apply Z.eqb_eq|].
    rewrite Hp. destruct u as [s0|]; [|discriminate].
    apply String.eqb_eq in Hu. now rewrite Hu.
  - intros [p [Hin [Huid Hc]]]. exists (Some c). split.
    + rewrite <- Hc. apply in_map. apply filter_In. split; [exact Hin|].
      now apply Z.eqb_eq.
    + apply String.eqb_refl.
Qed.

Lemma includes_not_held (t : Tables) (uid : Z) (c : string) :
  ~ holds_color t uid c -> includes (usedColors_of uid t) c = false.
Proof.
  intros H. destruct (includes (usedColors_of uid t) c) eqn:E; [|reflexivity].
  exfalso. apply H. now apply includes_holds.
Qed.

(** What the handler answers to a body with a title and a description. *)
Lemma api_create_product_stored (env : Env) (body : ProductBody) (w : World)
      (uid : Z) (title info : string) :
  pb_userId body = Some uid ->
  pb_title body = Some title ->
  pb_info body = Some info ->
  storable_product title info ->
  user_exists uid (tables (db w)) = true ->
  let row := mkProduct title uid info
               (Some (availableColor (usedColors_of uid (tables (db w))))) in
  fst (api_create_product env body w) = Ok200 row /\
  products (tables (db (snd (api_create_product env body w))))
  = (products (tables (db w)) ++ [row])%list.
Proof.
  intros Huid Htitle Hinfo [Ht [Hi Hlen]] Huser row.
  unfold api_create_product, insert_product.
  rewrite Huid, Htitle, Hinfo.
  destruct (pg_text_parts _ Ht) as [Hnt _].
  destruct (pg_text_parts _ Hi) as [Hni _].
  rewrite Hnt, Hni, (pg_text_as_utf8 _ Ht), (pg_text_as_utf8 _ Hi).
  rewrite (varchar_fits 255 title Hlen), Huser.
  pose proof (product_retry_db
                env (Some title) (Some info) 2 1000
                (set_tables
                   (set_products (products (tables (db w)) ++ [row])
                                 (tables (db w))) w)) as Hdb.
  fold row.
  destruct (Retry.retryRequest _ _ _ 2 1000 _) as [r w2]. simpl in Hdb.
  simpl. split; [reflexivity|]. now rewrite Hdb.
Qed.

(** Whatever product the handler creates carries the color it computed from
    the colors of the user's products. *)
Lemma api_create_product_created (env : Env) (body : ProductBody) (w : World)
      (row : Product) :
  fst (api_create_product env body w) = Ok200 row ->
  exists uid,
    pb_userId body = Some uid /\
    p_user_id row = uid /\
    p_color row = Some (availableColor (usedColors_of uid (tables (db w)))) /\
    products (tables (db (snd (api_create_product env body w))))
    = (products (tables (db w)) ++ [row])%list.
Proof.
  unfold api_create_product, insert_product.
  destruct (pb_userId body) as [uid|]; [|discriminate].
  destruct (pb_title body) as [title|]; [|discriminate].
  destruct (pb_info body) as [info|]; [|discriminate].
  destruct (has_nul title); [discriminate|].
  destruct (has_nul info); [discriminate|].
  destruct (varchar 255 (as_utf8 title)) as [stored|]; [|discriminate].
  destruct (user_exists uid (tables (db w))); [|discriminate].
  match goal with |- context [Retry.retryRequest _ _ ?f 2 1000 ?w0] =>
    pose proof (product_retry_db env (Some title) (Some info) 2 1000 w0) as Hdb;
    destruct (Retry.retryRequest setTimeout (Math_random env) f 2 1000 w0)
      as [r w2]
  end.
  simpl in *. intros [= <-]. exists uid. rewrite Hdb. simpl.
  repeat split.
Qed.

(** C9. The color of a new product is the first color of the palette that none
    of the user's own products holds, and the first palette color, red, when
    the user's products hold all of them; products of other users do not
    count.  This holds of every product the handler creates.  It creates one
    when the user exists and the title and the description are text the table
    stores as sent, the title of at most 255 characters; a longer title,
    unless what exceeds is spaces, is answered with status 500 and nothing is
    created. *)
Theorem product_color_assignment :
  (forall (usedColors : list (option string)) pre c post,
      colors = (pre ++ c :: post)%list ->
      Forall (fun x => includes usedColors x = true) pre ->
      includes usedColors c = false ->
      availableColor usedColors = c) /\
  (forall (usedColors : list (option string)),
      Forall (fun x => includes usedColors x = true) colors ->
      availableColor usedColors = "red") /\
  (forall env body w row,
      fst (api_create_product env body w) = Ok200 row ->
      exists uid c,
        pb_userId body = Some uid /\
        p_user_id row = uid /\ p_color row = Some c /\ In c colors /\
        products (tables (db (snd (api_create_product env body w))))
        = (products (tables (db w)) ++ [row])%list /\
        (forall pre c' post,
            colors = (pre ++ c' :: post)%list ->
            (forall x, In x pre -> holds_color (tables (db w)) uid x) ->
            ~ holds_color (tables (db w)) uid c' ->
            c = c') /\
        ((forall x, In x colors -> holds_color (tables (db w)) uid x) ->
         c = "red")) /\
  (forall env body w uid title info,
      pb_userId body = Some uid ->
      pb_title body = Some title ->
      pb_info body = Some info ->
      storable_product title info ->
      user_exists uid (tables (db w)) = true ->
      exists c,
        fst (api_create_product env body w)
        = Ok200 (mkProduct title uid info (Some c))) /\
  (forall env body w uid title info,
      pb_userId body = Some uid ->
      pb_title body = Some title ->
      pb_info body = Some info ->
      pg_text title = true ->
      pg_text info = true ->
      (255 < chars title)%nat ->
      all_spaces (drop_chars 255 title) = false ->
      api_create_product env body w = (Fail 500 "Failed to create product", w)).
Proof.
  split; [|split; [|split; [|split]]].
  - intros usedColors pre c post. apply availableColor_first.
  - intros usedColors. apply availableColor_all_used.
  - intros env body w row Hok.
    destruct (api_create_product_created env body w row Hok)
      as (uid & Hu & Hrow & Hc & Hp).
    exists uid, (availableColor (usedColors_of uid (tables (db w)))).
    split; [exact Hu|]. split; [exact Hrow|]. split; [exact Hc|].
    split; [apply availableColor_in|]. split; [exact Hp|]. split.
    + intros pre c' post Hsplit Hpre Hc'.
      apply (availableColor_first _ pre post c' Hsplit).
      * apply Forall_forall. intros x Hx. apply includes_holds. now apply Hpre.
      * now apply includes_not_held.
    + intros Hall. apply availableColor_all_used.
      apply Forall_forall. intros x Hx. apply includes_holds. now apply Hall.
  - intros env body w uid title info Huid Htitle Hinfo Hst Huser.
    exists (availableColor (usedColors_of uid (tables (db w)))).
    exact (proj1 (api_create_product_stored env body w uid title info
                    Huid Htitle Hinfo Hst Huser)).
  - intros env body w uid title info Huid Htitle Hinfo Ht Hi Hlen Hsp.
    unfold api_create_product, insert_product.
    rewrite Huid, Htitle, Hinfo.
    destruct (pg_text_parts _ Ht) as [Hnt _].
    destruct (pg_text_parts _ Hi) as [Hni _].
    rewrite Hnt, Hni, (pg_text_as_utf8 _ Ht).
    unfold varchar. rewrite Hsp.
    assert (Hle : (chars title <=? 255)%nat = false)
      by (apply Nat.leb_gt; exact Hlen).
    now rewrite Hle.
Qed.

(** The example of the specification, with user 2 holding purple as well:
    with red and blue already held by the user, the new product is purple;
    with the whole palette held, it is red. *)
Lemma product_color_assignment_witness :
  availableColor [Some "red"; Some "blue"] = "purple" /\
  availableColor (map Some colors) = "red" /\
  (let w := set_tables
              (set_products (products sample_tables ++
                               [mkProduct "Seal" 2 "door seal" (Some "purple")])
                            sample_tables) sample_world in
   fst (api_create_product (sample_env echo_ai)
          (mkProductBody (Some "Gasket") (Some "rubber gasket") (Some 1)) w)
   = Ok200 (mkProduct "Gasket" 1 "rubber gasket" (Some "purple"))).
Proof.
  split; [|split].
  - apply (proj1 product_color_assignment [Some "red"; Some "blue"]
                 ["red"] "purple" ["orange"; "green"; "blue"; "white"]);
      [reflexivity|repeat constructor|reflexivity].
  - apply (proj1 (proj2 product_color_assignment) (map Some colors)).
    repeat constructor.
  - intros w.
    destruct (proj1 (proj2 (proj2 (proj2 product_color_assignment)))
                (sample_env echo_ai)
                (mkProductBody (Some "Gasket") (Some "rubber gasket") (Some 1))
                w 1 "Gasket" "rubber gasket" eq_refl eq_refl eq_refl)
      as [c Hr].
    + split; [reflexivity|]. split; [reflexivity|]. simpl. lia.
    + reflexivity.
    + destruct (proj1 (proj2 (proj2 product_color_assignment))
                  (sample_env echo_ai)
                  (mkProductBody (Some "Gasket") (Some "rubber gasket") (Some 1))
                  w _ Hr)
        as (uid & c0 & Hu & _ & Hc & _ & _ & Hfirst & _).
      injection Hu as <-. simpl in Hc. injection Hc as ->.
      rewrite Hr.
      rewrite (Hfirst ["red"] "purple" ["orange"; "green"; "blue"; "white"]).
      * reflexivity.
      * reflexivity.
      * intros x [<-|[]]. exists (mkProduct "Valve" 1 "steel valve" (Some "red")).
        split; [now left|]. split; reflexivity.
      * intros [p [Hin [Hu Hc]]]. simpl in Hin.
        destruct Hin as [<-|[<-|[<-|[]]]]; simpl in Hu, Hc; congruence.
Defined.

(** ** POST /api/query on a session of another user *)

Lemma session_row_exists (cid : string) (t : Tables) (s : ChatSession) :
  In s (chat_sessions t) -> s_chat_id s = cid -> session_exists cid t = true.
Proof.
  intros Hin Hc. unfold session_exists. apply existsb_exists.
  exists s. split; [exact Hin|]. now apply String.eqb_eq.
Qed.

(** The memory that is written ends with the two messages of the exchange. *)
Lemma limitedMemory_tail (mem : list Message) (q a : option string) :
  exists kept,
    limitedMemory mem q a
    = (kept ++ [mkMessage user q; mkMessage assistant a])%list.
Proof.
  unfold limitedMemory, slice_last. rewrite length_app. cbn [List.length].
  exists (skipn (List.length mem + 2 - 20) mem).
  rewrite skipn_app.
  replace (List.length mem + 2 - 20 - List.length mem)%nat with 0%nat by lia.
  reflexivity.
Qed.

Lemma putMemory_accepts (cid : string) (memory : list Message) (t t3 : Tables) :
  putMemory cid memory t = Resolved t3 -> jsonb_memory_ok memory = true.
Proof.
  unfold putMemory. destruct (jsonb_memory_ok memory); [reflexivity|discriminate].
Qed.

(** A query and an answer whose memory the JSONB column took are stored in the
    history as they were sent. *)
Lemma stored_exchange_text (mem : list Message) (q a : string) :
  jsonb_memory_ok (limitedMemory mem (Some q) (Some a)) = true ->
  as_utf8 q = q /\ as_utf8 a = a.
Proof.
  destruct (limitedMemory_tail mem (Some q) (Some a)) as [kept ->].
  unfold jsonb_memory_ok. rewrite forallb_app. intros H.
  apply andb_true_iff in H. destruct H as [_ H]. simpl in H.
  apply andb_true_iff in H. destruct H as [Hq H].
  apply andb_true_iff in H. destruct H as [Ha _].
  split; now apply pg_text_as_utf8.
Qed.




(** * Further properties *)

(** ** Retry executor: edge case and waiting *)

(** X1. With a negative retry count the loop body never runs: the operation
    is not invoked, nothing is waited for, no random number is drawn, and the
    promise is rejected with [undefined]. *)
Theorem retryRequest_negative_retries :
  forall (W E A : Type) (timer : Z -> W -> W) (random : W -> Z * W)
         (fn : W -> settled E A * W) (retries delay : Z) (w : W),
    retries < 0 ->
    Retry.retryRequest timer random fn retries delay w = (Rejected None, w).
Proof.
  intros W E A timer random fn retries delay w Hneg.
  unfold Retry.retryRequest.
  replace (Z.to_nat (retries + 1)) with 0%nat by lia. reflexivity.
Qed.

Lemma retryRequest_negative_retries_witness :
  -1 < 0 /\
  Mock.retryRequest flaky (fun _ => 500) (-1) 1000 Mock.fresh
  = (Rejected None, Mock.fresh).
Proof.
  split; [lia|].
  apply (retryRequest_negative_retries
           Mock.world string string Mock.setTimeout
           (Mock.Math_random (fun _ => 500)) (Mock.fn flaky) (-1) 1000 Mock.fresh).
  lia.
Defined.

Section MockWaits.
Context {E A : Type}.
Variable script : nat -> settled E A.
Variable jitter : nat -> Z.

Let loop := Retry.attempt_loop Mock.setTimeout (Mock.Math_random jitter)
                               (Mock.fn script).

(** [k] failures and then a success: one wait per failure. *)
Lemma mock_loop_waits_resolved :
  forall k todo attempt retries delay lastError w a,
    attempt + Z.of_nat todo = retries + 1 ->
    (k < todo)%nat ->
    (forall i, (i < k)%nat -> is_rejected (script (Mock.invocations w + i))) ->
    script (Mock.invocations w + k) = Resolved a ->
    Mock.waited (snd (loop todo attempt retries delay lastError w))
    = (Mock.waited w ++ backoff jitter k delay (Mock.draws w))%list /\
    Mock.draws (snd (loop todo attempt retries delay lastError w))
    = (Mock.draws w + k)%nat.
Proof.
  induction k as [|k IH];
    intros todo attempt retries delay lastError w a Hsum Hk Hfail Hok;
    destruct todo as [|todo]; try lia; unfold loop in *; simpl.
  - rewrite Nat.add_0_r in Hok. rewrite Hok. simpl.
    rewrite app_nil_r. split; [reflexivity|lia].
  - pose proof (Hfail 0%nat ltac:(lia)) as H0. rewrite Nat.add_0_r in H0.
    destruct (script (Mock.invocations w)) as [a0|e]; [destruct H0|].
    assert (Hlt : (attempt <? retries) = true) by (apply Z.ltb_lt; lia).
    rewrite Hlt.
    match goal with |- context [Retry.attempt_loop _ _ _ todo ?at' ?r ?d ?l ?w'] =>
      destruct (IH todo at' r d l w' a) as [H1 H2]
    end.
    + lia.
    + lia.
    + intros i Hi. simpl.
      replace (S (Mock.invocations w + i)) with (Mock.invocations w + S i)%nat by lia.
      apply Hfail. lia.
    + simpl.
      replace (S (Mock.invocations w + k)) with (Mock.invocations w + S k)%nat by lia.
      exact Hok.
    + rewrite H1, H2. simpl. rewrite <- app_assoc. split; [reflexivity|lia].
Qed.

(** All iterations fail: one wait per failure except the last. *)
Lemma mock_loop_waits_exhausted :
  forall todo attempt retries delay lastError w,
    attempt + Z.of_nat todo = retries + 1 ->
    (forall i, (i < todo)%nat -> is_rejected (script (Mock.invocations w + i))) ->
    Mock.waited (snd (loop todo attempt retries delay lastError w))
    = (Mock.waited w ++ backoff jitter (todo - 1) delay (Mock.draws w))%list /\
    Mock.draws (snd (loop todo attempt retries delay lastError w))
    = (Mock.draws w + (todo - 1))%nat.
Proof.
  induction todo as [|todo IH]; intros attempt retries delay lastError w Hsum Hfail;
    unfold loop in *; simpl.
  - rewrite app_nil_r. split; [reflexivity|lia].
  - pose proof (Hfail 0%nat ltac:(lia)) as H0. rewrite Nat.add_0_r in H0.
    destruct (script (Mock.invocations w)) as [a0|e]; [destruct H0|].
    rewrite Nat.sub_0_r.
    assert (Hrest : forall w', Mock.invocations w' = S (Mock.invocations w) ->
              forall i, (i < todo)%nat ->
                        is_rejected (script (Mock.invocations w' + i))).
    { intros w' Hw' i Hi. rewrite Hw'.
      replace (S (Mock.invocations w) + i)%nat
        with (Mock.invocations w + S i)%nat by lia.
      apply Hfail. lia. }
    destruct todo as [|todo'].
    + assert (Hlt : (attempt <? retries) = false) by (apply Z.ltb_ge; lia).
      rewrite Hlt. simpl. rewrite app_nil_r. split; [reflexivity|lia].
    + assert (Hlt : (attempt <? retries) = true) by (apply Z.ltb_lt; lia).
      rewrite Hlt.
      match goal with |- context [Retry.attempt_loop _ _ _ (S todo') ?at' ?r ?d ?l ?w'] =>
        destruct (IH at' r d l w' ltac:(lia) (Hrest w' eq_refl)) as [H1 H2]
      end.
      rewrite H1, H2. simpl. rewrite Nat.sub_0_r, <- app_assoc.
      split; [reflexivity|lia].
Qed.

End MockWaits.

Lemma next_delay_grows (delay j : Z) :
  0 <= delay -> 0 <= j -> delay <= Retry.next_delay delay j.
Proof.
  intros Hd Hj. unfold Retry.next_delay.
  apply Z.div_le_lower_bound; lia.
Qed.

Lemma backoff_grows (jitter : nat -> Z) :
  (forall i, 0 <= jitter i) ->
  forall n delay draw,
    0 <= delay ->
    Forall (fun d => delay <= d) (backoff jitter n delay draw).
Proof.
  intros Hj. induction n as [|n IH]; intros delay draw Hd; simpl; constructor.
  - lia.
  - pose proof (next_delay_grows delay (jitter draw) Hd (Hj draw)) as Hn.
    eapply Forall_impl; [|apply IH; lia]. simpl. intros d Hle. lia.
Qed.

Lemma backoff_sorted (jitter : nat -> Z) :
  (forall i, 0 <= jitter i) ->
  forall n delay draw,
    0 <= delay ->
    StronglySorted Z.le (backoff jitter n delay draw).
Proof.
  intros Hj. induction n as [|n IH]; intros delay draw Hd; simpl; constructor.
  - apply IH. pose proof (next_delay_grows delay (jitter draw) Hd (Hj draw)). lia.
  - pose proof (next_delay_grows delay (jitter draw) Hd (Hj draw)) as Hn.
    eapply Forall_impl; [|apply backoff_grows; [exact Hj|lia]].
    simpl. intros d Hle. lia.
Qed.

Lemma next_delay_bound (delay j : Z) :
  0 <= delay -> j <= 2000 ->
  Retry.next_delay delay j + 2000 <= 2 * (delay + 2000).
Proof.
  intros Hd Hj. unfold Retry.next_delay.
  assert ((3 * delay + j) / 2 <= (4 * delay + 4000) / 2)
    by (apply Z.div_le_mono; lia).
  replace (4 * delay + 4000) with ((2 * delay + 2000) * 2) in H by lia.
  rewrite Z.div_mul in H by lia. lia.
Qed.

Lemma backoff_bounded (jitter : nat -> Z) (B : Z) :
  (forall i, 0 <= jitter i <= 2000) ->
  forall n delay draw,
    0 <= delay ->
    (delay + 2000) * 2 ^ Z.of_nat n <= B ->
    Forall (fun d => d + 2000 <= B) (backoff jitter n delay draw).
Proof.
  intros Hj. induction n as [|n IH]; intros delay draw Hd HB; simpl;
    constructor.
  - rewrite Nat2Z.inj_succ, Z.pow_succ_r in HB by lia.
    assert (0 < 2 ^ Z.of_nat n) by (apply Z.pow_pos_nonneg; lia). nia.
  - rewrite Nat2Z.inj_succ, Z.pow_succ_r in HB by lia.
    assert (0 < 2 ^ Z.of_nat n) by (apply Z.pow_pos_nonneg; lia).
    pose proof (next_delay_bound delay (jitter draw) Hd (proj2 (Hj draw))).
    pose proof (next_delay_grows delay (jitter draw) Hd (proj1 (Hj draw))).
    apply IH; [lia|nia].
Qed.



(** ** POST /api/query: what any run writes *)

Lemma putMemory_after_history (cid : string) (memory : list Message)
      (t : Tables) :
  session_exists cid t = true ->
  jsonb_memory_ok memory = true ->
  exists t3, putMemory cid memory t = Resolved t3.
Proof.
  intros Hs Hj. unfold putMemory. rewrite Hs, Hj. cbn [negb].
  destruct (existsb _ (chat_memory t)); eauto.
Qed.

Lemma persist_exchange_writes (env : Env) (body : QueryBody) (uid : Z)
      (cid : string) (mem : list Message) (d : AiData) (w : World) :
  query_writes (tables (db w))
               (fst (persist_exchange env body uid cid mem d w))
               (tables (db (snd (persist_exchange env body uid cid mem d w)))) /\
  txn (db (snd (persist_exchange env body uid cid mem d w))) = txn (db w).
Proof.
  unfold persist_exchange.
  destruct (normalize_related env (query body) (related_queries d) w)
    as [related w1] eqn:Hnorm.
  assert (Hdb1 : db w1 = db w).
  { unfold normalize_related, pad_related in Hnorm.
    destruct (List.length (coerce_related (related_queries d)) <? 5)%nat;
      injection Hnorm as _ <-; reflexivity. }
  destruct (session_name env _ w1) as [name w2] eqn:Hname.
  assert (Hdb2 : db w2 = db w1).
  { unfold session_name in Hname.
    destruct (truthy_text _); injection Hname as _ <-; reflexivity. }
  assert (Hdb : db w2 = db w) by congruence.
  rewrite Hdb.
  destruct (ensureSession cid name uid (tables (db w))) as [t1|e1] eqn:H1.
  - match goal with |- context [appendHistory cid uid ?q ?a ?pr ?oi ?ov ?ol ?rq t1] =>
      destruct (appendHistory cid uid q a pr oi ov ol rq t1) as [t2|e2] eqn:H2
    end.
    + pose proof H2 as H2'. apply appendHistory_spec in H2'.
      destruct H2' as (q0 & a0 & _ & _ & _ & Hs & Ht2).
      cbn [answer] in *.
      destruct (jsonb_memory_ok (limitedMemory mem (query body) (answer d)))
        eqn:Hj.
      * destruct (putMemory_after_history
                    cid (limitedMemory mem (query body) (answer d)) t2)
          as [t3 H3]; [rewrite Ht2; exact Hs|exact Hj|].
        rewrite H3. simpl. rewrite Hdb. split; [|reflexivity].
        eapply (writes_exchange _ (mkQueryReply _ cid)); simpl; eassumption.
      * unfold putMemory. rewrite Hj. simpl. rewrite Hdb.
        split; [|reflexivity].
        eapply writes_history; eassumption.
    + simpl. rewrite Hdb. split; [|reflexivity].
      eapply writes_session. exact H1.
  - simpl. rewrite Hdb. split; [|reflexivity]. apply writes_nothing.
Qed.

Lemma api_query_writes (env : Env) (body : QueryBody) (w : World) :
  query_writes (tables (db w)) (fst (api_query env body w))
               (tables (db (snd (api_query env body w)))) /\
  txn (db (snd (api_query env body w))) = txn (db w).
Proof.
  unfold api_query. destruct (userId body) as [uid|].
  - destruct (resolve_chat_id env body w) as [cid w1] eqn:Hres.
    pose proof (resolve_chat_id_db env body w) as [Hdb1 _].
    rewrite Hres in Hdb1. simpl in Hdb1.
    pose proof (upstream_retry_db env (forwarded body cid uid (load_memory body w1))
                                  5 5000 w1) as Hdb2.
    destruct (Retry.retryRequest _ _ _ 5 5000 w1) as [[d|e] w2]; simpl in Hdb2.
    + destruct (persist_exchange_writes env body uid cid (load_memory body w1) d w2)
        as [Hw Ht].
      rewrite Hdb2, Hdb1 in Hw, Ht. split; assumption.
    + simpl. rewrite Hdb2, Hdb1. split; [apply writes_nothing|reflexivity].
  - simpl. split; [apply writes_nothing|reflexivity].
Qed.

Lemma ensureSession_adds (cid name : string) (uid : Z) (t t1 : Tables) :
  ensureSession cid name uid t = Resolved t1 ->
  exists added,
    chat_sessions t1 = (chat_sessions t ++ added)%list /\
    (List.length added <= 1)%nat.
Proof.
  intros H. apply ensureSession_spec in H.
  destruct H as (_ & _ & _ & _ & _ & Hs). rewrite Hs.
  destruct (session_exists cid t).
  - exists []. rewrite app_nil_r. split; [reflexivity|simpl; lia].
  - eexists. split; [reflexivity|]. simpl. lia.
Qed.



(** ** The constraints of dbInit.js are kept by every handler *)

Lemma no_session_not_in (cid : string) (t : Tables) :
  session_exists cid t = false -> ~ In cid (map s_chat_id (chat_sessions t)).
Proof.
  unfold session_exists. intros H Hin. apply in_map_iff in Hin.
  destruct Hin as [s [Hc Hs]].
  assert (Ht : existsb (fun s => (s_chat_id s =? cid)%string) (chat_sessions t) = true).
  { apply existsb_exists. exists s. split; [exact Hs|]. now apply String.eqb_eq. }
  congruence.
Qed.

Lemma NoDup_snoc {A} (l : list A) (x : A) :
  NoDup l -> ~ In x l -> NoDup (l ++ [x]).
Proof.
  intros Hl Hx. apply NoDup_app; [exact Hl|repeat constructor; auto|].
  intros a Ha [<-|[]]. contradiction.
Qed.

(** Selecting rows keeps their keys unique. *)
Lemma unique_keys_filter {R K : Type} (keep : R -> bool) (key : R -> K) :
  forall rows : list R,
    NoDup (map key rows) -> NoDup (map key (filter keep rows)).
Proof.
  intros rows. induction rows as [|r rows IH]; intros Huniq; simpl.
  - constructor.
  - apply NoDup_cons_iff in Huniq. destruct Huniq as [Hfresh Hrest].
    destruct (keep r); simpl; [|now apply IH].
    constructor; [|now apply IH].
    intros Hin. apply Hfresh. apply in_map_iff in Hin.
    destruct Hin as [r' [Hkey Hin]]. apply filter_In in Hin.
    apply in_map_iff. exists r'. tauto.
Qed.

(** References stay valid when the users stay and no session id disappears. *)
Lemma references_ok_transfer (t t' : Tables) :
  users t' = users t ->
  (forall c, session_exists c t = true -> session_exists c t' = true) ->
  forall (sessions : list ChatSession) (history : list HistoryRow)
         (memory : list MemoryRow) (prods : list Product),
    Forall (fun s => user_exists (s_user_id s) t = true) sessions /\
    Forall (fun h => user_exists (h_user_id h) t = true /\
                     session_exists (h_chat_id h) t = true) history /\
    Forall (fun m => session_exists (m_chat_id m) t = true) memory /\
    Forall (fun p => user_exists (p_user_id p) t = true) prods ->
    Forall (fun s => user_exists (s_user_id s) t' = true) sessions /\
    Forall (fun h => user_exists (h_user_id h) t' = true /\
                     session_exists (h_chat_id h) t' = true) history /\
    Forall (fun m => session_exists (m_chat_id m) t' = true) memory /\
    Forall (fun p => user_exists (p_user_id p) t' = true) prods.
Proof.
  intros Hu Hs sessions history memory prods (H1 & H2 & H3 & H4).
  unfold user_exists in *. rewrite Hu.
  repeat split.
  - exact H1.
  - eapply Forall_impl; [|exact H2]. simpl. intros h [Ha Hb]. auto.
  - eapply Forall_impl; [|exact H3]. simpl. auto.
  - exact H4.
Qed.

Lemma ensureSession_schema (cid name : string) (uid : Z) (t t1 : Tables) :
  schema_ok t -> ensureSession cid name uid t = Resolved t1 -> schema_ok t1.
Proof.
  intros (Hpk & Hmu & Href). unfold ensureSession.
  destruct (session_exists cid t) eqn:Hex;
    [intros [= <-]; split; [|split]; assumption|].
  destruct (user_exists uid t) eqn:Hu; [|discriminate].
  intros [= <-]. split; [|split].
  - unfold sessions_pk. simpl. rewrite map_app. simpl.
    apply NoDup_snoc; [exact Hpk|]. now apply no_session_not_in.
  - exact Hmu.
  - set (t1 := set_sessions _ t).
    assert (Hmono : forall c, session_exists c t = true -> session_exists c t1 = true).
    { intros c Hc. unfold session_exists, t1. simpl. rewrite existsb_app.
      unfold session_exists in Hc. now rewrite Hc. }
    destruct (references_ok_transfer t t1 eq_refl Hmono _ _ _ _ Href)
      as (H1 & H2 & H3 & H4).
    unfold references_ok, t1. simpl. repeat split; try assumption.
    apply Forall_app. split; [exact H1|]. constructor; [|constructor].
    exact Hu.
Qed.

Lemma appendHistory_schema (cid : string) (uid : Z) (q a : option string)
      (pr oi ov ol rq : json) (t t2 : Tables) :
  schema_ok t -> appendHistory cid uid q a pr oi ov ol rq t = Resolved t2 ->
  schema_ok t2.
Proof.
  intros (Hpk & Hmu & H1 & H2 & H3 & H4) H.
  apply appendHistory_spec in H.
  destruct H as (q0 & a0 & _ & _ & Hu & Hs & ->).
  split; [exact Hpk|]. split; [exact Hmu|].
  unfold references_ok. simpl. repeat split; try assumption.
  apply Forall_app. split; [exact H2|]. constructor; [|constructor].
  simpl. split; [exact Hu|exact Hs].
Qed.

Lemma replace_memory_ids (cid : string) (memory : list Message)
      (l : list MemoryRow) :
  map m_chat_id (map (fun m => if (m_chat_id m =? cid)%string
                               then mkMemory cid memory else m) l)
  = map m_chat_id l.
Proof.
  rewrite map_map. apply map_ext. intros m.
  destruct (m_chat_id m =? cid)%string eqn:Hm; [|reflexivity].
  apply String.eqb_eq in Hm. now rewrite Hm.
Qed.

Lemma Forall_by_ids {A B} (f : A -> B) (P : B -> Prop) (l l' : list A) :
  map f l' = map f l -> Forall (fun x => P (f x)) l -> Forall (fun x => P (f x)) l'.
Proof.
  intros Hmap H.
  apply Forall_map in H. apply Forall_map. now rewrite Hmap.
Qed.

Lemma putMemory_schema (cid : string) (memory : list Message) (t t3 : Tables) :
  schema_ok t -> putMemory cid memory t = Resolved t3 -> schema_ok t3.
Proof.
  intros (Hpk & Hmu & H1 & H2 & H3 & H4). unfold putMemory.
  destruct (jsonb_memory_ok memory); [|discriminate]. cbn [negb].
  destruct (existsb _ (chat_memory t)) eqn:Hex.
  - intros [= <-]. split; [exact Hpk|]. split.
    + unfold memory_unique. simpl. now rewrite replace_memory_ids.
    + unfold references_ok. simpl. repeat split; try assumption.
      apply (Forall_by_ids m_chat_id
               (fun c => session_exists c t = true) (chat_memory t));
        [apply replace_memory_ids|exact H3].
  - destruct (session_exists cid t) eqn:Hs; [|discriminate].
    intros [= <-]. split; [exact Hpk|]. split.
    + unfold memory_unique. simpl. rewrite map_app. simpl.
      apply NoDup_snoc; [exact Hmu|].
      intros Hin. apply in_map_iff in Hin. destruct Hin as [m [Hc Hm]].
      assert (Ht : existsb (fun m => (m_chat_id m =? cid)%string) (chat_memory t) = true).
      { apply existsb_exists. exists m. split; [exact Hm|]. now apply String.eqb_eq. }
      congruence.
    + unfold references_ok. simpl. repeat split; try assumption.
      apply Forall_app. split; [exact H3|]. constructor; [exact Hs|constructor].
Qed.

Lemma api_delete_chat_tables (chatId : option string) (userId : option Z)
      (w : World) :
  idle w ->
  idle (snd (api_delete_chat chatId userId w)) /\
  (tables (db (snd (api_delete_chat chatId userId w))) = tables (db w) \/
   exists cid uid,
     tables (db (snd (api_delete_chat chatId userId w)))
     = fst (delete_session cid uid
              (delete_history cid (delete_memory cid (tables (db w)))))).
Proof.
  intros Hidle. unfold api_delete_chat.
  destruct (negb (truthy_text chatId)); [split; [exact Hidle|now left]|].
  destruct userId as [uid|]; [|split; [exact Hidle|now left]].
  assert (Hb : tables (BEGIN (db w)) = tables (db w))
    by (unfold BEGIN; destruct (txn (db w)); reflexivity).
  rewrite Hb.
  destruct (List.length (select_owned_session (or_else chatId "") uid (tables (db w)))
            =? 0)%nat.
  - rewrite (rollback_begin w Hidle). split; [exact Hidle|now left].
  - simpl.
    destruct (List.length _ =? 0)%nat; simpl.
    + unfold idle in Hidle. unfold BEGIN, ROLLBACK. rewrite Hidle. simpl.
      split; [reflexivity|now left].
    + split; [reflexivity|]. right. eauto.
Qed.

Lemma api_update_chat_favorite_tables (body : FavoriteBody) (w : World) :
  txn (db (snd (api_update_chat_favorite body w))) = txn (db w) /\
  (tables (db (snd (api_update_chat_favorite body w))) = tables (db w) \/
   exists cid uid,
     tables (db (snd (api_update_chat_favorite body w)))
     = fst (update_favorite (fav_favorite body) cid uid (tables (db w)))).
Proof.
  unfold api_update_chat_favorite.
  destruct (negb (truthy_text (fav_chatId body))); [split; [reflexivity|now left]|].
  destruct (fav_userId body) as [uid|]; [|split; [reflexivity|now left]].
  destruct (List.length _ =? 0)%nat; [split; [reflexivity|now left]|].
  destruct (update_favorite (fav_favorite body) (or_else (fav_chatId body) "") uid
                            (tables (db w))) as [t1 rows] eqn:Hup.
  assert (Ht1 : t1 = fst (update_favorite (fav_favorite body)
                                          (or_else (fav_chatId body) "") uid
                                          (tables (db w))))
    by now rewrite Hup.
  destruct rows;
    (split; [reflexivity
            |right; exists (or_else (fav_chatId body) ""), uid; exact Ht1]).
Qed.

Lemma api_create_product_tables (env : Env) (body : ProductBody) (w : World) :
  txn (db (snd (api_create_product env body w))) = txn (db w) /\
  (tables (db (snd (api_create_product env body w))) = tables (db w) \/
   exists row,
     user_exists (p_user_id row) (tables (db w)) = true /\
     tables (db (snd (api_create_product env body w)))
     = set_products (products (tables (db w)) ++ [row]) (tables (db w))).
Proof.
  unfold api_create_product.
  destruct (pb_userId body) as [uid|]; [|split; [reflexivity|now left]].
  unfold insert_product.
  destruct (pb_title body) as [title|]; [|split; [reflexivity|now left]].
  destruct (pb_info body) as [info|]; [|split; [reflexivity|now left]].
  destruct (has_nul title); [split; [reflexivity|now left]|].
  destruct (has_nul info); [split; [reflexivity|now left]|].
  destruct (varchar 255 (as_utf8 title)) as [stored|];
    [|split; [reflexivity|now left]].
  destruct (user_exists uid (tables (db w))) eqn:Hu; [|split; [reflexivity|now left]].
  match goal with |- context [Retry.retryRequest _ _ ?f 2 1000 ?w0] =>
    pose proof (product_retry_db env (Some title) (Some info) 2 1000 w0) as Hdb;
    destruct (Retry.retryRequest setTimeout (Math_random env) f 2 1000 w0)
      as [r w2]
  end.
  simpl in *. rewrite Hdb. simpl. split; [reflexivity|].
  right. eexists. split; [|reflexivity]. exact Hu.
Qed.

Lemma existsb_filter_implied {A} (p q : A -> bool) (l : list A) :
  (forall x, p x = true -> q x = true) ->
  existsb p (filter q l) = existsb p l.
Proof.
  intros Hpq. induction l as [|x l IH]; simpl; [reflexivity|].
  destruct (q x) eqn:Hq; simpl; [now rewrite IH|].
  destruct (p x) eqn:Hp; [|exact IH].
  apply Hpq in Hp. congruence.
Qed.

Lemma Forall_filter_keeps {A} (P : A -> Prop) (f : A -> bool) (l : list A) :
  Forall P l -> Forall P (filter f l).
Proof.
  intros H. apply Forall_forall. intros x Hx. apply filter_In in Hx.
  rewrite Forall_forall in H. now apply H.
Qed.

Lemma delete_schema (cid : string) (uid : Z) (t : Tables) :
  schema_ok t ->
  schema_ok (fst (delete_session cid uid
                    (delete_history cid (delete_memory cid t)))).
Proof.
  intros (Hpk & Hmu & H1 & H2 & H3 & H4).
  set (t3 := fst (delete_session cid uid (delete_history cid (delete_memory cid t)))).
  assert (Hkeep : forall c, c <> cid -> session_exists c t = true ->
                            session_exists c t3 = true).
  { intros c Hc Hs. unfold session_exists, t3. simpl.
    rewrite existsb_filter_implied; [exact Hs|].
    intros s Hsc. apply String.eqb_eq in Hsc.
    assert (Hne : (s_chat_id s =? cid)%string = false)
      by (apply String.eqb_neq; congruence).
    now rewrite Hne. }
  split; [|split].
  - unfold sessions_pk, t3. simpl. now apply unique_keys_filter.
  - unfold memory_unique, t3. simpl. now apply unique_keys_filter.
  - unfold references_ok, t3. simpl. unfold user_exists in *. simpl.
    repeat split.
    + now apply Forall_filter_keeps.
    + apply Forall_forall. intros h Hh. apply filter_In in Hh.
      destruct Hh as [Hin Hne]. rewrite Forall_forall in H2.
      destruct (H2 h Hin) as [Hu Hs]. split; [exact Hu|].
      apply Hkeep; [|exact Hs].
      apply negb_true_iff in Hne. now apply String.eqb_neq.
    + apply Forall_forall. intros m Hm. apply filter_In in Hm.
      destruct Hm as [Hin Hne]. rewrite Forall_forall in H3.
      apply Hkeep; [|now apply H3].
      apply negb_true_iff in Hne. now apply String.eqb_neq.
    + exact H4.
Qed.

Lemma update_favorite_ids (favorite : option bool) (cid : string) (uid : Z)
      (t : Tables) :
  map s_chat_id (chat_sessions (fst (update_favorite favorite cid uid t)))
  = map s_chat_id (chat_sessions t) /\
  map s_user_id (chat_sessions (fst (update_favorite favorite cid uid t)))
  = map s_user_id (chat_sessions t).
Proof.
  simpl. rewrite !map_map. split; apply map_ext; intros s;
    destruct (_ && _); reflexivity.
Qed.

Lemma session_exists_by_ids (c : string) (t t' : Tables) :
  map s_chat_id (chat_sessions t') = map s_chat_id (chat_sessions t) ->
  session_exists c t' = session_exists c t.
Proof.
  intros Hmap. unfold session_exists.
  transitivity (existsb (fun k => (k =? c)%string) (map s_chat_id (chat_sessions t'))).
  - clear Hmap. induction (chat_sessions t') as [|s l IH]; simpl; [reflexivity|].
    now rewrite IH.
  - rewrite Hmap. clear Hmap.
    induction (chat_sessions t) as [|s l IH]; simpl; [reflexivity|].
    now rewrite IH.
Qed.

Lemma update_favorite_schema (favorite : option bool) (cid : string) (uid : Z)
      (t : Tables) :
  schema_ok t -> schema_ok (fst (update_favorite favorite cid uid t)).
Proof.
  intros (Hpk & Hmu & H1 & H2 & H3 & H4).
  destruct (update_favorite_ids favorite cid uid t) as [Hc Hu].
  set (t1 := fst (update_favorite favorite cid uid t)) in *.
  assert (Hs : forall c, session_exists c t = true -> session_exists c t1 = true).
  { intros c H. now rewrite (session_exists_by_ids c t t1 Hc). }
  split; [|split].
  - unfold sessions_pk. now rewrite Hc.
  - exact Hmu.
  - destruct (references_ok_transfer t t1 eq_refl Hs _ _ _ _
                (conj H1 (conj H2 (conj H3 H4)))) as (_ & G2 & G3 & G4).
    unfold references_ok. repeat split; try assumption.
    apply (Forall_by_ids s_user_id (fun u => user_exists u t1 = true)
                         (chat_sessions t)); [exact Hu|exact H1].
Qed.

Lemma insert_product_schema (row : Product) (t : Tables) :
  schema_ok t -> user_exists (p_user_id row) t = true ->
  schema_ok (set_products (products t ++ [row]) t).
Proof.
  intros (Hpk & Hmu & H1 & H2 & H3 & H4) Hu.
  split; [exact Hpk|]. split; [exact Hmu|].
  unfold references_ok. simpl. repeat split; try assumption.
  apply Forall_app. split; [exact H4|]. constructor; [exact Hu|constructor].
Qed.

Lemma query_writes_schema (t t' : Tables) (r : response QueryReply) :
  query_writes t r t' -> schema_ok t -> schema_ok t'.
Proof.
  intros Hw Hok.
  destruct Hw as [st msg | st msg cid name uid t1 H1
                  | st msg cid name uid q a pr oi ov ol rq mem t1 t2 H1 H2 Hj
                  | reply uid name q a pr oi ov ol rq mem t1 t2 t3 H1 H2 H3].
  - exact Hok.
  - eapply ensureSession_schema; eassumption.
  - eapply appendHistory_schema; [|exact H2].
    eapply ensureSession_schema; eassumption.
  - eapply putMemory_schema; [|exact H3].
    eapply appendHistory_schema; [|exact H2].
    eapply ensureSession_schema; eassumption.
Qed.


Lemma sample_schema_ok : schema_ok sample_tables.
Proof.
  split; [exact sample_tables_pk|]. split.
  - repeat constructor. simpl. tauto.
  - repeat split; repeat constructor.
Qed.


(** ** The memory bound as an invariant of the tables *)

Lemma query_writes_bounded (t t' : Tables) (r : response QueryReply) :
  query_writes t r t' -> memory_bounded t -> memory_bounded t'.
Proof.
  intros Hw Hb. unfold memory_bounded in *.
  destruct Hw as [st msg | st msg cid name uid t1 H1
                  | st msg cid name uid q a pr oi ov ol rq mem t1 t2 H1 H2 Hj
                  | reply uid name q a pr oi ov ol rq mem t1 t2 t3 H1 H2 H3].
  - exact Hb.
  - apply ensureSession_spec in H1. destruct H1 as (_ & _ & Hm & _).
    now rewrite Hm.
  - apply ensureSession_spec in H1. destruct H1 as (_ & _ & Hm & _).
    apply appendHistory_spec in H2. destruct H2 as (q0 & a0 & _ & _ & _ & _ & ->).
    simpl. now rewrite Hm.
  - apply ensureSession_spec in H1. destruct H1 as (_ & _ & Hm & _).
    apply appendHistory_spec in H2. destruct H2 as (q0 & a0 & _ & _ & _ & _ & ->).
    assert (Hlim : (List.length (limitedMemory mem q a) <= 20)%nat)
      by (unfold limitedMemory; rewrite slice_last_length; lia).
    unfold putMemory in H3. simpl in H3. rewrite Hm in H3.
    destruct (jsonb_memory_ok _); [|discriminate]. cbn [negb] in H3.
    destruct (existsb _ (chat_memory t)).
    + injection H3 as <-. simpl. apply Forall_forall. intros m Hin.
      apply in_map_iff in Hin. destruct Hin as [m0 [<- Hin]].
      destruct (m_chat_id m0 =? chatId reply)%string; [exact Hlim|].
      rewrite Forall_forall in Hb. now apply Hb.
    + destruct (session_exists _ _); [|discriminate].
      injection H3 as <-. simpl. apply Forall_app. split; [exact Hb|].
      constructor; [exact Hlim|constructor].
Qed.

(** X5. No handler ever stores a memory longer than 20 messages: if every
    memory row holds at most 20 messages, then so does every memory row after
    any request to POST /api/query, DELETE /api/chat,
    POST /api/update-chat-favorite or POST /api/products, whatever the
    request, its chat id and its outcome. *)
Theorem handlers_keep_memory_bounded :
  forall (env : Env) (w : World),
    memory_bounded (tables (db w)) ->
    idle w ->
    (forall body, memory_bounded (tables (db (snd (api_query env body w))))) /\
    (forall chatId userId,
        memory_bounded (tables (db (snd (api_delete_chat chatId userId w))))) /\
    (forall body,
        memory_bounded (tables (db (snd (api_update_chat_favorite body w))))) /\
    (forall body,
        memory_bounded (tables (db (snd (api_create_product env body w))))).
Proof.
  intros env w Hb Hidle. split; [|split; [|split]].
  - intros body. destruct (api_query_writes env body w) as [Hw _].
    eapply query_writes_bounded; eassumption.
  - intros chatId userId.
    destruct (api_delete_chat_tables chatId userId w Hidle) as [_ [Ht|(cid & uid & Ht)]];
      rewrite Ht; [exact Hb|].
    unfold memory_bounded. simpl. now apply Forall_filter_keeps.
  - intros body.
    destruct (api_update_chat_favorite_tables body w) as [_ [Ht|(cid & uid & Ht)]];
      rewrite Ht; exact Hb.
  - intros body.
    destruct (api_create_product_tables env body w) as [_ [Ht|(row & _ & Ht)]];
      rewrite Ht; exact Hb.
Qed.

Lemma handlers_keep_memory_bounded_witness :
  memory_bounded (tables (db sample_world)) /\ idle sample_world /\
  memory_bounded (tables (db (snd (api_query (sample_env echo_ai) sample_body
                                             sample_world)))).
Proof.
  assert (Hb : memory_bounded (tables (db sample_world)))
    by (repeat constructor; simpl; lia).
  split; [exact Hb|]. split; [reflexivity|].
  exact (proj1 (handlers_keep_memory_bounded (sample_env echo_ai) sample_world
                                             Hb eq_refl) sample_body).
Defined.

(** ** POST /api/update-chat-favorite by the owner *)

Lemma pk_owned_row (l : list ChatSession) (s : ChatSession) :
  NoDup (map s_chat_id l) -> In s l ->
  filter (fun x => (s_chat_id x =? s_chat_id s)%string && (s_user_id x =? s_user_id s)) l
  = [s] /\
  filter (fun x => (s_chat_id x =? s_chat_id s)%string) l = [s].
Proof.
  induction l as [|x l IH]; simpl; intros Hpk Hin; [destruct Hin|].
  inversion Hpk as [|? ? Hx Hl]; subst.
  destruct Hin as [->|Hin].
  - rewrite String.eqb_refl, Z.eqb_refl. simpl.
    rewrite (absent_id_filter_nil _ _ _ Hx).
    assert (Hnone : filter (fun x => (s_chat_id x =? s_chat_id s)%string) l = []).
    { apply filter_nil_existsb.
      rewrite <- (absent_id_no_rows (s_chat_id s) (fun _ => true) l Hx).
      f_equal. clear. induction l as [|y l IH]; simpl; [reflexivity|now rewrite <- IH]. }
    now rewrite Hnone.
  - assert (Hne : (s_chat_id x =? s_chat_id s)%string = false).
    { apply String.eqb_neq. intros E. apply Hx. rewrite E. now apply in_map. }
    rewrite Hne. simpl. now apply IH.
Qed.

Lemma truthy_some (cid : string) :
  cid <> "" -> truthy_text (Some cid) = true /\ or_else (Some cid) "" = cid.
Proof.
  intros H. apply String.eqb_neq in H. unfold or_else, truthy_text.
  rewrite H. split; reflexivity.
Qed.

Lemma favorite_run (w : World) (s : ChatSession) (favorite : option bool) :
  s_chat_id s <> "" ->
  sessions_pk (tables (db w)) ->
  In s (chat_sessions (tables (db w))) ->
  let updated := mkSession (s_chat_id s) (s_user_id s) (s_name s) favorite in
  api_update_chat_favorite
    (mkFavoriteBody (Some (s_chat_id s)) (Some (s_user_id s)) favorite) w
  = (Ok200 updated,
     set_tables
       (set_sessions
          (map (fun x => if (s_chat_id x =? s_chat_id s)%string then updated else x)
               (chat_sessions (tables (db w))))
          (tables (db w))) w).
Proof.
  intros Hcid Hpk Hin updated.
  destruct (pk_owned_row _ s Hpk Hin) as [Howned Hrow].
  destruct (truthy_some _ Hcid) as [Htrue Hor].
  unfold api_update_chat_favorite.
  cbn [fav_chatId fav_userId fav_favorite]. rewrite Htrue, Hor.
  cbn [negb]. unfold select_owned_session. rewrite Howned.
  cbn [List.length Nat.eqb]. unfold update_favorite. rewrite Howned.
  cbn [map]. fold updated. f_equal. f_equal. f_equal.
  apply map_ext_in. intros x Hx.
  destruct (s_chat_id x =? s_chat_id s)%string eqn:Hc; [|reflexivity].
  assert (Hxs : In x (filter (fun y => (s_chat_id y =? s_chat_id s)%string)
                             (chat_sessions (tables (db w)))))
    by (apply filter_In; split; assumption).
  rewrite Hrow in Hxs. destruct Hxs as [<-|[]].
  rewrite Z.eqb_refl. reflexivity.
Qed.

(** X6. When the owner sets the favorite flag of a session, the answer is the
    session row with the new flag; in the table that row alone has changed,
    and only in its flag; history, memory, users and products are untouched;
    and sending the same request again changes nothing more. *)
Theorem favorite_by_owner :
  forall (w : World) (s : ChatSession) (favorite : option bool),
    s_chat_id s <> "" ->
    sessions_pk (tables (db w)) ->
    In s (chat_sessions (tables (db w))) ->
    let body := mkFavoriteBody (Some (s_chat_id s)) (Some (s_user_id s)) favorite in
    let updated := mkSession (s_chat_id s) (s_user_id s) (s_name s) favorite in
    let w' := snd (api_update_chat_favorite body w) in
    fst (api_update_chat_favorite body w) = Ok200 updated /\
    chat_sessions (tables (db w'))
    = map (fun x => if (s_chat_id x =? s_chat_id s)%string then updated else x)
          (chat_sessions (tables (db w))) /\
    filter (fun x => (s_chat_id x =? s_chat_id s)%string) (chat_sessions (tables (db w')))
    = [updated] /\
    chat_history (tables (db w')) = chat_history (tables (db w)) /\
    chat_memory (tables (db w')) = chat_memory (tables (db w)) /\
    users (tables (db w')) = users (tables (db w)) /\
    products (tables (db w')) = products (tables (db w)) /\
    api_update_chat_favorite body w' = (Ok200 updated, w').
Proof.
  intros w s favorite Hcid Hpk Hin body updated w'.
  destruct (pk_owned_row _ s Hpk Hin) as [_ Hrow].
  pose proof (favorite_run w s favorite Hcid Hpk Hin) as Hrun.
  fold body updated in Hrun.
  set (l' := map (fun x => if (s_chat_id x =? s_chat_id s)%string then updated else x)
                 (chat_sessions (tables (db w)))) in *.
  assert (Hfilter : filter (fun x => (s_chat_id x =? s_chat_id s)%string) l' = [updated]).
  { unfold l'. rewrite filter_map_swap.
    rewrite (filter_ext _ (fun x => (s_chat_id x =? s_chat_id s)%string)).
    - rewrite Hrow. simpl. now rewrite String.eqb_refl.
    - intros x. destruct (s_chat_id x =? s_chat_id s)%string eqn:Hc; simpl;
        [apply String.eqb_refl|exact Hc]. }
  assert (Hin' : In updated l').
  { assert (H : In updated (filter (fun x => (s_chat_id x =? s_chat_id s)%string) l'))
      by (rewrite Hfilter; now left).
    apply filter_In in H. tauto. }
  assert (Hpk' : NoDup (map s_chat_id l')).
  { unfold l'. rewrite map_map.
    rewrite (map_ext _ s_chat_id); [exact Hpk|].
    intros x. destruct (s_chat_id x =? s_chat_id s)%string eqn:Hc; [|reflexivity].
    apply String.eqb_eq in Hc. now rewrite Hc. }
  assert (Hw' : w' = set_tables (set_sessions l' (tables (db w))) w)
    by (unfold w'; now rewrite Hrun).
  rewrite Hrun. rewrite Hw'. cbn [fst snd].
  repeat split; try reflexivity; try exact Hfilter.
  pose proof (favorite_run (set_tables (set_sessions l' (tables (db w))) w)
                           updated favorite Hcid Hpk' Hin') as Hagain.
  cbn [s_chat_id s_user_id s_name updated] in Hagain.
  unfold body. rewrite Hagain. f_equal.
  unfold set_tables, set_db, set_sessions. cbn. f_equal. f_equal. f_equal.
  unfold l'. rewrite map_map. apply map_ext. intros x.
  destruct (s_chat_id x =? s_chat_id s)%string eqn:Hc.
  - cbn. now rewrite String.eqb_refl.
  - now rewrite Hc.
Qed.

Lemma favorite_by_owner_witness :
  "c1" <> "" /\ sessions_pk (tables (db sample_world)) /\
  fst (api_update_chat_favorite (mkFavoriteBody (Some "c1") (Some 1) (Some true))
                                sample_world)
  = Ok200 (mkSession "c1" 1 "Audit basics" (Some true)).
Proof.
  split; [discriminate|]. split; [exact sample_tables_pk|].
  apply (favorite_by_owner sample_world
                           (mkSession "c1" 1 "Audit basics" (Some false)) (Some true)
                           ltac:(discriminate) sample_tables_pk (or_introl eq_refl)).
Defined.

(** ** Reading back what POST /api/query stored *)

Lemma api_query_ok_tables (env : Env) (body : QueryBody) (w w' : World)
      (reply : QueryReply) :
  api_query env body w = (Ok200 reply, w') ->
  exists uid name row,
    userId body = Some uid /\
    user_exists uid (tables (db w)) = true /\
    chat_sessions (tables (db w'))
    = (if session_exists (chatId reply) (tables (db w))
       then chat_sessions (tables (db w))
       else chat_sessions (tables (db w))
                          ++ [mkSession (chatId reply) uid name (Some false)])%list /\
    chat_history (tables (db w')) = (chat_history (tables (db w)) ++ [row])%list /\
    h_chat_id row = chatId reply /\ h_user_id row = uid /\
    Some (h_query row) = query body /\
    Some (h_answer row) = answer (data reply).
Proof.
  intros Hok.
  destruct (api_query_ok env body w w' reply Hok)
    as (uid & d & name & pr & oi & ov & ol & rq & t1 & t2 & t3 &
        Hu & Hcid & Hans & H1 & H2 & H3 & Hdb).
  apply ensureSession_spec in H1.
  destruct H1 as (Hu1 & Hh1 & _ & _ & _ & Hs1).
  apply appendHistory_spec in H2.
  destruct H2 as (q0 & a0 & Hq0 & Ha0 & Hux & _ & ->).
  pose proof (putMemory_accepts _ _ _ _ H3) as Hjson.
  rewrite Hq0, Ha0 in Hjson.
  destruct (stored_exchange_text _ q0 a0 Hjson) as [Eq Ea].
  rewrite Eq, Ea in H3.
  apply putMemory_spec in H3. destruct H3 as (_ & _ & _ & Hs3 & Hh3 & _).
  exists uid, name, (mkHistory uid (chatId reply) q0 a0 pr oi ov ol rq).
  rewrite Hdb. simpl. rewrite Hs3, Hh3. simpl. rewrite Hh1, Hs1.
  unfold user_exists in *. rewrite Hu1 in Hux.
  repeat split; try assumption; try reflexivity; congruence.
Qed.



(** ** GET /api/chat-list after a query *)

Lemma fresh_id_no_history (cid : string) (t : Tables) :
  references_ok t -> session_exists cid t = false -> select_history cid t = [].
Proof.
  intros (_ & H2 & _) Hno. unfold select_history.
  apply filter_nil_existsb. apply not_true_is_false. intros Hex.
  apply existsb_exists in Hex. destruct Hex as [h [Hin Hc]].
  apply String.eqb_eq in Hc. rewrite Forall_forall in H2.
  destruct (H2 h Hin) as [_ Hs]. congruence.
Qed.

Lemma join_first_entry_other (t t' : Tables) (s : ChatSession) :
  select_history (s_chat_id s) t' = select_history (s_chat_id s) t ->
  join_first_entry t' s = join_first_entry t s.
Proof. intros H. unfold join_first_entry. now rewrite H. Qed.

Lemma select_history_snoc (cid c : string) (l : list HistoryRow) (row : HistoryRow)
      (t t' : Tables) :
  chat_history t' = (chat_history t ++ [row])%list -> h_chat_id row = cid ->
  select_history c t'
  = (select_history c t ++ (if (cid =? c)%string then [row] else []))%list.
Proof.
  intros Hh Hrc. unfold select_history. rewrite Hh, filter_app. simpl.
  now rewrite Hrc.
Qed.



(** ** The diagnostic log *)

Lemma number_from_length (entries : list (string * string)) :
  forall base, List.length (number_from base entries) = List.length entries.
Proof.
  induction entries as [|e r IH]; intros base; simpl; [reflexivity|].
  now rewrite IH.
Qed.

Lemma number_from_snoc (entries : list (string * string)) (e : string * string) :
  forall base,
    number_from base (entries ++ [e])
    = (number_from base entries
       ++ [mkLogEntry (Z.of_nat (S (base + List.length entries))) (fst e) (snd e)])%list.
Proof.
  induction entries as [|x r IH]; intros base; simpl.
  - now rewrite Nat.add_0_r.
  - rewrite IH. do 4 f_equal. lia.
Qed.

(** Dropping the oldest entry when there are 101 is keeping the last 100. *)
Lemma shift_is_slice_last {A} (l : list A) :
  (List.length l <= 101)%nat ->
  (if (100 <? List.length l)%nat then tl l else l) = slice_last 100 l.
Proof.
  intros Hlen. unfold slice_last.
  destruct (100 <? List.length l)%nat eqn:Hb.
  - apply Nat.ltb_lt in Hb.
    replace (List.length l - 100)%nat with 1%nat by lia.
    destruct l; reflexivity.
  - apply Nat.ltb_ge in Hb.
    replace (List.length l - 100)%nat with 0%nat by lia. reflexivity.
Qed.

Lemma addLogs_state (entries : list (string * string)) :
  logs (addLogs entries no_logs) = slice_last 100 (number_from 0 entries) /\
  lastLogId (addLogs entries no_logs) = Z.of_nat (List.length entries).
Proof.
  induction entries as [|e entries IH] using rev_ind.
  - split; reflexivity.
  - destruct IH as [Hlogs Hid].
    unfold addLogs in *. rewrite fold_left_app. simpl.
    set (st := fold_left _ entries no_logs) in *.
    unfold addLog. rewrite Hid, Hlogs.
    assert (Hnext : Z.of_nat (List.length entries) + 1
                    = Z.of_nat (S (0 + List.length entries))) by lia.
    rewrite Hnext.
    assert (Hshift : forall l : list LogEntry,
               (List.length l <= 101)%nat ->
               logs (if (100 <? List.length l)%nat
                     then mkLogState (tl l) (Z.of_nat (S (0 + List.length entries)))
                     else mkLogState l (Z.of_nat (S (0 + List.length entries))))
               = slice_last 100 l /\
               lastLogId (if (100 <? List.length l)%nat
                          then mkLogState (tl l) (Z.of_nat (S (0 + List.length entries)))
                          else mkLogState l (Z.of_nat (S (0 + List.length entries))))
               = Z.of_nat (S (0 + List.length entries))).
    { intros l Hl. rewrite <- (shift_is_slice_last l Hl).
      destruct (100 <? List.length l)%nat; split; reflexivity. }
    match goal with |- context [(100 <? List.length ?l)%nat] =>
      destruct (Hshift l) as [H1 H2]
    end.
    + rewrite length_app, slice_last_length. cbn [List.length]. lia.
    + rewrite H1, H2, slice_last_absorb, number_from_snoc, length_app.
      split; [reflexivity|simpl; lia].
Qed.

(** Entries numbered from [base + 1]: those numbered above [k] among all but
    the first [m]. *)
Lemma poll_numbered (k : nat) (entries : list (string * string)) :
  forall base m,
    filter (fun log => Z.of_nat k <? log_id log) (skipn m (number_from base entries))
    = skipn (Nat.max m (k - base)) (number_from base entries).
Proof.
  induction entries as [|e r IH]; intros base m.
  - simpl. now rewrite !skipn_nil.
  - destruct m as [|m].
    + cbn [skipn number_from filter log_id].
      specialize (IH (S base) 0%nat). cbn [skipn] in IH. rewrite IH.
      destruct (Z.of_nat k <? Z.of_nat (S base)) eqn:Hb.
      * apply Z.ltb_lt in Hb.
        replace (k - base)%nat with 0%nat by lia.
        replace (k - S base)%nat with 0%nat by lia. reflexivity.
      * apply Z.ltb_ge in Hb.
        replace (Nat.max 0 (k - base)) with (S (k - S base)) by lia.
        replace (Nat.max 0 (k - S base)) with (k - S base)%nat by lia.
        reflexivity.
    + cbn [number_from skipn]. rewrite IH.
      destruct (Nat.le_gt_cases k base) as [Hle|Hgt].
      * replace (Nat.max (S m) (k - base)) with (S m) by lia.
        replace (Nat.max m (k - S base)) with m by lia. reflexivity.
      * replace (Nat.max (S m) (k - base)) with (S (Nat.max m (k - S base))) by lia.
        reflexivity.
Qed.

(** X9. The diagnostic log is a ring of 100.  After any number [n] of
    [addLog] calls since server start the log holds the last [min n 100]
    messages in order, numbered consecutively up to [n]; polling GET /api/logs
    with the last id [k] a client has seen returns exactly the entries
    numbered above [k] that are still held, so nothing is skipped as long as
    no more than 100 were logged since. *)
Theorem log_ring :
  forall (entries : list (string * string)),
    let st := addLogs entries no_logs in
    let n := List.length entries in
    logs st = slice_last 100 (number_from 0 entries) /\
    lastLogId st = Z.of_nat n /\
    List.length (logs st) = Nat.min 100 n /\
    (forall k : nat,
        api_logs (Some (Z.of_nat k)) st
        = skipn (Nat.max (n - 100) k) (number_from 0 entries)) /\
    api_logs None st = logs st /\
    (forall k : nat,
        (n <= k + 100)%nat ->
        api_logs (Some (Z.of_nat k)) st = skipn k (number_from 0 entries)).
Proof.
  intros entries st n.
  destruct (addLogs_state entries) as [Hlogs Hid]. fold st in Hlogs, Hid.
  assert (Hpoll : forall k : nat,
             api_logs (Some (Z.of_nat k)) st
             = skipn (Nat.max (n - 100) k) (number_from 0 entries)).
  { intros k. unfold api_logs. rewrite Hlogs. unfold slice_last.
    rewrite number_from_length. fold n.
    replace (if Z.of_nat k =? 0 then 0 else Z.of_nat k) with (Z.of_nat k)
      by (destruct (Z.of_nat k =? 0) eqn:H0; [apply Z.eqb_eq in H0; lia|reflexivity]).
    rewrite poll_numbered. now rewrite Nat.sub_0_r. }
  split; [exact Hlogs|]. split; [exact Hid|]. split; [|split; [exact Hpoll|split]].
  - rewrite Hlogs, slice_last_length, number_from_length. reflexivity.
  - transitivity (api_logs (Some (Z.of_nat 0)) st); [reflexivity|].
    rewrite Hpoll, Hlogs. unfold slice_last. rewrite number_from_length.
    fold n. f_equal. lia.
  - intros k Hk. rewrite Hpoll. f_equal. lia.
Qed.

Lemma log_ring_witness :
  map log_message (api_logs (Some 1) (addLogs three_logs no_logs))
  = ["query received"; "query answered"].
Proof.
  pose proof (proj2 (proj2 (proj2 (proj2 (proj2 (log_ring three_logs))))) 1%nat
                    ltac:(simpl; lia)) as H.
  change (Z.of_nat 1) with 1 in H. rewrite H. reflexivity.
Defined.

(** ** Requests forwarded to the AI backend under retry *)

Section ForwardedRetry.
Context {A : Type}.
Variable env : Env.
Variable oracle : nat -> settled AxiosError A.

Let fn := fun w0 : World => counted (oracle (ai_calls w0)) w0.
Let run := fun w : World =>
             Retry.retryRequest setTimeout (Math_random env) fn 2 1000 w.

Lemma forwarded_db (w : World) : db (snd (run w)) = db w.
Proof.
  apply (retryRequest_preserves setTimeout (Math_random env) fn
                                (fun w' => db w' = db w)); auto.
Qed.

Lemma forwarded_calls (w : World) :
  (ai_calls w < ai_calls (snd (run w)) <= ai_calls w + 3)%nat.
Proof.
  unfold run, Retry.retryRequest. change (Z.to_nat (2 + 1)) with 3%nat. split.
  - now apply (loop_invokes setTimeout (Math_random env) fn ai_calls oracle).
  - now apply (loop_bound setTimeout (Math_random env) fn ai_calls oracle).
Qed.

Lemma forwarded_success (w : World) (k : nat) (a : A) :
  (k < 3)%nat ->
  (forall i, (i < k)%nat -> is_rejected (oracle (ai_calls w + i))) ->
  oracle (ai_calls w + k) = Resolved a ->
  fst (run w) = Resolved a /\ ai_calls (snd (run w)) = (ai_calls w + k + 1)%nat.
Proof.
  intros Hk Hfail Hok. unfold run, Retry.retryRequest.
  change (Z.to_nat (2 + 1)) with 3%nat.
  destruct (loop_resolves setTimeout (Math_random env) fn ai_calls oracle
                          ltac:(reflexivity) ltac:(reflexivity)
                          ltac:(reflexivity) ltac:(reflexivity)
                          k 3 0 2 1000 None w a Hk Hfail Hok) as [H1 H2].
  split; [exact H1|]. rewrite H2. lia.
Qed.

Lemma forwarded_failure (w : World) :
  (forall i, (i < 3)%nat -> is_rejected (oracle (ai_calls w + i))) ->
  fst (run w) = Rejected (error_of (oracle (ai_calls w + 2))) /\
  ai_calls (snd (run w)) = (ai_calls w + 3)%nat.
Proof.
  intros Hfail. unfold run, Retry.retryRequest.
  change (Z.to_nat (2 + 1)) with 3%nat.
  exact (loop_exhausts setTimeout (Math_random env) fn ai_calls oracle
                       ltac:(reflexivity) ltac:(reflexivity)
                       ltac:(reflexivity) ltac:(reflexivity)
                       3 0 2 1000 None w Hfail).
Qed.

End ForwardedRetry.

Lemma forwards_with_retry_intro (env : Env) (oracle : nat -> settled AxiosError json)
      (failure : string) (w : World) :
  forwards_with_retry
    oracle failure w
    (match Retry.retryRequest setTimeout (Math_random env)
                              (fun w0 => counted (oracle (ai_calls w0)) w0)
                              2 1000 w with
     | (Resolved responseData, w1) => (Ok200 responseData, w1)
     | (Rejected _, w1) => (Fail 500 failure, w1)
     end).
Proof.
  pose proof (forwarded_db env oracle w) as Hdb.
  pose proof (forwarded_calls env oracle w) as Hcalls.
  pose proof (forwarded_success env oracle w) as Hok.
  pose proof (forwarded_failure env oracle w) as Hfail.
  unfold forwards_with_retry.
  set (r := Retry.retryRequest setTimeout (Math_random env)
                               (fun w0 => counted (oracle (ai_calls w0)) w0)
                               2 1000 w) in *.
  clearbody r. destruct r as [[d|e] w1];
    cbn [fst snd] in *; (split; [exact Hdb|split; [exact Hcalls|split]]).
  - intros k responseData Hk Hrej Hres.
    destruct (Hok k responseData Hk Hrej Hres) as [H1 H2].
    split; [congruence|exact H2].
  - intros Hall. destruct (Hfail Hall) as [H1 _]. discriminate H1.
  - intros k responseData Hk Hrej Hres.
    destruct (Hok k responseData Hk Hrej Hres) as [H1 _]. discriminate H1.
  - intros Hall. destruct (Hfail Hall) as [_ H2]. split; [reflexivity|exact H2].
Qed.

(** X10. The three plain forwarding handlers, DELETE /api/delete-pdf,
    PUT /api/update-pdf-info and GET /api/random-product-queries, never touch
    the database; they call the AI backend at least once and at most three
    times, answer 200 with the data of the first call that succeeds and 500
    once three calls have failed.  The first two answer 400 without calling
    anything when the user id is missing; the third asks for no user id. *)
Theorem pdf_requests_forwarded :
  forall (env : Env) (backend : PdfBackend) (w : World) (pdf_name : string)
         (new_info : option json),
    api_delete_pdf env backend pdf_name None w
    = (Fail 400 "User ID is required", w) /\
    api_update_pdf_info env backend pdf_name new_info None w
    = (Fail 400 "User ID is required", w) /\
    (forall uid,
        forwards_with_retry (fun n => ai_delete_pdf backend n pdf_name uid)
                            "Failed to delete PDF" w
                            (api_delete_pdf env backend pdf_name (Some uid) w)) /\
    (forall uid,
        forwards_with_retry (fun n => ai_update_pdf_info backend n pdf_name new_info uid)
                            "Failed to update PDF info" w
                            (api_update_pdf_info env backend pdf_name new_info
                                                 (Some uid) w)) /\
    forwards_with_retry (ai_random_product_queries backend)
                        "Failed to fetch random queries" w
                        (api_random_product_queries env backend w).
Proof.
  intros env backend w pdf_name new_info.
  split; [reflexivity|]. split; [reflexivity|]. split; [|split].
  - intros uid.
    apply (forwards_with_retry_intro
             env (fun n => ai_delete_pdf backend n pdf_name uid)).
  - intros uid.
    apply (forwards_with_retry_intro
             env (fun n => ai_update_pdf_info backend n pdf_name new_info uid)).
  - apply (forwards_with_retry_intro env (ai_random_product_queries backend)).
Qed.

Lemma pdf_requests_forwarded_witness :
  fst (api_delete_pdf (sample_env echo_ai)
                      (sample_backend (Resolved JNull)) "iso9001" (Some 1) sample_world)
  = Ok200 (JObj [("message", JStr "deleted")]) /\
  ai_calls (snd (api_delete_pdf (sample_env echo_ai)
                                (sample_backend (Resolved JNull)) "iso9001" (Some 1)
                                sample_world)) = 2%nat.
Proof.
  destruct (pdf_requests_forwarded (sample_env echo_ai)
                                   (sample_backend (Resolved JNull))
                                   sample_world "iso9001" None)
    as (_ & _ & Hdel & _).
  destruct (Hdel 1) as (_ & _ & Hok & _).
  apply (Hok 1%nat (JObj [("message", JStr "deleted")])).
  - lia.
  - intros i Hi. destruct i; [exact I|lia].
  - reflexivity.
Defined.

(** ** GET /api/search-pdfs *)

Lemma search_results_shape (responseData : json) :
  (truthy_primitive responseData = false ->
   truthy_field (results_of (search_results responseData)) = true) /\
  (truthy_primitive responseData = true ->
   search_results responseData = responseData) /\
  (truthy responseData = false ->
   search_results responseData = JObj [("results", JArr [])]).
Proof.
  split; [|split].
  - destruct responseData as [| b | n | s | items | fields]; simpl; intros Hp;
      try reflexivity; try (rewrite Hp; reflexivity).
    destruct (truthy_field (get_field "results" fields)) eqn:Hr; simpl;
      [exact Hr|reflexivity].
  - destruct responseData as [| b | n | s | items | fields]; simpl; intros Hp;
      try discriminate; rewrite Hp; reflexivity.
  - destruct responseData as [| b | n | s | items | fields]; simpl; intros Hp;
      try discriminate; try reflexivity; rewrite Hp; reflexivity.
Qed.

(** X11. GET /api/search-pdfs.  Without a user id the answer is 400 and
    nothing is called.  With one, the search is forwarded under
    [retryRequest(fn, 2, 1000)], the search text only when it is not empty:
    the first answer of the AI backend among at most three calls is answered
    with status 200, reshaped; three failures are answered with status 500 and
    the body [{error, details, results: []}], [details] being the message of
    the last failure.  The reshaping: an array becomes [{results: array}], an
    object without a truthy [results] becomes [{results: [object]}], an object
    with one is passed on, a falsy payload becomes [{results: []}], and a
    truthy string, number or boolean is passed on as it is; so the body of a
    200 has a truthy [results] property unless the backend sent such a
    primitive. *)
Theorem search_pdfs_results :
  forall (env : Env) (backend : PdfBackend) (search_query : option string)
         (w : World),
    api_search_pdfs env backend search_query None w
    = ((400, JObj [("message", JStr "User ID is required")]), w) /\
    (forall uid,
        let sent := if truthy_text search_query then search_query else None in
        let oracle := fun n => ai_search_pdfs backend n sent uid in
        let run := api_search_pdfs env backend search_query (Some uid) w in
        db (snd run) = db w /\
        (ai_calls w < ai_calls (snd run) <= ai_calls w + 3)%nat /\
        (forall k responseData,
            (k < 3)%nat ->
            (forall i, (i < k)%nat -> is_rejected (oracle (ai_calls w + i)%nat)) ->
            oracle (ai_calls w + k)%nat = Resolved responseData ->
            fst run = (200, search_results responseData) /\
            ai_calls (snd run) = (ai_calls w + k + 1)%nat) /\
        (forall err,
            (forall i, (i < 3)%nat -> is_rejected (oracle (ai_calls w + i)%nat)) ->
            oracle (ai_calls w + 2)%nat = Rejected err ->
            fst run = (500, JObj [("error", JStr "Failed to search PDFs");
                                  ("details", JStr (error_message err));
                                  ("results", JArr [])]) /\
            ai_calls (snd run) = (ai_calls w + 3)%nat)) /\
    (forall items,
        search_results (JArr items) = JObj [("results", JArr items)]) /\
    (forall fields,
        truthy_field (get_field "results" fields) = false ->
        search_results (JObj fields) = JObj [("results", JArr [JObj fields])]) /\
    (forall fields,
        truthy_field (get_field "results" fields) = true ->
        search_results (JObj fields) = JObj fields) /\
    (forall responseData,
        truthy responseData = false ->
        search_results responseData = JObj [("results", JArr [])]) /\
    (forall responseData,
        truthy_primitive responseData = true ->
        search_results responseData = responseData) /\
    (forall responseData,
        truthy_primitive responseData = false ->
        truthy_field (results_of (search_results responseData)) = true).
Proof.
  intros env backend search_query w. split; [reflexivity|].
  split; [|split; [|split; [|split; [|split; [|split]]]]].
  - intros uid sent oracle run. subst run.
    unfold api_search_pdfs. fold sent.
    pose proof (forwarded_db env oracle w) as Hdb.
    pose proof (forwarded_calls env oracle w) as Hcalls.
    pose proof (forwarded_success env oracle w) as Hok.
    pose proof (forwarded_failure env oracle w) as Hfail.
    change (Retry.retryRequest setTimeout (Math_random env)
              (fun w0 => counted (ai_search_pdfs backend (ai_calls w0) sent uid) w0)
              2 1000 w)
      with (Retry.retryRequest setTimeout (Math_random env)
              (fun w0 => counted (oracle (ai_calls w0)) w0) 2 1000 w).
    set (r := Retry.retryRequest setTimeout (Math_random env)
                                 (fun w0 => counted (oracle (ai_calls w0)) w0)
                                 2 1000 w) in *.
    clearbody r. destruct r as [[d|e] w1];
      cbn [fst snd] in *; (split; [exact Hdb|split; [exact Hcalls|split]]).
    + intros k responseData Hk Hrej Hres.
      destruct (Hok k responseData Hk Hrej Hres) as [H1 H2].
      split; [|exact H2]. congruence.
    + intros err Hall _. destruct (Hfail Hall) as [H1 _]. discriminate H1.
    + intros k responseData Hk Hrej Hres.
      destruct (Hok k responseData Hk Hrej Hres) as [H1 _]. discriminate H1.
    + intros err Hall Hlast. destruct (Hfail Hall) as [H1 H2].
      split; [|exact H2]. rewrite Hlast in H1. simpl in H1.
      injection H1 as ->. reflexivity.
  - reflexivity.
  - intros fields H. simpl. now rewrite H.
  - intros fields H. simpl. now rewrite H.
  - intros responseData H. now apply search_results_shape.
  - intros responseData H. now apply search_results_shape.
  - intros responseData H. now apply search_results_shape.
Qed.

(** A backend that answers the search with an object that has no [results]:
    the handler wraps it; a backend that is down: 500 with [results: []]. *)
Lemma search_pdfs_results_witness :
  fst (api_search_pdfs (sample_env echo_ai)
         (sample_backend (Resolved (JObj [("count", JNum 0)])))
         (Some "valve") (Some 1) sample_world)
  = (200, JObj [("results", JArr [JObj [("count", JNum 0)]])]) /\
  fst (api_search_pdfs (sample_env echo_ai)
         (sample_backend (Rejected (mkAxiosError "Network Error")))
         (Some "valve") (Some 1) sample_world)
  = (500, JObj [("error", JStr "Failed to search PDFs");
                ("details", JStr "Network Error");
                ("results", JArr [])]).
Proof.
  split.
  - destruct (search_pdfs_results (sample_env echo_ai)
                (sample_backend (Resolved (JObj [("count", JNum 0)])))
                (Some "valve") sample_world) as (_ & H & _).
    destruct (H 1) as (_ & _ & Hok & _).
    apply (Hok 0%nat (JObj [("count", JNum 0)])); [lia|intros i Hi; lia|reflexivity].
  - destruct (search_pdfs_results (sample_env echo_ai)
                (sample_backend (Rejected (mkAxiosError "Network Error")))
                (Some "valve") sample_world) as (_ & H & _).
    destruct (H 1) as (_ & _ & _ & Hfail).
    apply (Hfail (mkAxiosError "Network Error")); [intros i _; exact I|reflexivity].
Defined.

(** ** POST /api/products: outcomes, and the colors of a run of creations *)

Lemma product_retry_calls (env : Env) (title info : option string) (w : World) :
  (ai_calls w
   < ai_calls (snd (Retry.retryRequest setTimeout (Math_random env)
                                       (axios_post_product_queries env title info)
                                       2 1000 w))
   <= ai_calls w + 3)%nat.
Proof.
  unfold Retry.retryRequest. change (Z.to_nat (2 + 1)) with 3%nat. split.
  - now apply (loop_invokes setTimeout (Math_random env)
                            (axios_post_product_queries env title info) ai_calls
                            (fun n => ai_generate_product_queries env n title info)).
  - now apply (loop_bound setTimeout (Math_random env)
                          (axios_post_product_queries env title info) ai_calls
                          (fun n => ai_generate_product_queries env n title info)).
Qed.

Lemma api_create_product_ok (env : Env) (body : ProductBody) (w : World)
      (uid : Z) (title info : string) :
  pb_userId body = Some uid -> pb_title body = Some title ->
  pb_info body = Some info -> storable_product title info ->
  user_exists uid (tables (db w)) = true ->
  let row := mkProduct title uid info
                       (Some (availableColor (usedColors_of uid (tables (db w))))) in
  fst (api_create_product env body w) = Ok200 row /\
  db (snd (api_create_product env body w))
  = mkDb (set_products (products (tables (db w)) ++ [row]) (tables (db w)))
         (txn (db w)) /\
  (ai_calls w < ai_calls (snd (api_create_product env body w)) <= ai_calls w + 3)%nat.
Proof.
  intros Hu Ht Hi [Hpt [Hpi Hlen]] Hex row.
  unfold api_create_product, insert_product.
  rewrite Hu, Ht, Hi.
  destruct (pg_text_parts _ Hpt) as [Hnt _].
  destruct (pg_text_parts _ Hpi) as [Hni _].
  rewrite Hnt, Hni, (pg_text_as_utf8 _ Hpt), (pg_text_as_utf8 _ Hpi).
  rewrite (varchar_fits 255 title Hlen), Hex. fold row.
  set (w0 := set_tables (set_products (products (tables (db w)) ++ [row])
                                      (tables (db w))) w).
  pose proof (product_retry_db env (Some title) (Some info) 2 1000 w0) as Hdb.
  pose proof (product_retry_calls env (Some title) (Some info) w0) as Hcalls.
  destruct (Retry.retryRequest _ _ _ 2 1000 w0) as [r w2].
  cbn [fst snd] in *. split; [reflexivity|]. split; [exact Hdb|exact Hcalls].
Qed.

(** X12. The outcomes of POST /api/products.  Without a user id: 400.  With a
    user id but without a title or without an info, for a user that does not
    exist, for a title or an info with a NUL character, or for a title the
    [VARCHAR(255)] column does not take (more than 255 characters, the excess
    not being spaces only): 500, and the world is as before, so nothing was
    inserted and the AI backend was not called.  With a title and an info the
    table stores as they are sent, the title of at most 255 characters, and an
    existing user, the product is inserted and answered with status 200
    whatever the AI backend does: the generation of product queries is tried
    once to three times and its failure is ignored. *)
Theorem create_product_outcomes :
  forall (env : Env) (body : ProductBody) (w : World),
    let run := api_create_product env body w in
    (pb_userId body = None -> run = (Fail 400 "User ID is required", w)) /\
    (forall uid,
        pb_userId body = Some uid ->
        pb_title body = None \/ pb_info body = None \/
        user_exists uid (tables (db w)) = false \/
        (exists title, pb_title body = Some title /\
                       (has_nul title = true \/
                        varchar 255 (as_utf8 title) = None)) \/
        (exists info, pb_info body = Some info /\ has_nul info = true) ->
        run = (Fail 500 "Failed to create product", w)) /\
    (forall title,
        (255 < chars title)%nat ->
        all_spaces (drop_chars 255 title) = false ->
        varchar 255 title = None) /\
    (forall uid title info,
        pb_userId body = Some uid -> pb_title body = Some title ->
        pb_info body = Some info -> storable_product title info ->
        user_exists uid (tables (db w)) = true ->
        exists row,
          fst run = Ok200 row /\
          p_title row = title /\ p_info row = info /\ p_user_id row = uid /\
          products (tables (db (snd run))) = (products (tables (db w)) ++ [row])%list /\
          chat_sessions (tables (db (snd run))) = chat_sessions (tables (db w)) /\
          chat_history (tables (db (snd run))) = chat_history (tables (db w)) /\
          chat_memory (tables (db (snd run))) = chat_memory (tables (db w)) /\
          (ai_calls w < ai_calls (snd run) <= ai_calls w + 3)%nat) /\
    (forall status message, fst run = Fail status message -> snd run = w).
Proof.
  intros env body w run. subst run. split; [|split; [|split; [|split]]].
  - intros Hu. unfold api_create_product. now rewrite Hu.
  - intros uid Hu Hbad. unfold api_create_product, insert_product. rewrite Hu.
    destruct (pb_title body) as [title|]; [|reflexivity].
    destruct (pb_info body) as [info|]; [|reflexivity].
    destruct (has_nul title) eqn:Hnt; [reflexivity|].
    destruct (has_nul info) eqn:Hni; [reflexivity|].
    destruct (varchar 255 (as_utf8 title)) as [stored|] eqn:Hv; [|reflexivity].
    destruct (user_exists uid (tables (db w))) eqn:Hex; [|reflexivity].
    exfalso.
    destruct Hbad as [Hb|[Hb|[Hb|[(ti & Hti & Hb)|(inf & Hinf & Hb)]]]];
      try discriminate.
    + injection Hti as <-. destruct Hb as [Hb|Hb]; congruence.
    + injection Hinf as <-. congruence.
  - intros title Hlen Hsp. unfold varchar. rewrite Hsp.
    assert (Hle : (chars title <=? 255)%nat = false)
      by (apply Nat.leb_gt; exact Hlen).
    now rewrite Hle.
  - intros uid title info Hu Ht Hi Hst Hex.
    destruct (api_create_product_ok env body w uid title info Hu Ht Hi Hst Hex)
      as (Hr & Hdb & Hcalls).
    eexists. split; [exact Hr|]. rewrite Hdb. simpl.
    repeat split; try reflexivity; apply Hcalls.
  - intros status message. unfold api_create_product, insert_product.
    destruct (pb_userId body) as [uid|]; [|reflexivity].
    destruct (pb_title body) as [title|]; [|reflexivity].
    destruct (pb_info body) as [info|]; [|reflexivity].
    destruct (has_nul title); [reflexivity|].
    destruct (has_nul info); [reflexivity|].
    destruct (varchar 255 (as_utf8 title)) as [stored|]; [|reflexivity].
    destruct (user_exists uid (tables (db w))); [|reflexivity].
    destruct (Retry.retryRequest _ _ _ 2 1000 _) as [r w2]. discriminate.
Qed.

(** A title of 255 characters is stored; one of 256 characters is answered
    with status 500 and nothing is inserted. *)
Lemma create_product_outcomes_witness :
  let long := String.concat "" (repeat "a" 255) in
  let body title := mkProductBody (Some title) (Some "spare part") (Some 1) in
  (exists row,
      fst (api_create_product (sample_env echo_ai) (body long) sample_world)
      = Ok200 row /\
      p_title row = long /\
      List.length (products (tables (db (snd (api_create_product
                     (sample_env echo_ai) (body long) sample_world))))) = 3%nat) /\
  api_create_product (sample_env echo_ai) (body ("a" ++ long)) sample_world
  = (Fail 500 "Failed to create product", sample_world).
Proof.
  intros long body. split.
  - destruct (proj1 (proj2 (proj2 (proj2
                (create_product_outcomes (sample_env echo_ai) (body long)
                                         sample_world))))
                1 long "spare part" eq_refl eq_refl eq_refl)
      as [row (Hr & Ht & Hi & Hu & Hp & _)].
    + split; [reflexivity|]. split; [reflexivity|].
      apply Nat.leb_le. reflexivity.
    + reflexivity.
    + exists row. split; [exact Hr|]. split; [exact Ht|].
      rewrite Hp, length_app. reflexivity.
  - apply (proj1 (proj2 (create_product_outcomes (sample_env echo_ai)
                           (body ("a" ++ long)) sample_world)) 1 eq_refl).
    right. right. right. left. exists ("a" ++ long).
    split; [reflexivity|]. right. reflexivity.
Defined.

Lemma includes_in (l : list string) (c : string) :
  In c l -> includes (map Some l) c = true.
Proof.
  intros Hin. unfold includes. apply existsb_exists.
  exists (Some c). split; [now apply in_map|apply String.eqb_refl].
Qed.

Lemma assigned_colors_S (m : nat) :
  assigned_colors (S m) = (assigned_colors m ++ [nth m colors "red"])%list.
Proof. unfold assigned_colors. rewrite seq_S, map_app. reflexivity. Qed.

Lemma availableColor_next (m : nat) :
  availableColor (map Some (assigned_colors m)) = nth m colors "red".
Proof.
  destruct (Nat.lt_ge_cases m 6) as [Hlt|Hge].
  - do 6 (destruct m as [|m]; [reflexivity|]). lia.
  - rewrite nth_overflow by (simpl; lia).
    unfold availableColor. rewrite find_none; [reflexivity|].
    apply Forall_forall. intros c Hc. rewrite includes_in; [reflexivity|].
    replace m with (6 + (m - 6))%nat by lia.
    unfold assigned_colors. rewrite seq_app, map_app.
    apply in_or_app. left. exact Hc.
Qed.

Lemma create_products_colors (env : Env) (uid : Z) (bodies : list ProductBody) :
  forall (w : World) (m : nat),
    user_exists uid (tables (db w)) = true ->
    usedColors_of uid (tables (db w)) = map Some (assigned_colors m) ->
    Forall (product_body_for uid) bodies ->
    Forall completed (fst (create_products env bodies w)) /\
    usedColors_of uid (tables (db (snd (create_products env bodies w))))
    = map Some (assigned_colors (m + List.length bodies)) /\
    List.length (fst (create_products env bodies w)) = List.length bodies.
Proof.
  induction bodies as [|body rest IH]; intros w m Hex Hused Hall.
  - simpl. rewrite Nat.add_0_r. repeat split; [constructor|exact Hused].
  - inversion Hall as [|? ? (Hu & title & info & Etitle & Einfo & Hst) Hrest];
      subst.
    destruct (api_create_product_ok env body w uid title info
                Hu Etitle Einfo Hst Hex)
      as (Hr & Hdb & _).
    cbn [create_products].
    destruct (api_create_product env body w) as [r w1]. cbn [fst snd] in Hr, Hdb.
    assert (Hex1 : user_exists uid (tables (db w1)) = true)
      by (rewrite Hdb; exact Hex).
    assert (Hused1 : usedColors_of uid (tables (db w1))
                     = map Some (assigned_colors (S m))).
    { rewrite Hdb. unfold usedColors_of. cbn [tables products set_products].
      rewrite filter_app, map_app. cbn [filter p_user_id].
      rewrite Z.eqb_refl. cbn [map p_color].
      fold (usedColors_of uid (tables (db w))).
      rewrite Hused, availableColor_next, assigned_colors_S, map_app.
      reflexivity. }
    destruct (IH w1 (S m) Hex1 Hused1 Hrest) as (Hc & Hcol & Hlen).
    destruct (create_products env rest w1) as [rs w2]. cbn [fst snd] in *.
    split; [|split].
    + constructor; [rewrite Hr; exact I|exact Hc].
    + rewrite Hcol. cbn [List.length].
      now replace (m + S (List.length rest))%nat with (S m + List.length rest)%nat by lia.
    + cbn [List.length]. now rewrite Hlen.
Qed.

Lemma firstn_of_seq (k : nat) :
  forall start len, firstn k (seq start len) = seq start (Nat.min k len).
Proof.
  induction k as [|k IH]; intros start len; [reflexivity|].
  destruct len as [|len]; [reflexivity|]. simpl. now rewrite IH.
Qed.

(** X13. Colors over a run of creations: when a user who has no product yet
    creates products one after the other, each with a title and a description
    the table stores as they are sent and a title of at most 255 characters,
    every creation succeeds and the colors handed out are the palette in its
    order, red, purple, orange, green, blue, white, and red for every product
    after the sixth; the product list of the user shows them newest first. *)
Theorem product_colors_in_order :
  forall (env : Env) (uid : Z) (bodies : list ProductBody) (w : World),
    user_exists uid (tables (db w)) = true ->
    usedColors_of uid (tables (db w)) = [] ->
    Forall (product_body_for uid) bodies ->
    let run := create_products env bodies w in
    Forall completed (fst run) /\
    List.length (fst run) = List.length bodies /\
    exists listed,
      fst (api_products (Some uid) (snd run)) = Ok200 listed /\
      map p_color listed
      = rev (map Some (assigned_colors (List.length bodies))) /\
      firstn 6 (assigned_colors (List.length bodies))
      = firstn (List.length bodies) colors /\
      Forall (fun c => c = "red") (skipn 6 (assigned_colors (List.length bodies))).
Proof.
  intros env uid bodies w Hex Hnone Hall run. subst run.
  destruct (create_products_colors env uid bodies w 0 Hex Hnone Hall)
    as (Hc & Hcol & Hlen).
  split; [exact Hc|]. split; [exact Hlen|].
  eexists. split; [reflexivity|]. split; [|split].
  - rewrite map_rev. f_equal. exact Hcol.
  - unfold assigned_colors. rewrite firstn_map, firstn_of_seq.
    set (n := List.length bodies).
    destruct (Nat.le_gt_cases n 6) as [Hle|Hgt].
    + replace (Nat.min 6 n) with n by lia.
      do 7 (destruct n as [|n]; [reflexivity|]). lia.
    + replace (Nat.min 6 n) with 6%nat by lia.
      rewrite (firstn_all2 (n := n)) by (simpl; lia). reflexivity.
  - unfold assigned_colors. rewrite skipn_map, skipn_seq.
    apply Forall_forall. intros c Hin. apply in_map_iff in Hin.
    destruct Hin as [k [<- Hk]]. apply in_seq in Hk.
    apply nth_overflow. simpl. lia.
Qed.

Lemma product_colors_in_order_witness :
  user_exists 2 (tables (db sample_world)) = true /\
  usedColors_of 2 (tables (db sample_world)) = [] /\
  exists listed,
    fst (api_products (Some 2)
                      (snd (create_products (sample_env echo_ai) seven_products
                                            sample_world))) = Ok200 listed /\
    map p_color listed
    = [Some "red"; Some "white"; Some "blue"; Some "green"; Some "orange";
       Some "purple"; Some "red"].
Proof.
  split; [reflexivity|]. split; [reflexivity|].
  destruct (product_colors_in_order
              (sample_env echo_ai) 2 seven_products sample_world eq_refl eq_refl)
    as (_ & _ & listed & Hl & Hc & _).
  - unfold seven_products.
    repeat (constructor;
            [split; [reflexivity|];
             eexists; eexists; split; [reflexivity|]; split; [reflexivity|];
             split; [reflexivity|]; split; [reflexivity|]; simpl; lia|]).
    constructor.
  - exists listed. split; [exact Hl|exact Hc].
Defined.

(** ** The fallback generator *)

Lemma defaultQueries_NoDup (q : option string) : NoDup (defaultQueries q).
Proof.
  unfold defaultQueries.
  repeat (constructor;
          [simpl; intros H;
           repeat (destruct H as [H|H]; [discriminate H|]); exact H|]).
  constructor.
Qed.

Lemma NoDup_firstn {A} (n : nat) (l : list A) : NoDup l -> NoDup (firstn n l).
Proof.
  intros H. rewrite <- (firstn_skipn n l) in H.
  now apply NoDup_app_remove_r in H.
Qed.

Lemma NoDup_map_suggestion (l : list string) :
  NoDup l -> NoDup (map suggestion l).
Proof.
  induction 1 as [|x l Hx Hl IH]; simpl; constructor; [|exact IH].
  intros Hin. apply in_map_iff in Hin. destruct Hin as [y [Hy Hin]].
  injection Hy as ->. contradiction.
Qed.

(** X14. The fallback generator returns [count] suggestions, but never more
    than the eight templates it has; they are pairwise different, each is one
    of the eight templates filled with the query and tagged "Generated
    suggestion", and a missing query is printed as "undefined". *)
Theorem generated_suggestions :
  forall (env : Env) (q : option string) (count : nat) (w : World),
    sort_permutes env ->
    let out := fst (generateAdditionalQueries env q count w) in
    List.length out = Nat.min count 8 /\
    NoDup out /\
    (forall j, In j out ->
               exists text,
                 In text (defaultQueries q) /\
                 j = JObj [("query", JStr text);
                           ("context", JStr "Generated suggestion")]) /\
    (q = None ->
     In "What standards govern undefined?" (defaultQueries q)).
Proof.
  intros env q count w Hperm out. subst out.
  unfold generateAdditionalQueries. cbn [fst].
  pose proof (Hperm (reads w) (defaultQueries q)) as Hp.
  split; [|split; [|split]].
  - rewrite length_map, length_firstn, <- (Permutation_length Hp),
      defaultQueries_length. reflexivity.
  - apply NoDup_map_suggestion, NoDup_firstn.
    apply (Permutation_NoDup Hp). apply defaultQueries_NoDup.
  - intros j Hin. apply in_map_iff in Hin. destruct Hin as [text [<- Hin]].
    exists text. split; [|reflexivity].
    apply (Permutation_in _ (Permutation_sym Hp)).
    rewrite <- (firstn_skipn count (random_sort env (reads w) (defaultQueries q))).
    apply in_or_app. now left.
  - intros ->. simpl. tauto.
Qed.

Lemma generated_suggestions_witness :
  sort_permutes (sample_env echo_ai) /\
  List.length (fst (generateAdditionalQueries (sample_env echo_ai) (Some "iso 9001")
                                              12 sample_world)) = 8%nat.
Proof.
  split; [apply sample_env_permutes|].
  apply (proj1 (generated_suggestions (sample_env echo_ai) (Some "iso 9001") 12
                                      sample_world (sample_env_permutes echo_ai))).
Defined.

(** ** Deleting a chat and asking again under its id *)

Lemma api_delete_chat_owner (w : World) (cid : string) (uid : Z) :
  cid <> "" -> idle w ->
  select_owned_session cid uid (tables (db w)) <> [] ->
  api_delete_chat (Some cid) (Some uid) w
  = (Ok200 "Chat deleted successfully",
     set_db (mkDb (fst (delete_session cid uid
                          (delete_history cid (delete_memory cid (tables (db w))))))
                  None) w).
Proof.
  intros Hcid Hidle Howned.
  destruct (truthy_some _ Hcid) as [Htrue Hor].
  assert (Hb : tables (BEGIN (db w)) = tables (db w))
    by (unfold BEGIN; destruct (txn (db w)); reflexivity).
  unfold api_delete_chat. rewrite Htrue, Hor. cbn [negb]. rewrite Hb.
  destruct (select_owned_session cid uid (tables (db w))) as [|s0 rest] eqn:Hsel;
    [congruence|].
  cbn [List.length Nat.eqb]. unfold delete_session.
  unfold select_owned_session in *. cbn [chat_sessions delete_history delete_memory
                                          set_history set_memory].
  rewrite Hsel. cbn [List.length Nat.eqb]. reflexivity.
Qed.

(** X15. Deleting a chat forgets it.  After the owner has deleted a chat, a
    query that any user completes under the same chat id starts from nothing:
    the memory stored for the id is just the two messages of that exchange,
    the history of the id is just its one row, and the one session row with
    that id is new and belongs to the user who asked. *)
Theorem query_after_delete_starts_afresh :
  forall (env : Env) (w : World) (cid : string) (owner : Z) (body : QueryBody)
         (reply : QueryReply) (w2 : World),
    cid <> "" ->
    idle w ->
    sessions_pk (tables (db w)) ->
    select_owned_session cid owner (tables (db w)) <> [] ->
    chat_id body = Some cid ->
    api_query env body (snd (api_delete_chat (Some cid) (Some owner) w))
    = (Ok200 reply, w2) ->
    chatId reply = cid /\
    getMemory cid (tables (db w2))
    = [mkMessage user (query body); mkMessage assistant (answer (data reply))] /\
    (exists row,
        select_history cid (tables (db w2)) = [row] /\
        Some (h_query row) = query body /\
        Some (h_answer row) = answer (data reply)) /\
    (exists uid name,
        userId body = Some uid /\
        filter (fun s => (s_chat_id s =? cid)%string) (chat_sessions (tables (db w2)))
        = [mkSession cid uid name (Some false)]).
Proof.
  intros env w cid owner body reply w2 Hcid Hidle Hpk Howned Hbody Hok.
  rewrite (api_delete_chat_owner w cid owner Hcid Hidle Howned) in Hok.
  cbn [snd] in Hok.
  set (t1 := fst (delete_session cid owner
                    (delete_history cid (delete_memory cid (tables (db w)))))) in *.
  set (w1 := set_db (mkDb t1 None) w) in *.
  assert (Hgone : session_exists cid t1 = false).
  { unfold session_exists, t1. cbn [fst delete_session chat_sessions set_sessions].
    now apply pk_delete_owned. }
  assert (Hnomem : getMemory cid t1 = []).
  { unfold getMemory, select_memory, t1. simpl.
    now rewrite filter_filter_negb. }
  assert (Hnohist : select_history cid t1 = []).
  { unfold select_history, t1. simpl. apply filter_filter_negb. }
  destruct (resolve_chat_id_supplied env body w1 cid Hbody Hcid) as [Hres Hload].
  destruct (api_query_memory env body w1 w2 reply Hok) as [Hget _].
  destruct (api_query_ok_tables env body w1 w2 reply Hok)
    as (uid & name & row & Hu & _ & Hs & Hh & Hrc & Hru & Hq & Ha).
  destruct (api_query_ok env body w1 w2 reply Hok)
    as (_ & _ & _ & _ & _ & _ & _ & _ & _ & _ & _ & _ & Hchat & _).
  rewrite Hres in Hchat. cbn [fst] in Hchat.
  rewrite Hchat in *.
  change (tables (db w1)) with t1 in *.
  rewrite Hload, Hnomem in Hget. rewrite Hgone in Hs.
  split; [reflexivity|]. split; [exact Hget|]. split.
  - exists row. split; [|split; assumption].
    unfold select_history in *. rewrite Hh, filter_app, Hnohist.
    cbn [filter app]. now rewrite Hrc, String.eqb_refl.
  - exists uid, name. split; [exact Hu|].
    rewrite Hs, filter_app.
    unfold session_exists in Hgone. rewrite (filter_nil_existsb _ _ Hgone).
    cbn [filter app s_chat_id]. now rewrite String.eqb_refl.
Qed.

Lemma query_after_delete_starts_afresh_witness :
  "c1" <> "" /\ idle sample_world /\ sessions_pk (tables (db sample_world)) /\
  select_owned_session "c1" 1 (tables (db sample_world)) <> [] /\
  exists reply w2,
    api_query (sample_env echo_ai) (ask "c1" 2 "anyone there")
              (snd (api_delete_chat (Some "c1") (Some 1) sample_world))
    = (Ok200 reply, w2) /\
    getMemory "c1" (tables (db w2))
    = [mkMessage user (Some "anyone there");
       mkMessage assistant (Some "re: anyone there")].
Proof.
  split; [discriminate|]. split; [reflexivity|].
  split; [exact sample_tables_pk|]. split; [discriminate|].
  eexists. eexists. split; [reflexivity|].
  apply (query_after_delete_starts_afresh
           (sample_env echo_ai) sample_world "c1" 1 (ask "c1" 2 "anyone there") _ _
           ltac:(discriminate) eq_refl sample_tables_pk ltac:(discriminate)
           eq_refl eq_refl).
Defined.
